(** * Yogurt-maker firmware: temperature acquisition and menu automaton

    A shallow embedding of [adc.c] (sampling filter, calibration-table
    walk) and of [menu.c] (the interaction state machine), with the parts
    of [buttons.c] and [display.c] that the menu calls.

    Target: STM8 / SDCC.  [unsigned char] is 8 bits, [int] and
    [unsigned int] are 16 bits, [unsigned long] is 32 bits.  Every C
    integer is a [Z] and each wrap-around is written where the C
    arithmetic performs it. *)

From Stdlib Require Import ZArith List Lia Bool Ascii.
Import ListNotations.
Local Open Scope Z_scope.

(* ================================================================== *)
(** ** Machine integers *)

Definition u8 (z : Z) : Z := z mod 2 ^ 8.
Definition u16 (z : Z) : Z := z mod 2 ^ 16.
Definition u32 (z : Z) : Z := z mod 2 ^ 32.

(** Conversion of a 16-bit pattern to [int] (two's complement). *)
Definition s16 (z : Z) : Z := (z + 2 ^ 15) mod 2 ^ 16 - 2 ^ 15.

Definition INT_MIN : Z := - 2 ^ 15.
Definition INT_MAX : Z := 2 ^ 15 - 1.
Definition fits_int (z : Z) : Prop := INT_MIN <= z <= INT_MAX.

(* ================================================================== *)
(** ** Outcomes of code that reads a table and divides *)

Inductive outcome (A : Type) : Type :=
| Done (a : A)
| OutOfBounds (index : Z)      (* a read of rawAdc[index] outside the array *)
| DivByZero
| OutOfFuel.                   (* the loop did not finish within the bound *)

Arguments Done {A} a.
Arguments OutOfBounds {A} index.
Arguments DivByZero {A}.
Arguments OutOfFuel {A}.

Definition bind {A B : Type} (m : outcome A) (k : A -> outcome B) : outcome B :=
  match m with
  | Done a => k a
  | OutOfBounds i => OutOfBounds i
  | DivByZero => DivByZero
  | OutOfFuel => OutOfFuel
  end.

Notation "x <- m ;; k" := (bind m (fun x => k))
  (at level 61, m at next level, right associativity).

Definition udiv16 (a b : Z) : outcome Z :=
  if b =? 0 then DivByZero else Done (a / b).

(* ================================================================== *)
(** ** adc.c *)

Module ADC.

Definition ADC_AVERAGING_BITS : Z := 4.
Definition ADC_RAW_TABLE_BASE_TEMP : Z := -520.

Definition rawAdc : list Z :=
  [ 974; 971; 967; 964; 960; 956; 953; 948; 944; 940;
    935; 930; 925; 920; 914; 909; 903; 897; 891; 884;
    877; 871; 864; 856; 849; 841; 833; 825; 817; 809;
    800; 791; 782; 773; 764; 754; 745; 735; 725; 715;
    705; 695; 685; 675; 664; 654; 644; 633; 623; 612;
    601; 591; 580; 570; 559; 549; 538; 528; 518; 507;
    497; 487; 477; 467; 457; 448; 438; 429; 419; 410;
    401; 392; 383; 375; 366; 358; 349; 341; 333; 326;
    318; 310; 303; 296; 289; 282; 275; 269; 262; 256;
    250; 244; 238; 232; 226; 221; 215; 210; 205; 200;
    195; 191; 186; 181; 177; 173; 169; 165; 161; 157;
    153; 149; 146; 142; 139; 136; 132; 129; 126; 123;
    120; 117; 115; 112; 109; 107; 104; 102; 100; 97;
    95; 93; 91; 89; 87; 85; 83; 81; 79; 78;
    76; 74; 73; 71; 69; 68; 67; 65; 64; 62;
    61; 60; 58; 57; 56; 55; 54; 53; 52; 51;
    49; 48; 47; 47; 46 ].

(** [sizeof(rawAdc) / sizeof(rawAdc[0])] *)
Definition ADC_RAW_TABLE_SIZE : Z := Z.of_nat (length rawAdc).

(** The value of the table at a valid index (0 elsewhere); used in
    statements only, the code reads through [rawAdc_at]. *)
Definition tab (i : Z) : Z := nth (Z.to_nat i) rawAdc 0.

(** [rawAdc[i]] as the code evaluates it: an index outside the array is
    an out-of-bounds read. *)
Definition rawAdc_at (i : Z) : outcome Z :=
  if (0 <=? i) && (i <? ADC_RAW_TABLE_SIZE) then Done (tab i) else OutOfBounds i.

Record adc_state : Type := mkAdc {
  result : Z;        (* static unsigned int result *)
  averaged : Z       (* static unsigned long averaged *)
}.

(** [initADC]: the register writes configure the hardware, the two
    statics are cleared. *)
Definition initADC : adc_state := {| result := 0; averaged := 0 |}.

Definition getAdcResult (s : adc_state) : Z := result s.

Definition getAdcAveraged (s : adc_state) : Z :=
  u16 (Z.shiftr (averaged s) ADC_AVERAGING_BITS).

(** The [while] loop of [getTemperature].  [leftBound], [rightBound] and
    [midId] are [unsigned char]; the comparison and the sum are done in
    [int]. *)
Fixpoint search (fuel : nat) (val leftBound rightBound : Z) : outcome (Z * Z) :=
  if rightBound - leftBound >? 1 then
    match fuel with
    | O => OutOfFuel
    | S fuel' =>
        let midId := u8 (Z.shiftr (leftBound + rightBound) 1) in
        x <- rawAdc_at midId ;;
        if val >? x
        then search fuel' val leftBound midId
        else search fuel' val midId rightBound
    end
  else Done (leftBound, rightBound).

(** The interpolation step: the value left in [val]. *)
Definition interpolate (val leftBound rightBound : Z) : outcome Z :=
  xl <- rawAdc_at leftBound ;;
  if val >=? xl then
    Done (u16 (leftBound * 10))
  else
    xr <- rawAdc_at rightBound ;;
    q <- udiv16 (u16 (u16 (val - xr) * 10)) (u16 (xl - xr)) ;;
    Done (u16 (rightBound * 10 - q)).

(** The table walk of [getTemperature]: tenths of a degree above the
    base temperature.  Each round of the loop narrows the gap between
    the bounds, so the initial gap bounds the number of rounds. *)
Definition tableTemp (val : Z) : outcome Z :=
  let rightBound := u8 ADC_RAW_TABLE_SIZE in
  let leftBound := 0 in
  lr <- search (Z.to_nat rightBound) val leftBound rightBound ;;
  interpolate val (fst lr) (snd lr).

(** [getTemperature].  [correction] is what
    [getParamById(PARAM_TEMPERATURE_CORRECTION)] returns; [params.c] is
    not part of the sources at hand, so the value is an argument.  The
    sum is computed in [unsigned int] and converted to [int] on return. *)
Definition getTemperature (correction : Z) (s : adc_state) : outcome Z :=
  let val := u16 (Z.shiftr (averaged s) ADC_AVERAGING_BITS) in
  t <- tableTemp val ;;
  Done (s16 (u16 (u16 (ADC_RAW_TABLE_BASE_TEMP + t) + correction))).

(** [ADC1_EOC_handler].  [ADC_DRH] and [ADC_DRL] are the two 8-bit data
    registers read by the handler. *)
Definition sample (ADC_DRH ADC_DRL : Z) : Z :=
  Z.lor (u16 (Z.shiftl ADC_DRH 2)) ADC_DRL.

Definition ADC1_EOC_handler (ADC_DRH ADC_DRL : Z) (s : adc_state) : adc_state :=
  let result' := sample ADC_DRH ADC_DRL in
  let averaged' :=
    if averaged s =? 0 then
      u32 (u16 (Z.shiftl result' ADC_AVERAGING_BITS))
    else
      u32 (averaged s + u32 (result' - Z.shiftr (averaged s) ADC_AVERAGING_BITS)) in
  {| result := result'; averaged := averaged' |}.

(** Feeding a list of register readings, oldest first. *)
Definition feed (samples : list (Z * Z)) (s : adc_state) : adc_state :=
  fold_left (fun st dr => ADC1_EOC_handler (fst dr) (snd dr) st) samples s.

Definition is_byte (z : Z) : Prop := 0 <= z < 256.

(** The raw samples ([result]) that a list of register readings gives. *)
Definition raw_values (samples : list (Z * Z)) : list Z :=
  map (fun dr => sample (fst dr) (snd dr)) samples.

Definition all_bytes (samples : list (Z * Z)) : Prop :=
  Forall (fun dr => is_byte (fst dr) /\ is_byte (snd dr)) samples.

(** How far an accumulator value [a] is from the band
    [16 r .. 16 r + 15], in which the filtered value is [r]. *)
Definition distance (r a : Z) : Z :=
  if a <? 16 * r then 16 * r - a
  else if 16 * r + 15 <? a then a - (16 * r + 15)
  else 0.

Definition minimum (l : list Z) : Z := fold_right Z.min (hd 0 l) l.
Definition maximum (l : list Z) : Z := fold_right Z.max (hd 0 l) l.

(** A check of every adjacent pair of a list; [k] is the position of the
    head. *)
Fixpoint adjacent (P : nat -> Z -> Z -> bool) (k : nat) (l : list Z) : bool :=
  match l with
  | x :: t =>
      match t with
      | y :: _ => P k x y && adjacent P (S k) t
      | [] => true
      end
  | [] => true
  end.

Definition strictly_decreasing (l : list Z) : Prop :=
  forall i j : nat, (i < j < length l)%nat -> nth j l 0 < nth i l 0.

End ADC.

(* ================================================================== *)
(** ** buttons.c: the three queries used by the menu *)

Module Buttons.

Definition BUTTON1_BIT : Z := 0x08.
Definition BUTTON2_BIT : Z := 0x10.
Definition BUTTON3_BIT : Z := 0x20.

(** [return status & BUTTONn_BIT;] converted to [bool]. *)
Definition getButton1 (status : Z) : bool := negb (Z.land status BUTTON1_BIT =? 0).
Definition getButton2 (status : Z) : bool := negb (Z.land status BUTTON2_BIT =? 0).
Definition getButton3 (status : Z) : bool := negb (Z.land status BUTTON3_BIT =? 0).

End Buttons.

(* ================================================================== *)
(** ** menu.c *)

Module Menu.

(** The identifiers that [menu.c] takes from [menu.h] and [params.h].
    Neither header is among the sources, so their values are left
    open. *)
Class Header : Type := {
  MENU_ROOT : Z;
  MENU_SELECT_PARAM : Z;
  MENU_CHANGE_PARAM : Z;
  MENU_SET_TIMER : Z;
  MENU_EVENT_PUSH_BUTTON1 : Z;
  MENU_EVENT_PUSH_BUTTON2 : Z;
  MENU_EVENT_PUSH_BUTTON3 : Z;
  MENU_EVENT_RELEASE_BUTTON1 : Z;
  MENU_EVENT_RELEASE_BUTTON2 : Z;
  MENU_EVENT_RELEASE_BUTTON3 : Z;
  MENU_EVENT_CHECK_TIMER : Z;
  PARAM_FERMENTATION_TIME : Z
}.

(** The functions of [params.c], [relay.c] and [timer.c] called by the
    menu, acting on a state [W] of their own.  Queries read [W],
    commands transform it. *)
Class Collaborators (W : Type) : Type := {
  setParamId : Z -> W -> W;
  incParamId : W -> W;
  decParamId : W -> W;
  incParam : W -> W;
  decParam : W -> W;
  storeParams : W -> W;
  isRelayEnabled : W -> bool;
  enableRelay : bool -> W -> W;
  isFTimer : W -> bool;
  startFTimer : W -> W;
  stopFTimer : W -> W;
  getUptimeTicks : W -> Z
}.

Definition MENU_1_SEC_PASSED : Z := 32.
Definition MENU_3_SEC_PASSED : Z := MENU_1_SEC_PASSED * 3.
Definition MENU_5_SEC_PASSED : Z := MENU_1_SEC_PASSED * 5.
Definition MENU_AUTOINC_DELAY : Z := MENU_1_SEC_PASSED / 8.

Section Machine.

Context {hdr : Header} {W : Type} {col : Collaborators W}.

Record machine : Type := mkMachine {
  menuDisplay : Z;      (* menu.c: static unsigned char menuDisplay *)
  menuState : Z;        (* menu.c: static unsigned char menuState *)
  timer : Z;            (* menu.c: static unsigned int timer *)
  status : Z;           (* buttons.c: static unsigned char status *)
  displayOff : bool;    (* display.c: displayOff *)
  ext : W               (* state of params.c, relay.c, timer.c *)
}.

Definition set_menuDisplay (v : Z) (s : machine) : machine :=
  mkMachine v (menuState s) (timer s) (status s) (displayOff s) (ext s).
Definition set_menuState (v : Z) (s : machine) : machine :=
  mkMachine (menuDisplay s) v (timer s) (status s) (displayOff s) (ext s).
Definition set_timer (v : Z) (s : machine) : machine :=
  mkMachine (menuDisplay s) (menuState s) v (status s) (displayOff s) (ext s).

(** [menuState = menuDisplay = v;] *)
Definition set_menu (v : Z) (s : machine) : machine :=
  set_menuState v (set_menuDisplay v s).

(** display.c: [setDisplayOff] *)
Definition setDisplayOff (val : bool) (s : machine) : machine :=
  mkMachine (menuDisplay s) (menuState s) (timer s) (status s) val (ext s).

(** A command of a collaborator. *)
Definition call (f : W -> W) (s : machine) : machine :=
  mkMachine (menuDisplay s) (menuState s) (timer s) (status s) (displayOff s) (f (ext s)).

Definition getButton1 (s : machine) : bool := Buttons.getButton1 (status s).
Definition getButton2 (s : machine) : bool := Buttons.getButton2 (status s).
Definition getButton3 (s : machine) : bool := Buttons.getButton3 (status s).

Definition initMenu (s : machine) : machine :=
  set_menu MENU_ROOT (set_timer 0 s).

Definition getMenuDisplay (s : machine) : Z := menuDisplay s.

(** The auto-repeat block shared by the three editing states: [up] and
    [down] are the calls made for button 2 and button 3. *)
Definition autoRepeat (up down : W -> W) (s : machine) : machine :=
  if getButton2 s then set_timer MENU_1_SEC_PASSED (call up s)
  else if getButton3 s then set_timer MENU_1_SEC_PASSED (call down s)
  else s.

(** [feedMenu], branch [menuState == MENU_ROOT]. *)
Definition feedRoot (event : Z) (s : machine) : machine :=
  if event =? MENU_EVENT_PUSH_BUTTON1 then
    set_menuDisplay MENU_SET_TIMER (set_timer 0 s)
  else if event =? MENU_EVENT_RELEASE_BUTTON1 then
    let s1 := if timer s <? MENU_5_SEC_PASSED
              then set_menuState MENU_SET_TIMER s else s in
    set_timer 0 s1
  else if event =? MENU_EVENT_CHECK_TIMER then
    if timer s >? MENU_3_SEC_PASSED then
      let s1 := set_timer 0 s in
      if getButton1 s1 then
        set_menu MENU_SELECT_PARAM (call (setParamId 0) s1)
      else if getButton2 s1 then
        if isRelayEnabled (ext s1) && negb (isFTimer (ext s1))
        then call (enableRelay false) s1
        else call (enableRelay true) s1
      else if getButton3 s1 then
        if isFTimer (ext s1)
        then call (enableRelay false) (call stopFTimer s1)
        else call (enableRelay true) (call startFTimer s1)
      else s1
    else s
  else
    if timer s >? MENU_5_SEC_PASSED
    then set_menu MENU_ROOT (set_timer 0 s)
    else s.

(** [feedMenu], branch [menuState == MENU_SELECT_PARAM].  A [case]
    without [break] runs on into the next one. *)
Definition feedSelectParam (event : Z) (s : machine) : machine :=
  if event =? MENU_EVENT_PUSH_BUTTON1 then
    set_timer 0 (set_menu MENU_CHANGE_PARAM s)
  else if event =? MENU_EVENT_RELEASE_BUTTON1 then
    set_timer 0 s
  else if event =? MENU_EVENT_PUSH_BUTTON2 then
    set_timer 0 (call incParamId s)
  else if event =? MENU_EVENT_RELEASE_BUTTON2 then
    set_timer 0 s
  else if event =? MENU_EVENT_PUSH_BUTTON3 then
    set_timer 0 (call decParamId s)
  else if event =? MENU_EVENT_RELEASE_BUTTON3 then
    set_timer 0 s
  else if event =? MENU_EVENT_CHECK_TIMER then
    let s1 := if timer s >? MENU_1_SEC_PASSED + MENU_AUTOINC_DELAY
              then autoRepeat incParamId decParamId s else s in
    if timer s1 >? MENU_5_SEC_PASSED then
      set_menu MENU_ROOT (call storeParams (call (setParamId 0) (set_timer 0 s1)))
    else s1
  else s.

(** [feedMenu], branch [menuState == MENU_CHANGE_PARAM]. *)
Definition feedChangeParam (event : Z) (s : machine) : machine :=
  if event =? MENU_EVENT_PUSH_BUTTON1 then
    set_timer 0 (set_menu MENU_SELECT_PARAM s)
  else if event =? MENU_EVENT_RELEASE_BUTTON1 then
    set_timer 0 s
  else if event =? MENU_EVENT_PUSH_BUTTON2 then
    set_timer 0 (call incParam s)
  else if event =? MENU_EVENT_RELEASE_BUTTON2 then
    set_timer 0 s
  else if event =? MENU_EVENT_PUSH_BUTTON3 then
    set_timer 0 (call decParam s)
  else if event =? MENU_EVENT_RELEASE_BUTTON3 then
    set_timer 0 s
  else if event =? MENU_EVENT_CHECK_TIMER then
    let s1 := if timer s >? MENU_1_SEC_PASSED + MENU_AUTOINC_DELAY
              then autoRepeat incParam decParam s else s in
    if getButton1 s1 && (timer s1 >? MENU_3_SEC_PASSED) then
      set_menu MENU_SELECT_PARAM (set_timer 0 s1)
    else if timer s1 >? MENU_5_SEC_PASSED then
      set_menu MENU_ROOT (call storeParams (set_timer 0 s1))
    else s1
  else s.

(** [(bool)((unsigned char)getUptimeTicks() & 0x80)] *)
Definition blinkPhase (s : machine) : bool :=
  negb (Z.land (u8 (getUptimeTicks (ext s))) 0x80 =? 0).

(** [feedMenu], branch [menuState == MENU_SET_TIMER]. *)
Definition feedSetTimer (event : Z) (s : machine) : machine :=
  if event =? MENU_EVENT_PUSH_BUTTON1 then
    setDisplayOff false (set_menuDisplay MENU_ROOT (set_timer 0 s))
  else if event =? MENU_EVENT_RELEASE_BUTTON1 then
    let s1 := if timer s <? MENU_5_SEC_PASSED
              then setDisplayOff false (set_menuState MENU_ROOT (call storeParams s))
              else s in
    set_timer 0 s1
  else if event =? MENU_EVENT_PUSH_BUTTON2 then
    set_timer 0 (call incParam (call (setParamId PARAM_FERMENTATION_TIME) s))
  else if event =? MENU_EVENT_RELEASE_BUTTON2 then
    set_timer 0 s
  else if event =? MENU_EVENT_PUSH_BUTTON3 then
    set_timer 0 (call decParam (call (setParamId PARAM_FERMENTATION_TIME) s))
  else if event =? MENU_EVENT_RELEASE_BUTTON3 then
    set_timer 0 s
  else if event =? MENU_EVENT_CHECK_TIMER then
    let blink := if getButton2 s || getButton3 s then false else blinkPhase s in
    let s1 := if timer s >? MENU_1_SEC_PASSED + MENU_AUTOINC_DELAY
              then autoRepeat incParam decParam
                     (call (setParamId PARAM_FERMENTATION_TIME) s)
              else s in
    let s2 := setDisplayOff blink s1 in
    if timer s2 >? MENU_5_SEC_PASSED then
      let s3 := set_timer 0 s2 in
      if getButton1 s3 then
        setDisplayOff false (set_menu MENU_SELECT_PARAM s3)
      else
        setDisplayOff false (set_menu MENU_ROOT (call storeParams s3))
    else s2
  else s.

Definition feedMenu (event : Z) (s : machine) : machine :=
  if menuState s =? MENU_ROOT then feedRoot event s
  else if menuState s =? MENU_SELECT_PARAM then feedSelectParam event s
  else if menuState s =? MENU_CHANGE_PARAM then feedChangeParam event s
  else if menuState s =? MENU_SET_TIMER then feedSetTimer event s
  else s.

Definition refreshMenu (s : machine) : machine :=
  feedMenu MENU_EVENT_CHECK_TIMER (set_timer (u16 (timer s + 1)) s).

(** [n] timer interrupts in a row, nothing else happening in between. *)
Fixpoint ticks (n : nat) (s : machine) : machine :=
  match n with
  | O => s
  | S n' => refreshMenu (ticks n' s)
  end.

(** ym.c, [main]: the branches of the display routing. *)
Inductive shown : Type :=
| ShowRoot | ShowSetTimer | ShowSelectParam | ShowChangeParam | ShowErr.

(** The branch one pass of the loop of [main] takes.  [main] calls
    [getMenuDisplay()] anew for each of its four comparisons, with the
    interrupts enabled, and [feedMenu] runs in the button and the timer
    interrupt: [s1], [s2], [s3], [s4] are the menu as it is at the first,
    second, third and fourth call (a later call is made only when the
    comparisons before it have failed). *)
Definition displayBranch (s1 s2 s3 s4 : machine) : shown :=
  if getMenuDisplay s1 =? MENU_ROOT then ShowRoot
  else if getMenuDisplay s2 =? MENU_SET_TIMER then ShowSetTimer
  else if getMenuDisplay s3 =? MENU_SELECT_PARAM then ShowSelectParam
  else if getMenuDisplay s4 =? MENU_CHANGE_PARAM then ShowChangeParam
  else ShowErr.

(** The states of the firmware as far as the menu is concerned: after
    [initMenu], any number of [feedMenu] calls with any event byte;
    between the calls everything but [menuState] and [menuDisplay] may
    change (buttons, collaborators, the tick count). *)
Inductive reachable : machine -> Prop :=
| reach_init s : reachable (initMenu s)
| reach_feed event s : reachable s -> reachable (feedMenu event s)
| reach_env s s' :
    reachable s ->
    menuState s' = menuState s -> menuDisplay s' = menuDisplay s ->
    reachable s'.

(** What the interrupts do to the menu between two calls made by
    [main]: any number of [feedMenu] calls, and changes of everything
    but [menuState] and [menuDisplay]. *)
Inductive interrupted : machine -> machine -> Prop :=
| int_none s : interrupted s s
| int_feed event s s' : interrupted s s' -> interrupted s (feedMenu event s')
| int_env s s' s'' :
    interrupted s s' ->
    menuState s'' = menuState s' -> menuDisplay s'' = menuDisplay s' ->
    interrupted s s''.

Definition is_menu (v : Z) : Prop :=
  v = MENU_ROOT \/ v = MENU_SELECT_PARAM \/ v = MENU_CHANGE_PARAM \/ v = MENU_SET_TIMER.

(** The pairs ([menuState], [menuDisplay]) the automaton is meant to
    pass through: equal, or one of the two previews between
    [MENU_ROOT] and [MENU_SET_TIMER]. *)
Definition pair_ok (s : machine) : Prop :=
  menuState s = menuDisplay s \/
  (menuState s = MENU_ROOT /\ menuDisplay s = MENU_SET_TIMER) \/
  (menuState s = MENU_SET_TIMER /\ menuDisplay s = MENU_ROOT).

(** The ticks, counted from the push of a held button, on which the
    auto-repeat fires: the first one past [MENU_1_SEC_PASSED +
    MENU_AUTOINC_DELAY], then each time the counter, put back to
    [MENU_1_SEC_PASSED], passes that mark again. *)
Definition repeatTick (t : Z) : bool :=
  (MENU_1_SEC_PASSED + MENU_AUTOINC_DELAY + 1 <=? t) &&
  ((t - (MENU_1_SEC_PASSED + MENU_AUTOINC_DELAY + 1)) mod (MENU_AUTOINC_DELAY + 1) =? 0).

(** The value of [timer] [n] ticks after the push of a button that is
    kept down in one of the editing menus. *)
Definition heldTimer (n : Z) : Z :=
  if n <? 37 then n else 32 + (n - 37) mod 5.

(** The four menu identifiers differ, and so do the seven [case] labels
    (C rejects a [switch] with a repeated label). *)
Definition header_ok : Prop :=
  NoDup [MENU_ROOT; MENU_SELECT_PARAM; MENU_CHANGE_PARAM; MENU_SET_TIMER] /\
  NoDup [MENU_EVENT_PUSH_BUTTON1; MENU_EVENT_PUSH_BUTTON2; MENU_EVENT_PUSH_BUTTON3;
         MENU_EVENT_RELEASE_BUTTON1; MENU_EVENT_RELEASE_BUTTON2;
         MENU_EVENT_RELEASE_BUTTON3; MENU_EVENT_CHECK_TIMER].

End Machine.

Arguments machine {W}.
Arguments mkMachine {W}.

End Menu.

(* ================================================================== *)
(** ** A test bench for the menu

    One choice of header values and a collaborator state that records
    every command it receives (latest first); the relay and the
    fermentation timer answer from the record. *)

Module Bench.
Import Menu.

#[export] Instance header : Header := {|
  MENU_ROOT := 0;
  MENU_SET_TIMER := 1;
  MENU_SELECT_PARAM := 2;
  MENU_CHANGE_PARAM := 3;
  MENU_EVENT_PUSH_BUTTON1 := 0;
  MENU_EVENT_PUSH_BUTTON2 := 1;
  MENU_EVENT_PUSH_BUTTON3 := 2;
  MENU_EVENT_RELEASE_BUTTON1 := 3;
  MENU_EVENT_RELEASE_BUTTON2 := 4;
  MENU_EVENT_RELEASE_BUTTON3 := 5;
  MENU_EVENT_CHECK_TIMER := 6;
  PARAM_FERMENTATION_TIME := 7
|}.

Inductive command : Type :=
| SetParamId (id : Z)
| IncParamId | DecParamId | IncParam | DecParam | StoreParams
| EnableRelay (on : bool)
| StartFTimer | StopFTimer.

Definition record : Type := list command.

Fixpoint relayOn (r : record) : bool :=
  match r with
  | EnableRelay b :: _ => b
  | _ :: r' => relayOn r'
  | [] => false
  end.

Fixpoint ftimerOn (r : record) : bool :=
  match r with
  | StartFTimer :: _ => true
  | StopFTimer :: _ => false
  | _ :: r' => ftimerOn r'
  | [] => false
  end.

Definition is_IncParam (c : command) : bool :=
  match c with IncParam => true | _ => false end.

(** How many times [incParam] has been called. *)
Definition increments (r : record) : nat := length (filter is_IncParam r).

#[export] Instance recorder : Collaborators record := {|
  setParamId := fun id r => SetParamId id :: r;
  incParamId := cons IncParamId;
  decParamId := cons DecParamId;
  incParam := cons IncParam;
  decParam := cons DecParam;
  storeParams := cons StoreParams;
  isRelayEnabled := relayOn;
  enableRelay := fun b r => EnableRelay b :: r;
  isFTimer := ftimerOn;
  startFTimer := cons StartFTimer;
  stopFTimer := cons StopFTimer;
  getUptimeTicks := fun _ => 0
|}.

(** Power-on with the given buttons down and nothing recorded. *)
Definition boot (buttons : Z) : machine :=
  initMenu (mkMachine 0 0 0 buttons false ([] : record)).

(** The timer-setting menu as a short press of button 1 leaves it,
    button 2 now down. *)
Definition settingTimer : machine :=
  mkMachine MENU_SET_TIMER MENU_SET_TIMER 0 Buttons.BUTTON2_BIT false ([] : record).

End Bench.

(* ================================================================== *)
(** ** The menu at work

    What moves the menu once [main] has run the initialisations and
    enabled the interrupts: events fed by the button interrupt (or by
    anyone, with any byte), the timer interrupt calling [refreshMenu],
    buttons going down and up, and the collaborators changing their own
    state.  [displayOff] is written by [setDisplayOff] only, which
    besides the menu only the last display branch of [main] calls. *)

Module Run.
Import Menu.

Section Run.

Context {hdr : Header} {W : Type} {col : Collaborators W}.

Definition set_status (v : Z) (s : @machine W) : @machine W :=
  mkMachine (menuDisplay s) (menuState s) (timer s) v (displayOff s) (ext s).

Inductive step : machine -> machine -> Prop :=
| step_event event s : step s (feedMenu event s)
| step_tick s : step s (refreshMenu s)
| step_buttons v s : step s (set_status v s)
| step_world f s : step s (call f s).

(** [initMenu], then [initDisplay] (which clears [displayOff]), then
    any number of steps. *)
Inductive runs : machine -> Prop :=
| runs_init s : runs (setDisplayOff false (initMenu s))
| runs_step s s' : runs s -> step s s' -> runs s'.

(** One of the seven event bytes that [feedMenu] has a [case] for. *)
Definition known_event (event : Z) : Prop :=
  In event [MENU_EVENT_PUSH_BUTTON1; MENU_EVENT_PUSH_BUTTON2; MENU_EVENT_PUSH_BUTTON3;
            MENU_EVENT_RELEASE_BUTTON1; MENU_EVENT_RELEASE_BUTTON2;
            MENU_EVENT_RELEASE_BUTTON3; MENU_EVENT_CHECK_TIMER].

(** The bounds the counter keeps. *)
Definition timer_ok (s : @machine W) : Prop :=
  0 <= timer s <= MENU_5_SEC_PASSED /\
  (menuState s = MENU_ROOT -> timer s <= MENU_3_SEC_PASSED).

End Run.

End Run.

(* ================================================================== *)
(** ** buttons.c: the edge interrupt *)

Module Irq.
Import Buttons Menu Run.

(** [~(BUTTONS_PORT & (BUTTON1_BIT | BUTTON2_BIT | BUTTON3_BIT))], as
    stored in an [unsigned char]; the argument is the value read from
    the port. *)
Definition invertedPort (PC_IDR : Z) : Z :=
  u8 (Z.lnot (Z.land PC_IDR (Z.lor (Z.lor BUTTON1_BIT BUTTON2_BIT) BUTTON3_BIT))).

(** [isButton1], [isButton2], [isButton3] on the variable [diff]: the
    answer and the new value of [diff]. *)
Definition isButton1 (diff : Z) : bool * Z :=
  if negb (Z.land diff BUTTON1_BIT =? 0)
  then (true, u8 (Z.land diff (Z.lnot BUTTON1_BIT)))
  else (false, diff).

Definition isButton2 (diff : Z) : bool * Z :=
  if negb (Z.land diff BUTTON2_BIT =? 0)
  then (true, u8 (Z.land diff (Z.lnot BUTTON2_BIT)))
  else (false, diff).

Definition isButton3 (diff : Z) : bool * Z :=
  if negb (Z.land diff BUTTON3_BIT =? 0)
  then (true, u8 (Z.land diff (Z.lnot BUTTON3_BIT)))
  else (false, diff).

Section Irq.

Context {hdr : Header} {W : Type} {col : Collaborators W}.

(** The menu machine together with the second variable of buttons.c. *)
Record wired : Type := mkWired {
  diff : Z;              (* buttons.c: static unsigned char diff *)
  mach : @machine W
}.

(** [initButtons]; the port configuration is left out. *)
Definition initButtons (PC_IDR : Z) (w : wired) : wired :=
  mkWired 0 (set_status (invertedPort PC_IDR) (mach w)).

Definition getButton (w : wired) : Z := status (mach w).
Definition getButtonDiff (w : wired) : Z := diff w.

(** [EXTI2_handler].  The port is read twice, once for [diff] and once
    for [status]. *)
Definition EXTI2_handler (PC_IDR1 PC_IDR2 : Z) (w : wired) : wired :=
  let diff0 :=
    u8 (Z.lxor (status (mach w))
          (Z.lnot (Z.land PC_IDR1 (Z.lor (Z.lor BUTTON1_BIT BUTTON2_BIT) BUTTON3_BIT)))) in
  let m := set_status (invertedPort PC_IDR2) (mach w) in
  let c1 := isButton1 diff0 in
  if fst c1 then
    mkWired (snd c1)
      (feedMenu (if getButton1 m then MENU_EVENT_PUSH_BUTTON1
                 else MENU_EVENT_RELEASE_BUTTON1) m)
  else
    let c2 := isButton2 (snd c1) in
    if fst c2 then
      mkWired (snd c2)
        (feedMenu (if getButton2 m then MENU_EVENT_PUSH_BUTTON2
                   else MENU_EVENT_RELEASE_BUTTON2) m)
    else
      let c3 := isButton3 (snd c2) in
      if fst c3 then
        mkWired (snd c3)
          (feedMenu (if getButton3 m then MENU_EVENT_PUSH_BUTTON3
                     else MENU_EVENT_RELEASE_BUTTON3) m)
      else mkWired (snd c3) m.

(** Whether a button's line is low on the port, which is how a pressed
    button reads. *)
Definition lineLow (PC_IDR : Z) (bit : Z) : bool := negb (Z.testbit PC_IDR bit).

End Irq.

End Irq.

(* ================================================================== *)
(** ** display.c *)

Module Display.

Local Infix "|||" := Z.lor (at level 50, left associativity).

Definition SSD_BF_PORT_MASK : Z := 0x06.
Definition SSD_CG_PORT_MASK : Z := 0xC0.
Definition SSD_AEDP_PORT_MASK : Z := 0x2E.

Definition SSD_SEG_A_BIT : Z := 0x20.
Definition SSD_SEG_B_BIT : Z := 0x04.
Definition SSD_SEG_C_BIT : Z := 0x80.
Definition SSD_SEG_D_BIT : Z := 0x08.
Definition SSD_SEG_E_BIT : Z := 0x02.
Definition SSD_SEG_F_BIT : Z := 0x02.
Definition SSD_SEG_G_BIT : Z := 0x40.
Definition SSD_SEG_P_BIT : Z := 0x04.

Definition SSD_DIGIT_1_BIT : Z := 0x10.
Definition SSD_DIGIT_2_BIT : Z := 0x20.
Definition SSD_DIGIT_3_BIT : Z := 0x10.

(** The code of a character constant. *)
Definition ch (c : ascii) : Z := Z.of_nat (nat_of_ascii c).

Record display : Type := mkDisplay {
  activeDigitId : Z;       (* static unsigned char activeDigitId *)
  displayAC : list Z;      (* static unsigned char displayAC[3] *)
  displayD : list Z;       (* static unsigned char displayD[3] *)
  displayOff : bool;
  testMode : bool;
  PA_ODR : Z;              (* segments B, F *)
  PB_ODR : Z;              (* digits 1, 2 *)
  PC_ODR : Z;              (* segments C, G *)
  PD_ODR : Z               (* segments A, E, D, P and digit 3 *)
}.

(** An array element, read and written inside the array only. *)
Definition element (l : list Z) (i : Z) : outcome Z :=
  if (0 <=? i) && (i <? Z.of_nat (length l))
  then Done (nth (Z.to_nat i) l 0) else OutOfBounds i.

Fixpoint store (n : nat) (v : Z) (l : list Z) : list Z :=
  match l with
  | [] => []
  | x :: t => match n with
              | O => v :: t
              | S n' => x :: store n' v t
              end
  end.

Definition set_ports (pa pb pc pd : Z) (d : display) : display :=
  mkDisplay (activeDigitId d) (displayAC d) (displayD d) (displayOff d) (testMode d)
            pa pb pc pd.

Definition set_buffers (ac dd : list Z) (d : display) : display :=
  mkDisplay (activeDigitId d) ac dd (displayOff d) (testMode d)
            (PA_ODR d) (PB_ODR d) (PC_ODR d) (PD_ODR d).

Definition set_activeDigitId (v : Z) (d : display) : display :=
  mkDisplay v (displayAC d) (displayD d) (displayOff d) (testMode d)
            (PA_ODR d) (PB_ODR d) (PC_ODR d) (PD_ODR d).

Definition set_testMode (v : bool) (d : display) : display :=
  mkDisplay (activeDigitId d) (displayAC d) (displayD d) (displayOff d) v
            (PA_ODR d) (PB_ODR d) (PC_ODR d) (PD_ODR d).

Definition setDisplayOff (val : bool) (d : display) : display :=
  mkDisplay (activeDigitId d) (displayAC d) (displayD d) val (testMode d)
            (PA_ODR d) (PB_ODR d) (PC_ODR d) (PD_ODR d).

(** [enableDigit]: a digit is enabled by driving its line low. *)
Definition enableDigit (id : Z) (d : display) : display :=
  if id =? 0 then
    let pb := u8 (Z.land (PB_ODR d) (Z.lnot SSD_DIGIT_1_BIT)) in
    let pb := u8 (pb ||| SSD_DIGIT_2_BIT) in
    set_ports (PA_ODR d) pb (PC_ODR d) (u8 (PD_ODR d ||| SSD_DIGIT_3_BIT)) d
  else if id =? 1 then
    let pb := u8 (Z.land (PB_ODR d) (Z.lnot SSD_DIGIT_2_BIT)) in
    let pb := u8 (pb ||| SSD_DIGIT_1_BIT) in
    set_ports (PA_ODR d) pb (PC_ODR d) (u8 (PD_ODR d ||| SSD_DIGIT_3_BIT)) d
  else if id =? 2 then
    let pd := u8 (Z.land (PD_ODR d) (Z.lnot SSD_DIGIT_3_BIT)) in
    set_ports (PA_ODR d) (u8 (PB_ODR d ||| (SSD_DIGIT_1_BIT ||| SSD_DIGIT_2_BIT)))
              (PC_ODR d) pd d
  else
    set_ports (PA_ODR d) (u8 (PB_ODR d ||| (SSD_DIGIT_1_BIT ||| SSD_DIGIT_2_BIT)))
              (PC_ODR d) (u8 (PD_ODR d ||| SSD_DIGIT_3_BIT)) d.

(** [refreshDisplay] *)
Definition refreshDisplay (d : display) : outcome display :=
  let d1 := enableDigit 3 d in
  if displayOff d1 then Done d1
  else
    ac <- element (displayAC d1) (activeDigitId d1) ;;
    dd <- element (displayD d1) (activeDigitId d1) ;;
    let pa := u8 (Z.land (PA_ODR d1) (Z.lnot SSD_BF_PORT_MASK)) in
    let pa := u8 (pa ||| Z.land ac SSD_BF_PORT_MASK) in
    let pc := u8 (Z.land (PC_ODR d1) (Z.lnot SSD_CG_PORT_MASK)) in
    let pc := u8 (pc ||| Z.land ac SSD_CG_PORT_MASK) in
    let pd := u8 (Z.land (PD_ODR d1) (Z.lnot SSD_AEDP_PORT_MASK)) in
    let pd := u8 (pd ||| dd) in
    let d2 := enableDigit (activeDigitId d1) (set_ports pa (PB_ODR d1) pc pd d1) in
    Done (if activeDigitId d2 >? 1
          then set_activeDigitId 0 d2
          else set_activeDigitId (u8 (activeDigitId d2 + 1)) d2).

(** The [switch] of [setDigit]: the values written to [displayAC[id]]
    and [displayD[id]] for a character. *)
Definition glyph (val : Z) : Z * Z :=
  if val =? ch "-" then (SSD_SEG_G_BIT, 0)
  else if val =? ch " " then (0, 0)
  else if val =? ch "0" then
    (SSD_SEG_B_BIT ||| SSD_SEG_F_BIT ||| SSD_SEG_C_BIT,
     SSD_SEG_A_BIT ||| SSD_SEG_D_BIT ||| SSD_SEG_E_BIT)
  else if val =? ch "1" then (SSD_SEG_B_BIT ||| SSD_SEG_C_BIT, 0)
  else if val =? ch "2" then
    (SSD_SEG_B_BIT ||| SSD_SEG_G_BIT,
     SSD_SEG_A_BIT ||| SSD_SEG_D_BIT ||| SSD_SEG_E_BIT)
  else if val =? ch "3" then
    (SSD_SEG_B_BIT ||| SSD_SEG_C_BIT ||| SSD_SEG_G_BIT,
     SSD_SEG_A_BIT ||| SSD_SEG_D_BIT)
  else if val =? ch "4" then
    (SSD_SEG_B_BIT ||| SSD_SEG_C_BIT ||| SSD_SEG_F_BIT ||| SSD_SEG_G_BIT, 0)
  else if val =? ch "5" then
    (SSD_SEG_C_BIT ||| SSD_SEG_F_BIT ||| SSD_SEG_G_BIT,
     SSD_SEG_A_BIT ||| SSD_SEG_D_BIT)
  else if val =? ch "6" then
    (SSD_SEG_C_BIT ||| SSD_SEG_F_BIT ||| SSD_SEG_G_BIT,
     SSD_SEG_A_BIT ||| SSD_SEG_D_BIT ||| SSD_SEG_E_BIT)
  else if val =? ch "7" then (SSD_SEG_B_BIT ||| SSD_SEG_C_BIT, SSD_SEG_A_BIT)
  else if val =? ch "8" then
    (SSD_SEG_B_BIT ||| SSD_SEG_C_BIT ||| SSD_SEG_F_BIT ||| SSD_SEG_G_BIT,
     SSD_SEG_A_BIT ||| SSD_SEG_D_BIT ||| SSD_SEG_E_BIT)
  else if val =? ch "9" then
    (SSD_SEG_B_BIT ||| SSD_SEG_C_BIT ||| SSD_SEG_F_BIT ||| SSD_SEG_G_BIT,
     SSD_SEG_A_BIT ||| SSD_SEG_D_BIT)
  else if val =? ch "A" then
    (SSD_SEG_B_BIT ||| SSD_SEG_C_BIT ||| SSD_SEG_F_BIT ||| SSD_SEG_G_BIT,
     SSD_SEG_A_BIT ||| SSD_SEG_E_BIT)
  else if val =? ch "B" then
    (SSD_SEG_C_BIT ||| SSD_SEG_F_BIT ||| SSD_SEG_G_BIT,
     SSD_SEG_D_BIT ||| SSD_SEG_E_BIT)
  else if val =? ch "C" then
    (SSD_SEG_F_BIT, SSD_SEG_A_BIT ||| SSD_SEG_D_BIT ||| SSD_SEG_E_BIT)
  else if val =? ch "D" then
    (SSD_SEG_B_BIT ||| SSD_SEG_C_BIT ||| SSD_SEG_G_BIT,
     SSD_SEG_D_BIT ||| SSD_SEG_E_BIT)
  else if val =? ch "E" then
    (SSD_SEG_F_BIT ||| SSD_SEG_G_BIT,
     SSD_SEG_A_BIT ||| SSD_SEG_D_BIT ||| SSD_SEG_E_BIT)
  else if val =? ch "F" then
    (SSD_SEG_F_BIT ||| SSD_SEG_G_BIT, SSD_SEG_A_BIT ||| SSD_SEG_E_BIT)
  else if val =? ch "H" then
    (SSD_SEG_B_BIT ||| SSD_SEG_C_BIT ||| SSD_SEG_F_BIT ||| SSD_SEG_G_BIT,
     SSD_SEG_E_BIT)
  else if val =? ch "L" then (SSD_SEG_F_BIT, SSD_SEG_D_BIT ||| SSD_SEG_E_BIT)
  else if val =? ch "N" then
    (SSD_SEG_B_BIT ||| SSD_SEG_F_BIT ||| SSD_SEG_C_BIT,
     SSD_SEG_A_BIT ||| SSD_SEG_E_BIT)
  else if val =? ch "O" then
    (SSD_SEG_B_BIT ||| SSD_SEG_F_BIT ||| SSD_SEG_C_BIT,
     SSD_SEG_A_BIT ||| SSD_SEG_D_BIT ||| SSD_SEG_E_BIT)
  else if val =? ch "P" then
    (SSD_SEG_B_BIT ||| SSD_SEG_F_BIT ||| SSD_SEG_G_BIT,
     SSD_SEG_A_BIT ||| SSD_SEG_E_BIT)
  else if val =? ch "R" then (SSD_SEG_F_BIT, SSD_SEG_A_BIT ||| SSD_SEG_E_BIT)
  else if val =? ch "T" then
    (SSD_SEG_F_BIT ||| SSD_SEG_G_BIT, SSD_SEG_D_BIT ||| SSD_SEG_E_BIT)
  else (0, SSD_SEG_D_BIT).

(** [setDigit] *)
Definition setDigit (id val : Z) (dot : bool) (d : display) : display :=
  if id >? 2 then d
  else if testMode d then d
  else
    let g := glyph val in
    let dd := if dot then u8 (snd g ||| SSD_SEG_P_BIT)
              else u8 (Z.land (snd g) (Z.lnot SSD_SEG_P_BIT)) in
    set_buffers (store (Z.to_nat id) (fst g) (displayAC d))
                (store (Z.to_nat id) dd (displayD d)) d.

(** The first loop of [setDisplayStr], the count of digits needed.  The
    string is the memory behind the pointer, [val i] being [*(val + i)].
    [i] and [d] are [unsigned char]: a string with no terminator among
    its first 256 bytes keeps the loop going for ever, which is the
    outcome [OutOfFuel]. *)
Fixpoint countDigits (fuel : nat) (val : Z -> Z) (i d : Z) : outcome Z :=
  if val i =? 0 then Done d
  else
    match fuel with
    | O => OutOfFuel
    | S fuel' =>
        let d1 := if (val i =? ch ".") && (i >? 0) && negb (val (i - 1) =? ch ".")
                  then u8 (d - 1) else d in
        countDigits fuel' val (u8 (i + 1)) (u8 (d1 + 1))
    end.

(** The second loop: [for (i = 3 - d; i > 0; i--) setDigit(3 - i, ' ', false);] *)
Fixpoint blankUnused (fuel : nat) (i : Z) (disp : display) : display :=
  match fuel with
  | O => disp
  | S fuel' =>
      if i >? 0
      then blankUnused fuel' (u8 (i - 1)) (setDigit (u8 (3 - i)) (ch " ") false disp)
      else disp
  end.

(** The third loop; its test reads [*val + i], the first character plus
    [i]. *)
Fixpoint showDigits (fuel : nat) (val : Z -> Z) (i d : Z) (disp : display) : display :=
  match fuel with
  | O => disp
  | S fuel' =>
      if negb (d =? 0) && negb (val 0 + i =? 0) then
        if val (i + 1) =? ch "." then
          showDigits fuel' val (u8 (u8 (i + 1) + 1)) (u8 (d - 1))
            (setDigit (u8 (d - 1)) (val i) true disp)
        else
          showDigits fuel' val (u8 (i + 1)) (u8 (d - 1))
            (setDigit (u8 (d - 1)) (val i) false disp)
      else disp
  end.

(** [setDisplayStr].  After the cap [d] is at most 3, which bounds the
    second and the third loop. *)
Definition setDisplayStr (val : Z -> Z) (disp : display) : outcome display :=
  d <- countDigits 256 val 0 0 ;;
  let d := if d >? 3 then 3 else d in
  let disp1 := blankUnused 3 (u8 (3 - d)) disp in
  Done (showDigits 3 val 0 d disp1).

(** The memory that holds a string: its bytes, then zeros. *)
Definition str (l : list Z) : Z -> Z := fun i => nth (Z.to_nat i) l 0.

(** [setDisplayTestMode] *)
Definition setDisplayTestMode (val : bool) (s : Z -> Z) (disp : display)
    : outcome display :=
  disp1 <- (if negb (testMode disp) && val then
              if s 0 =? 0
              then setDisplayStr (str [ch "8"; ch "8"; ch "8"]) disp
              else setDisplayStr s disp
            else Done disp) ;;
  Done (set_testMode val disp1).

(** [initDisplay]; the port configuration is left out. *)
Definition initDisplay (disp : display) : outcome display :=
  setDisplayTestMode true (str []) (set_activeDigitId 0 (setDisplayOff false disp)).

(** [setDisplayDot]: [displayD[id]] is read and written with no check of
    [id] and none of the test mode. *)
Definition setDisplayDot (id : Z) (val : bool) (d : display) : outcome display :=
  dd <- element (displayD d) id ;;
  let v := if val then u8 (dd ||| SSD_SEG_P_BIT)
           else u8 (Z.land dd (Z.lnot SSD_SEG_P_BIT)) in
  Done (set_buffers (displayAC d) (store (Z.to_nat id) v (displayD d)) d).

(** What a string shows: its characters from the left, each taking the
    dot that follows it. *)
Fixpoint cells (l : list Z) : list (Z * bool) :=
  match l with
  | [] => []
  | c :: t =>
      match t with
      | [] => [(c, false)]
      | p :: t' => if p =? ch "." then (c, true) :: cells t'
                   else (c, false) :: cells t
      end
  end.

(** A string the display can show cell by cell: no zero byte, no dot
    in front and no two dots in a row. *)
Fixpoint plain (l : list Z) : bool :=
  match l with
  | [] => true
  | c :: t =>
      negb (c =? 0) && negb (c =? ch ".") &&
      match t with
      | [] => true
      | p :: t' => if p =? ch "." then negb (p =? 0) && plain t' else plain t
      end
  end.

(** The cells put on the display from position [pos] down to 0. *)
Fixpoint place (pos : nat) (cs : list (Z * bool)) (disp : display) : display :=
  match cs with
  | [] => disp
  | (c, dot) :: cs' =>
      match pos with
      | O => setDigit 0 c dot disp
      | S pos' => place pos' cs' (setDigit (Z.of_nat pos) c dot disp)
      end
  end.

(** Blanks in the positions from [n] up to 2, position 2 last. *)
Definition blanks (n : nat) (disp : display) : display :=
  match n with
  | O => setDigit 2 (ch " ") false (setDigit 1 (ch " ") false (setDigit 0 (ch " ") false disp))
  | 1%nat => setDigit 2 (ch " ") false (setDigit 1 (ch " ") false disp)
  | 2%nat => setDigit 2 (ch " ") false disp
  | _ => disp
  end.

(** Segment values that stay clear of the other pins of their ports. *)
Definition within (mask v : Z) : Prop := Z.land v (Z.lnot mask) = 0.

(** Both buffers have their three elements, and these only use segment
    bits: B, F, C, G in [displayAC], A, E, D, P in [displayD]. *)
Definition tidy (d : display) : Prop :=
  length (displayAC d) = 3%nat /\ length (displayD d) = 3%nat /\
  Forall (within (SSD_BF_PORT_MASK ||| SSD_CG_PORT_MASK)) (displayAC d) /\
  Forall (within SSD_AEDP_PORT_MASK) (displayD d).

(** The memory [val] holds the string [l] at offset [off]: its bytes,
    then the terminator. *)
Definition holds (val : Z -> Z) (off : Z) (l : list Z) : Prop :=
  forall j, 0 <= j <= Z.of_nat (length l) -> val (off + j) = nth (Z.to_nat j) l 0.

Definition is_char (c : Z) : Prop := 0 < c < 256.

End Display.

(* ================================================================== *)
(** ** ym.c: strConcat *)

Module Ym.

(** A byte of a buffer; outside the buffer the access is out of
    bounds. *)
Definition byteAt (buf : list Z) (i : Z) : outcome Z :=
  if (0 <=? i) && (i <? Z.of_nat (length buf))
  then Done (nth (Z.to_nat i) buf 0) else OutOfBounds i.

Fixpoint poke (n : nat) (v : Z) (buf : list Z) : list Z :=
  match buf with
  | [] => []
  | x :: t => match n with
              | O => v :: t
              | S n' => x :: poke n' v t
              end
  end.

Definition writeAt (buf : list Z) (i v : Z) : outcome (list Z) :=
  if (0 <=? i) && (i <? Z.of_nat (length buf))
  then Done (poke (Z.to_nat i) v buf) else OutOfBounds i.

(** [for (i = 0; to[i] != 0; i++);] with [i] an [unsigned char]: after
    256 rounds [i] is 0 again and the loop goes on for ever
    ([OutOfFuel]). *)
Fixpoint findEnd (fuel : nat) (to : list Z) (i : Z) : outcome Z :=
  match fuel with
  | O => OutOfFuel
  | S fuel' =>
      x <- byteAt to i ;;
      if x =? 0 then Done i else findEnd fuel' to (u8 (i + 1))
  end.

(** [for (i = 0; from[i] != 0; i++) to[s + i] = from[i];] followed by
    [to[s + i] = 0;].  The two buffers are taken to be apart. *)
Fixpoint copyFrom (fuel : nat) (from to : list Z) (s i : Z) : outcome (list Z) :=
  match fuel with
  | O => OutOfFuel
  | S fuel' =>
      x <- byteAt from i ;;
      if x =? 0 then writeAt to (s + i) 0
      else
        to' <- writeAt to (s + i) x ;;
        copyFrom fuel' from to' s (u8 (i + 1))
  end.

(** [strConcat]: the new content of [to]. *)
Definition strConcat (from to : list Z) : outcome (list Z) :=
  s <- findEnd 256 to 0 ;;
  copyFrom 256 from to s 0.

Definition no_zero (l : list Z) : Prop := Forall (fun x => x <> 0) l.

End Ym.

(* ================================================================== *)
(** ** More test-bench states *)

Module BenchStates.
Import Menu Bench.

(** The parameter selection and the parameter editing menus as a long
    press of button 1 and one more push leave them, every button up. *)
Definition selecting : machine :=
  mkMachine MENU_SELECT_PARAM MENU_SELECT_PARAM 0 0 false ([] : record).

Definition changing : machine :=
  mkMachine MENU_CHANGE_PARAM MENU_CHANGE_PARAM 0 0 false ([] : record).

(** The timer-setting menu with every button up. *)
Definition timing : machine :=
  mkMachine MENU_SET_TIMER MENU_SET_TIMER 0 0 false ([] : record).

(** The parameter selection with button 3 down. *)
Definition selectingDown : machine :=
  mkMachine MENU_SELECT_PARAM MENU_SELECT_PARAM 0 Buttons.BUTTON3_BIT false ([] : record).

(** The display as the zeroed static variables and ports leave it. *)
Definition cleared : Display.display :=
  Display.mkDisplay 0 [0; 0; 0] [0; 0; 0] false false 0 0 0 0.

End BenchStates.

(* ================================================================== *)
(** ** Facts about machine integers *)

Lemma u8_small z : 0 <= z < 256 -> u8 z = z.
Proof. intros H. unfold u8. apply Z.mod_small. lia. Qed.

Lemma u16_small z : 0 <= z < 65536 -> u16 z = z.
Proof. intros H. unfold u16. apply Z.mod_small. lia. Qed.

Lemma u32_small z : 0 <= z < 4294967296 -> u32 z = z.
Proof. intros H. unfold u32. apply Z.mod_small. lia. Qed.

Lemma s16_fits z : fits_int z -> s16 z = z.
Proof.
  unfold fits_int, INT_MIN, INT_MAX, s16. intros H.
  rewrite Z.mod_small by lia. lia.
Qed.

Lemma s16_u16_sum a b : s16 (u16 (u16 a + b)) = s16 (a + b).
Proof.
  unfold s16, u16.
  rewrite Z.add_mod_idemp_l by lia.
  rewrite <- Z.add_assoc.
  rewrite Z.add_mod_idemp_l by lia.
  rewrite Z.add_assoc. reflexivity.
Qed.

Lemma shiftr4 a : Z.shiftr a 4 = a / 16.
Proof. rewrite Z.shiftr_div_pow2 by lia. reflexivity. Qed.

Lemma shiftl4 a : Z.shiftl a 4 = a * 16.
Proof. rewrite Z.shiftl_mul_pow2 by lia. reflexivity. Qed.

Lemma lor_below_pow2 a b n :
  0 <= n -> 0 <= a < 2 ^ n -> 0 <= b < 2 ^ n -> 0 <= Z.lor a b < 2 ^ n.
Proof.
  intros Hn Ha Hb. split.
  - apply Z.lor_nonneg. lia.
  - destruct (Z.eq_dec a 0) as [->|Hna]; [rewrite Z.lor_0_l; lia|].
    assert (0 < Z.lor a b).
    { assert (0 <= Z.lor a b) by (apply Z.lor_nonneg; lia).
      assert (Z.lor a b <> 0) by (rewrite Z.lor_eq_0_iff; tauto). lia. }
    apply Z.log2_lt_pow2; [assumption|].
    rewrite Z.log2_lor by lia.
    destruct (Z.eq_dec b 0) as [->|Hnb].
    + simpl. rewrite Z.max_l by apply Z.log2_nonneg.
      apply Z.log2_lt_pow2; lia.
    + apply Z.max_lub_lt; apply Z.log2_lt_pow2; lia.
Qed.

(* ================================================================== *)
(** ** The calibration table *)

Module Table.
Import ADC.

Lemma adjacent_nth P l : forall k j,
  adjacent P k l = true -> (S j < length l)%nat ->
  P (k + j)%nat (nth j l 0) (nth (S j) l 0) = true.
Proof.
  induction l as [|x t IH]; intros k j Hadj Hlen; [simpl in Hlen; lia|].
  destruct t as [|y t']; [simpl in Hlen; lia|].
  cbn [adjacent] in Hadj. apply andb_true_iff in Hadj as [Hxy Hrest].
  destruct j as [|j'].
  - rewrite Nat.add_0_r. exact Hxy.
  - replace (k + S j')%nat with (S k + j')%nat by lia.
    change (nth (S j') (x :: y :: t') 0) with (nth j' (y :: t') 0).
    change (nth (S (S j')) (x :: y :: t') 0) with (nth (S j') (y :: t') 0).
    apply IH; [exact Hrest|simpl in Hlen |- *; lia].
Qed.

Lemma rawAdc_length : length rawAdc = 165%nat.
Proof. reflexivity. Qed.

Lemma table_size : ADC_RAW_TABLE_SIZE = 165.
Proof. reflexivity. Qed.

Lemma tab_succ i : 0 <= i -> tab (i + 1) = nth (S (Z.to_nat i)) rawAdc 0.
Proof. intros H. unfold tab. replace (Z.to_nat (i + 1)) with (S (Z.to_nat i)) by lia. reflexivity. Qed.

Lemma tab_step i : 0 <= i < 164 -> tab (i + 1) <= tab i.
Proof.
  intros H. rewrite tab_succ by lia. unfold tab.
  assert (Hc : adjacent (fun _ x y => y <=? x) 0 rawAdc = true) by (vm_compute; reflexivity).
  pose proof (adjacent_nth _ _ 0%nat (Z.to_nat i) Hc) as Hn.
  cbv beta in Hn. apply Z.leb_le. apply Hn. rewrite rawAdc_length. lia.
Qed.

Lemma tab_step_strict i : 0 <= i < 164 -> i <> 162 -> tab (i + 1) < tab i.
Proof.
  intros H Hne. rewrite tab_succ by lia. unfold tab.
  assert (Hc : adjacent (fun k x y => (k =? 162)%nat || (y <? x)) 0 rawAdc = true)
    by (vm_compute; reflexivity).
  pose proof (adjacent_nth _ _ 0%nat (Z.to_nat i) Hc) as Hn.
  cbv beta in Hn. rewrite Nat.add_0_l in Hn.
  assert (Hlen : (S (Z.to_nat i) < length rawAdc)%nat) by (rewrite rawAdc_length; lia).
  specialize (Hn Hlen). apply orb_true_iff in Hn as [Hk|Hlt].
  - apply Nat.eqb_eq in Hk. lia.
  - apply Z.ltb_lt. exact Hlt.
Qed.

Lemma tab_mono_aux (d : nat) : forall i,
  0 <= i -> i + Z.of_nat d <= 164 -> tab (i + Z.of_nat d) <= tab i.
Proof.
  induction d as [|d IH]; intros i Hi Hd.
  - rewrite Z.add_0_r. lia.
  - replace (i + Z.of_nat (S d)) with ((i + Z.of_nat d) + 1) by lia.
    transitivity (tab (i + Z.of_nat d)).
    + apply tab_step. lia.
    + apply IH; lia.
Qed.

Lemma tab_mono i j : 0 <= i <= j -> j <= 164 -> tab j <= tab i.
Proof.
  intros Hij Hj. replace j with (i + Z.of_nat (Z.to_nat (j - i))) by lia.
  apply tab_mono_aux; lia.
Qed.

Lemma tab_first : tab 0 = 974.
Proof. reflexivity. Qed.

Lemma tab_last : tab 164 = 46.
Proof. reflexivity. Qed.

Lemma tab_range i : 0 <= i <= 164 -> 46 <= tab i <= 974.
Proof.
  intros H. split.
  - rewrite <- tab_last. apply tab_mono; lia.
  - rewrite <- tab_first. apply tab_mono; lia.
Qed.

Lemma rawAdc_at_in i : 0 <= i <= 164 -> rawAdc_at i = Done (tab i).
Proof.
  intros H. unfold rawAdc_at. rewrite table_size.
  replace (0 <=? i) with true by (symmetry; apply Z.leb_le; lia).
  replace (i <? 165) with true by (symmetry; apply Z.ltb_lt; lia).
  reflexivity.
Qed.

Lemma rawAdc_at_out i : ~ 0 <= i <= 164 -> rawAdc_at i = OutOfBounds i.
Proof.
  intros H. unfold rawAdc_at. rewrite table_size.
  destruct (Z.leb_spec 0 i); destruct (Z.ltb_spec i 165); try reflexivity.
  exfalso. lia.
Qed.

End Table.

(* ================================================================== *)
(** ** The table walk of getTemperature *)

Module Walk.
Import ADC Table.

Lemma midpoint l r :
  0 <= l -> r <= 165 -> 1 < r - l ->
  u8 (Z.shiftr (l + r) 1) = (l + r) / 2 /\ l < (l + r) / 2 < r.
Proof.
  intros Hl Hr Hgap.
  rewrite Z.shiftr_div_pow2 by lia. change (2 ^ 1) with 2.
  assert (l < (l + r) / 2 < r).
  { pose proof (Z.div_mod (l + r) 2 ltac:(lia)).
    pose proof (Z.mod_pos_bound (l + r) 2 ltac:(lia)). lia. }
  split; [apply u8_small; lia|assumption].
Qed.

(** The loop keeps [val <= tab l] (unless [l] is still 0) and
    [tab r < val] (unless [r] is still the table size), and stops on
    two neighbours. *)
Lemma search_ok (fuel : nat) : forall val l r,
  0 <= l -> l < r -> r <= 165 -> r - l <= Z.of_nat fuel + 1 ->
  (l = 0 \/ val <= tab l) -> (r = 165 \/ tab r < val) ->
  exists k, search fuel val l r = Done (k, k + 1) /\ 0 <= k <= 164 /\
            (k = 0 \/ val <= tab k) /\ (k + 1 = 165 \/ tab (k + 1) < val).
Proof.
  induction fuel as [|fuel IH]; intros val l r Hl Hlr Hr Hfuel Hleft Hright;
    cbn [search]; destruct (Z.gtb_spec (r - l) 1) as [Hgap|Hgap].
  - lia.
  - assert (r = l + 1) by lia. subst r. exists l.
    repeat split; try lia; assumption.
  - destruct (midpoint l r Hl Hr Hgap) as [Hmid Hbetween].
    rewrite Hmid. set (m := (l + r) / 2) in *.
    rewrite rawAdc_at_in by lia. cbn [bind].
    destruct (Z.gtb_spec val (tab m)) as [Hcmp|Hcmp].
    + apply IH; lia.
    + apply IH; lia.
  - assert (r = l + 1) by lia. subst r. exists l.
    repeat split; try lia; assumption.
Qed.

Lemma search_table val :
  exists k, search (Z.to_nat (u8 ADC_RAW_TABLE_SIZE)) val 0 (u8 ADC_RAW_TABLE_SIZE)
              = Done (k, k + 1) /\ 0 <= k <= 164 /\
            (k = 0 \/ val <= tab k) /\ (k + 1 = 165 \/ tab (k + 1) < val).
Proof.
  change (u8 ADC_RAW_TABLE_SIZE) with 165.
  apply search_ok; try lia. 
Qed.

(** The walk stops at the last index whose entry is not below [val]. *)
Lemma search_at val i :
  0 <= i <= 164 -> val <= tab i -> (i = 164 \/ tab (i + 1) < val) ->
  search (Z.to_nat (u8 ADC_RAW_TABLE_SIZE)) val 0 (u8 ADC_RAW_TABLE_SIZE) = Done (i, i + 1).
Proof.
  intros Hi Hle Hnext.
  destruct (search_table val) as (k & Hs & Hk & Hkl & Hkr).
  rewrite Hs. f_equal.
  assert (k = i); [|subst; reflexivity].
  destruct (Z.lt_trichotomy k i) as [Hlt|[Heq|Hgt]]; [exfalso|assumption|exfalso].
  - destruct Hkr as [Hkr|Hkr]; [lia|].
    assert (tab i <= tab (k + 1)) by (apply tab_mono; lia). lia.
  - destruct Hkl as [Hkl|Hkl]; [lia|].
    destruct Hnext as [Hnext|Hnext]; [lia|].
    assert (tab k <= tab (i + 1)) by (apply tab_mono; lia). lia.
Qed.

(** Above the first entry the walk stays at index 0. *)
Lemma search_high val :
  tab 0 < val ->
  search (Z.to_nat (u8 ADC_RAW_TABLE_SIZE)) val 0 (u8 ADC_RAW_TABLE_SIZE) = Done (0, 1).
Proof.
  intros Hhigh.
  destruct (search_table val) as (k & Hs & Hk & Hkl & Hkr).
  rewrite Hs. destruct Hkl as [->|Hkl]; [reflexivity|].
  assert (tab k <= tab 0) by (apply tab_mono; lia). lia.
Qed.

Lemma interpolate_exact val i :
  0 <= i <= 164 -> tab i <= val -> interpolate val i (i + 1) = Done (10 * i).
Proof.
  intros Hi Hge. unfold interpolate. rewrite rawAdc_at_in by lia. cbn [bind].
  destruct (Z.geb_spec val (tab i)) as [_|Hlt]; [|lia].
  rewrite u16_small by lia. f_equal. lia.
Qed.

Lemma interpolate_between val i :
  0 <= i <= 163 -> tab (i + 1) < val < tab i ->
  exists q, 0 <= q <= 9 /\ interpolate val i (i + 1) = Done (10 * (i + 1) - q) /\
            q = (val - tab (i + 1)) * 10 / (tab i - tab (i + 1)).
Proof.
  intros Hi Hval. unfold interpolate.
  pose proof (tab_range i ltac:(lia)) as Hti.
  pose proof (tab_range (i + 1) ltac:(lia)) as Htn.
  rewrite rawAdc_at_in by lia. cbn [bind].
  destruct (Z.geb_spec val (tab i)) as [Hge|_]; [lia|].
  rewrite rawAdc_at_in by lia. cbn [bind].
  rewrite (u16_small (val - tab (i + 1))) by lia.
  rewrite (u16_small ((val - tab (i + 1)) * 10)) by lia.
  rewrite (u16_small (tab i - tab (i + 1))) by lia.
  unfold udiv16.
  replace (tab i - tab (i + 1) =? 0) with false by (symmetry; apply Z.eqb_neq; lia).
  cbn [bind].
  set (q := (val - tab (i + 1)) * 10 / (tab i - tab (i + 1))).
  assert (Hq : 0 <= q <= 9).
  { subst q. split.
    - apply Z.div_pos; lia.
    - assert ((val - tab (i + 1)) * 10 / (tab i - tab (i + 1)) < 10); [|lia].
      apply Z.div_lt_upper_bound; lia. }
  exists q. repeat split; try lia.
  rewrite u16_small by lia. f_equal. lia.
Qed.

Lemma getTemperature_of_table correction s t :
  tableTemp (getAdcAveraged s) = Done t ->
  getTemperature correction s = Done (s16 (ADC_RAW_TABLE_BASE_TEMP + t + correction)).
Proof.
  intros Ht. unfold getTemperature. unfold getAdcAveraged in Ht. rewrite Ht.
  cbn [bind]. rewrite s16_u16_sum. reflexivity.
Qed.

End Walk.

(* ================================================================== *)
(** ** The averaging filter *)

Module Filter.
Import ADC.

Lemma sample_range drh drl :
  is_byte drh -> is_byte drl -> 0 <= sample drh drl <= 1023.
Proof.
  unfold is_byte, sample. intros Hh Hl.
  rewrite Z.shiftl_mul_pow2 by lia. change (2 ^ 2) with 4.
  rewrite u16_small by lia.
  pose proof (lor_below_pow2 (drh * 4) drl 10 ltac:(lia) ltac:(lia) ltac:(lia)) as H.
  change (2 ^ 10) with 1024 in H. lia.
Qed.

Lemma getAdcAveraged_small s :
  0 <= averaged s <= 16383 -> getAdcAveraged s = averaged s / 16.
Proof.
  intros H. unfold getAdcAveraged, ADC_AVERAGING_BITS. rewrite shiftr4.
  apply u16_small.
  pose proof (Z.div_mod (averaged s) 16 ltac:(lia)).
  pose proof (Z.mod_pos_bound (averaged s) 16 ltac:(lia)). lia.
Qed.

(** One conversion: either the seed or one step of the moving average,
    without any wrap-around. *)
Lemma handler_step drh drl s :
  is_byte drh -> is_byte drl -> 0 <= averaged s <= 16383 ->
  averaged (ADC1_EOC_handler drh drl s) =
    (if averaged s =? 0 then 16 * sample drh drl
     else averaged s + sample drh drl - averaged s / 16) /\
  0 <= averaged (ADC1_EOC_handler drh drl s) <= 16383.
Proof.
  intros Hh Hl Ha. pose proof (sample_range drh drl Hh Hl) as Hr.
  unfold ADC1_EOC_handler, ADC_AVERAGING_BITS. cbn [averaged].
  set (r := sample drh drl) in *.
  pose proof (Z.div_mod (averaged s) 16 ltac:(lia)) as Hdm.
  pose proof (Z.mod_pos_bound (averaged s) 16 ltac:(lia)) as Hmod.
  destruct (Z.eqb_spec (averaged s) 0) as [Hz|Hnz].
  - rewrite shiftl4. rewrite u16_small by lia. rewrite u32_small by lia. lia.
  - rewrite shiftr4.
    assert (Hsum : u32 (averaged s + u32 (r - averaged s / 16))
                   = averaged s + r - averaged s / 16).
    { unfold u32. rewrite Z.add_mod_idemp_r by lia.
      rewrite Z.mod_small by lia. lia. }
    rewrite Hsum. lia.
Qed.

(** The filtered value never leaves an interval that holds it and the
    new sample. *)
Lemma handler_contracts drh drl s lo hi :
  is_byte drh -> is_byte drl -> 0 <= averaged s <= 16383 ->
  lo <= sample drh drl <= hi ->
  (averaged s <> 0 -> lo <= getAdcAveraged s <= hi) ->
  lo <= getAdcAveraged (ADC1_EOC_handler drh drl s) <= hi.
Proof.
  intros Hh Hl Ha Hr Hf.
  destruct (handler_step drh drl s Hh Hl Ha) as [Heq Hbound].
  rewrite getAdcAveraged_small by assumption. rewrite Heq.
  rewrite getAdcAveraged_small in Hf by assumption.
  set (r := sample drh drl) in *.
  destruct (Z.eqb_spec (averaged s) 0) as [Hz|Hnz].
  - replace (16 * r) with (r * 16) by lia. rewrite Z.div_mul by lia. exact Hr.
  - specialize (Hf Hnz).
    pose proof (Z.div_mod (averaged s) 16 ltac:(lia)) as Hdm.
    pose proof (Z.mod_pos_bound (averaged s) 16 ltac:(lia)) as Hmod.
    split.
    + apply Z.div_le_lower_bound; lia.
    + assert (H : (averaged s + r - averaged s / 16) / 16 < hi + 1); [|lia].
      apply Z.div_lt_upper_bound; lia.
Qed.

(** Towards a constant input the filtered value moves monotonically: it
    never steps away from the sample and never crosses it. *)
Lemma handler_approaches drh drl s :
  is_byte drh -> is_byte drl -> 0 <= averaged s <= 16383 -> averaged s <> 0 ->
  Z.abs (getAdcAveraged (ADC1_EOC_handler drh drl s) - sample drh drl)
    <= Z.abs (getAdcAveraged s - sample drh drl).
Proof.
  intros Hh Hl Ha Hnz.
  set (r := sample drh drl). set (f := getAdcAveraged s).
  assert (Hbetween : Z.min f r <= getAdcAveraged (ADC1_EOC_handler drh drl s) <= Z.max f r).
  { apply handler_contracts; try assumption; fold r; fold f; lia. }
  lia.
Qed.

Lemma feed_snoc l dr s :
  feed (l ++ [dr]) s = ADC1_EOC_handler (fst dr) (snd dr) (feed l s).
Proof. unfold feed. rewrite fold_left_app. reflexivity. Qed.

Lemma feed_invariant samples :
  all_bytes samples ->
  0 <= averaged (feed samples initADC) <= 16383 /\
  (samples <> [] -> forall lo hi,
     (forall v, In v (raw_values samples) -> lo <= v <= hi) ->
     lo <= getAdcAveraged (feed samples initADC) <= hi).
Proof.
  induction samples as [|dr l IH] using rev_ind; intros Hb.
  - split; [cbn; lia|congruence].
  - apply Forall_app in Hb as [Hbl Hbdr].
    apply Forall_inv in Hbdr as [Hh Hl].
    destruct (IH Hbl) as [Ha Hrange]. rewrite feed_snoc.
    split; [apply handler_step; assumption|].
    intros _ lo hi Hall.
    apply handler_contracts; try assumption.
    + apply Hall. unfold raw_values. rewrite map_app. apply in_or_app. right. left. reflexivity.
    + intros Hnz. apply Hrange.
      * intros ->. apply Hnz. reflexivity.
      * intros v Hv. apply Hall. unfold raw_values in *. rewrite map_app.
        apply in_or_app. left. exact Hv.
Qed.

Lemma minimum_le l : forall x, In x l -> minimum l <= x.
Proof.
  unfold minimum. generalize (hd 0 l) as d.
  induction l as [|y t IH]; intros d x Hin; [contradiction|].
  cbn [fold_right]. destruct Hin as [->|Hin]; [lia|].
  specialize (IH d x Hin). lia.
Qed.

Lemma maximum_ge l : forall x, In x l -> x <= maximum l.
Proof.
  unfold maximum. generalize (hd 0 l) as d.
  induction l as [|y t IH]; intros d x Hin; [contradiction|].
  cbn [fold_right]. destruct Hin as [->|Hin]; [lia|].
  specialize (IH d x Hin). lia.
Qed.

(** With the accumulator at sixteen times the sample, the same sample
    leaves it where it is. *)
Lemma steady drh drl n : forall s,
  is_byte drh -> is_byte drl ->
  averaged s = 16 * sample drh drl ->
  averaged (feed (repeat (drh, drl) n) s) = 16 * sample drh drl.
Proof.
  induction n as [|n IH]; intros s Hh Hl Hs; [exact Hs|].
  cbn [repeat]. change (feed ((drh, drl) :: repeat (drh, drl) n) s)
    with (feed (repeat (drh, drl) n) (ADC1_EOC_handler drh drl s)).
  apply IH; try assumption.
  pose proof (sample_range drh drl Hh Hl) as Hr.
  destruct (handler_step drh drl s Hh Hl ltac:(lia)) as [Heq _].
  rewrite Heq, Hs.
  destruct (Z.eqb_spec (16 * sample drh drl) 0); [lia|].
  replace (16 * sample drh drl) with (sample drh drl * 16) by lia.
  rewrite Z.div_mul by lia. lia.
Qed.

End Filter.

(* ================================================================== *)
(** ** Properties of the temperature pipeline *)

Import ADC Table Walk Filter.

Ltac by_evaluation :=
  vm_compute; repeat split; first [reflexivity | discriminate].

(** C1, as the code has it.  For every filtered value in [46, 1023]
    [getTemperature] returns a value, so every read of [rawAdc] it makes
    is inside the array (an outside read would surface as
    [OutOfBounds]); the tenths it adds to the base temperature stay in
    the table's own range [0, 1640]; and a filtered value above the
    highest entry (974) gives the first table point itself: nothing is
    extrapolated there. *)
Theorem getTemperature_in_bounds correction s :
  46 <= getAdcAveraged s <= 1023 ->
  exists d, 0 <= d <= 1640 /\
    getTemperature correction s
      = Done (s16 (ADC_RAW_TABLE_BASE_TEMP + d + correction)) /\
    (974 < getAdcAveraged s -> d = 0).
Proof.
  intros Hval. set (val := getAdcAveraged s) in *.
  assert (Htab : exists d, 0 <= d <= 1640 /\ tableTemp val = Done d /\ (974 < val -> d = 0)).
  { unfold tableTemp. cbv zeta.
    destruct (search_table val) as (k & Hs & Hk & Hkl & Hkr). rewrite Hs.
    cbn [bind fst snd].
    destruct (Z_le_gt_dec (tab k) val) as [Hge|Hlt].
    - exists (10 * k). rewrite interpolate_exact by lia.
      repeat split; try lia.
      intros Hhigh. destruct Hkl as [->|Hkl]; [reflexivity|].
      pose proof (tab_range k Hk). lia.
    - assert (Hk163 : 0 <= k <= 163).
      { destruct (Z.eq_dec k 164) as [->|]; [rewrite tab_last in Hlt; lia|lia]. }
      destruct Hkr as [Hkr|Hkr]; [lia|].
      destruct (interpolate_between val k Hk163 ltac:(lia)) as (q & Hq & Hi & _).
      exists (10 * (k + 1) - q). rewrite Hi.
      repeat split; try lia.
      pose proof (tab_range k Hk). lia. }
  destruct Htab as (d & Hd & Ht & Hhigh).
  exists d. split; [exact Hd|].
  split; [apply getTemperature_of_table; exact Ht|exact Hhigh].
Qed.

Lemma getTemperature_in_bounds_witness :
  46 <= getAdcAveraged (feed [(125, 0)] initADC) <= 1023 /\
  exists d, 0 <= d <= 1640 /\
    getTemperature 3 (feed [(125, 0)] initADC)
      = Done (s16 (ADC_RAW_TABLE_BASE_TEMP + d + 3)) /\
    (974 < getAdcAveraged (feed [(125, 0)] initADC) -> d = 0).
Proof.
  split; [by_evaluation|].
  apply (getTemperature_in_bounds 3 (feed [(125, 0)] initADC)). by_evaluation.
Defined.

(** C1 as stated fails twice.  Straight after [initADC] the filtered
    value is 0 and [getTemperature] reads [rawAdc[165]], one past the
    last entry; and with the filtered value at 1023, above the highest
    entry, the result is the first table point, -52.0 degrees, not a
    value beyond it. *)
Lemma getTemperature_out_of_range :
  getAdcAveraged initADC = 0 /\
  getTemperature 0 initADC = OutOfBounds 165 /\
  getAdcAveraged (feed [(255, 3)] initADC) = 1023 /\
  getTemperature 0 (feed [(255, 3)] initADC) = Done ADC_RAW_TABLE_BASE_TEMP.
Proof. by_evaluation. Qed.

(** C2, as the code has it.  [rawAdc] has 165 entries and never
    increases; each entry is strictly greater than its successor except
    entry 162, which equals entry 163 (both are 47). *)
Theorem rawAdc_decreasing :
  length rawAdc = 165%nat /\
  (forall i j, 0 <= i <= j -> j <= 164 -> tab j <= tab i) /\
  (forall i, 0 <= i < 164 -> i <> 162 -> tab (i + 1) < tab i) /\
  tab 162 = 47 /\ tab 163 = 47.
Proof.
  split; [exact rawAdc_length|].
  split; [exact tab_mono|].
  split; [exact tab_step_strict|].
  split; reflexivity.
Qed.

(** C2 as stated fails: entries 162 and 163 are equal. *)
Lemma rawAdc_not_strictly_decreasing :
  ~ (length rawAdc = 165%nat /\ strictly_decreasing rawAdc).
Proof.
  intros [_ Hstrict].
  specialize (Hstrict 162%nat 163%nat ltac:(rewrite rawAdc_length; lia)).
  vm_compute in Hstrict. discriminate.
Qed.

(** C3, as the code has it.  For every index i in [0, 163] other than
    162, a filtered value equal to [rawAdc[i]] makes [getTemperature]
    return -520 + 10*i + correction, the sum taken as a 16-bit [int]:
    exactly that number whenever it is representable. *)
Theorem getTemperature_exact correction s i :
  0 <= i <= 163 -> i <> 162 ->
  getAdcAveraged s = tab i ->
  getTemperature correction s
    = Done (s16 (ADC_RAW_TABLE_BASE_TEMP + 10 * i + correction)) /\
  (fits_int (ADC_RAW_TABLE_BASE_TEMP + 10 * i + correction) ->
   getTemperature correction s
     = Done (ADC_RAW_TABLE_BASE_TEMP + 10 * i + correction)).
Proof.
  intros Hi Hne Hval.
  assert (Hget : getTemperature correction s
                 = Done (s16 (ADC_RAW_TABLE_BASE_TEMP + 10 * i + correction))).
  { apply getTemperature_of_table. rewrite Hval. unfold tableTemp. cbv zeta.
    rewrite (search_at (tab i) i) by
      (try lia; right; apply tab_step_strict; lia).
    cbn [bind fst snd]. apply interpolate_exact; lia. }
  split; [exact Hget|].
  intros Hfits. rewrite Hget. rewrite s16_fits by exact Hfits. reflexivity.
Qed.

Lemma getTemperature_exact_witness :
  0 <= 72 <= 163 /\ 72 <> 162 /\
  getAdcAveraged (feed [(95, 3)] initADC) = tab 72 /\
  getTemperature (-15) (feed [(95, 3)] initADC) = Done 185.
Proof.
  split; [lia|]. split; [lia|]. split; [reflexivity|].
  apply (getTemperature_exact (-15) (feed [(95, 3)] initADC) 72);
    first [lia | by_evaluation].
Defined.

(** C3 as stated fails at i = 162: the filtered value 47 equals
    [rawAdc[162]], and the result is the temperature of index 163. *)
Lemma getTemperature_at_entry_162 :
  getAdcAveraged (feed [(11, 3)] initADC) = tab 162 /\
  getTemperature 0 (feed [(11, 3)] initADC)
    = Done (ADC_RAW_TABLE_BASE_TEMP + 10 * 163 + 0) /\
  getTemperature 0 (feed [(11, 3)] initADC)
    <> Done (ADC_RAW_TABLE_BASE_TEMP + 10 * 162 + 0).
Proof. by_evaluation. Qed.

(** C4, as the code has it.  For every index i in [0, 163] and a
    filtered value strictly between [rawAdc[i+1]] and [rawAdc[i]],
    [getTemperature] returns -520 + d + correction (as a 16-bit [int])
    with 10*i < d <= 10*(i+1): above the lower point, and at most the
    upper one, which the integer division can reach. *)
Theorem getTemperature_between correction s i :
  0 <= i <= 163 ->
  tab (i + 1) < getAdcAveraged s < tab i ->
  exists d, 10 * i < d <= 10 * (i + 1) /\
    d = 10 * (i + 1)
        - (getAdcAveraged s - tab (i + 1)) * 10 / (tab i - tab (i + 1)) /\
    getTemperature correction s
      = Done (s16 (ADC_RAW_TABLE_BASE_TEMP + d + correction)) /\
    (fits_int (ADC_RAW_TABLE_BASE_TEMP + d + correction) ->
     exists t, getTemperature correction s = Done t /\
       ADC_RAW_TABLE_BASE_TEMP + 10 * i < t - correction
         <= ADC_RAW_TABLE_BASE_TEMP + 10 * (i + 1)).
Proof.
  intros Hi Hval. set (val := getAdcAveraged s) in *.
  destruct (interpolate_between val i Hi Hval) as (q & Hq & Hint & Hqdef).
  assert (Hget : getTemperature correction s
                 = Done (s16 (ADC_RAW_TABLE_BASE_TEMP + (10 * (i + 1) - q) + correction))).
  { apply getTemperature_of_table. fold val. unfold tableTemp. cbv zeta.
    rewrite (search_at val i) by lia.
    cbn [bind fst snd]. exact Hint. }
  exists (10 * (i + 1) - q).
  split; [lia|]. split; [rewrite Hqdef; reflexivity|]. split; [exact Hget|].
  intros Hfits. eexists. split; [rewrite Hget, s16_fits by exact Hfits; reflexivity|].
  lia.
Qed.

Lemma getTemperature_between_witness :
  0 <= 43 <= 163 /\
  tab (43 + 1) < getAdcAveraged (feed [(167, 2)] initADC) < tab 43 /\
  exists d, 10 * 43 < d <= 10 * (43 + 1) /\
    getTemperature 0 (feed [(167, 2)] initADC)
      = Done (s16 (ADC_RAW_TABLE_BASE_TEMP + d + 0)).
Proof.
  split; [lia|]. split; [by_evaluation|].
  destruct (getTemperature_between 0 (feed [(167, 2)] initADC) 43)
    as (d & Hd & _ & Hget & _); [lia|by_evaluation|].
  exists d. split; assumption.
Defined.

(** C4 as stated fails: with index 43 (675 and 664 in the table) and a
    filtered value of 665 the result is -520 + 10*44, the upper point
    itself, not a value strictly below it. *)
Lemma getTemperature_reaches_upper_point :
  tab (43 + 1) < getAdcAveraged (feed [(166, 1)] initADC) < tab 43 /\
  getTemperature 0 (feed [(166, 1)] initADC)
    = Done (ADC_RAW_TABLE_BASE_TEMP + 10 * (43 + 1)).
Proof. by_evaluation. Qed.

(** C5.  After [initADC] the first conversion with raw sample r makes
    [getAdcAveraged] return r, and after any number n of further
    conversions with the same sample it still returns r: the distance to
    r is 0 from the seed on, so it never grows. *)
Theorem seed_then_steady drh drl n :
  is_byte drh -> is_byte drl ->
  getAdcAveraged (ADC1_EOC_handler drh drl initADC) = sample drh drl /\
  getAdcAveraged (feed (repeat (drh, drl) n) (ADC1_EOC_handler drh drl initADC))
    = sample drh drl /\
  Z.abs (getAdcAveraged (feed (repeat (drh, drl) (S n)) (ADC1_EOC_handler drh drl initADC))
         - sample drh drl)
    <= Z.abs (getAdcAveraged (feed (repeat (drh, drl) n) (ADC1_EOC_handler drh drl initADC))
              - sample drh drl).
Proof.
  intros Hh Hl. pose proof (sample_range drh drl Hh Hl) as Hr.
  assert (Hseed : averaged (ADC1_EOC_handler drh drl initADC) = 16 * sample drh drl).
  { destruct (handler_step drh drl initADC Hh Hl ltac:(cbn; lia)) as [Heq _].
    exact Heq. }
  assert (Hall : forall m,
    getAdcAveraged (feed (repeat (drh, drl) m) (ADC1_EOC_handler drh drl initADC))
      = sample drh drl).
  { intros m.
    pose proof (steady drh drl m _ Hh Hl Hseed) as Hm.
    rewrite getAdcAveraged_small by (rewrite Hm; lia).
    rewrite Hm. replace (16 * sample drh drl) with (sample drh drl * 16) by lia.
    apply Z.div_mul. lia. }
  split; [exact (Hall 0%nat)|]. split; [apply Hall|].
  rewrite (Hall (S n)), (Hall n). lia.
Qed.

Lemma seed_then_steady_witness :
  is_byte 150 /\ is_byte 2 /\
  getAdcAveraged (feed (repeat (150, 2) 5) (ADC1_EOC_handler 150 2 initADC)) = 602.
Proof.
  split; [unfold is_byte; lia|]. split; [unfold is_byte; lia|].
  apply (seed_then_steady 150 2 5); unfold is_byte; lia.
Defined.

(** C6.  After any non-empty sequence of conversions following
    [initADC], the value returned by [getAdcAveraged] lies between the
    smallest and the largest raw sample seen so far. *)
Theorem filter_within_observed_range samples :
  samples <> [] -> all_bytes samples ->
  minimum (raw_values samples)
    <= getAdcAveraged (feed samples initADC)
    <= maximum (raw_values samples).
Proof.
  intros Hne Hbytes.
  destruct (feed_invariant samples Hbytes) as [_ Hrange].
  apply (Hrange Hne). intros v Hv. split.
  - apply minimum_le. exact Hv.
  - apply maximum_ge. exact Hv.
Qed.

Lemma filter_within_observed_range_witness :
  minimum (raw_values [(200, 1); (10, 3); (90, 0)])
    <= getAdcAveraged (feed [(200, 1); (10, 3); (90, 0)] initADC)
    <= maximum (raw_values [(200, 1); (10, 3); (90, 0)]).
Proof.
  apply (filter_within_observed_range [(200, 1); (10, 3); (90, 0)]).
  - discriminate.
  - unfold all_bytes, is_byte. repeat constructor; cbn; lia.
Defined.

(* ================================================================== *)
(** ** The menu automaton *)

Module MenuFacts.
Import Menu.

Section Automaton.

Context {hdr : Header} {W : Type} {col : Collaborators W}.

Ltac split_ifs :=
  repeat match goal with
         | |- context [if ?c then _ else _] => destruct c
         end.

Lemma feedMenu_pair_ok event (s : machine) :
  pair_ok s -> pair_ok (feedMenu event s).
Proof.
  unfold pair_ok, feedMenu. intros H.
  destruct (Z.eqb_spec (menuState s) MENU_ROOT) as [HR|HR];
    [unfold feedRoot
    |destruct (Z.eqb_spec (menuState s) MENU_SELECT_PARAM) as [HS|HS];
      [unfold feedSelectParam, autoRepeat
      |destruct (Z.eqb_spec (menuState s) MENU_CHANGE_PARAM) as [HC|HC];
        [unfold feedChangeParam, autoRepeat
        |destruct (Z.eqb_spec (menuState s) MENU_SET_TIMER) as [HT|HT];
          [unfold feedSetTimer, autoRepeat|exact H]]]].
  all: cbv zeta; split_ifs; cbn; lia.
Qed.

Lemma feedMenu_is_menu event (s : machine) :
  is_menu (menuState s) /\ is_menu (menuDisplay s) ->
  is_menu (menuState (feedMenu event s)) /\ is_menu (menuDisplay (feedMenu event s)).
Proof.
  unfold is_menu, feedMenu. intros H.
  destruct (menuState s =? MENU_ROOT);
    [unfold feedRoot
    |destruct (menuState s =? MENU_SELECT_PARAM);
      [unfold feedSelectParam, autoRepeat
      |destruct (menuState s =? MENU_CHANGE_PARAM);
        [unfold feedChangeParam, autoRepeat
        |destruct (menuState s =? MENU_SET_TIMER);
          [unfold feedSetTimer, autoRepeat|exact H]]]].
  all: cbv zeta; split_ifs; cbn; lia.
Qed.

Lemma reachable_pair_ok (s : machine) : reachable s -> pair_ok s.
Proof.
  induction 1 as [s|event s _ IH|s s' _ IH Hst Hdi].
  - left. reflexivity.
  - apply feedMenu_pair_ok. exact IH.
  - unfold pair_ok in *. rewrite Hst, Hdi. exact IH.
Qed.

Lemma reachable_is_menu (s : machine) :
  reachable s -> is_menu (menuState s) /\ is_menu (menuDisplay s).
Proof.
  induction 1 as [s|event s _ IH|s s' _ IH Hst Hdi].
  - split; left; reflexivity.
  - apply feedMenu_is_menu. exact IH.
  - rewrite Hst, Hdi. exact IH.
Qed.

(** What [header_ok] gives: one disequality for each pair of
    identifiers. *)
Ltac use_header H :=
  let Hst := fresh "Hstates" in
  let Hev := fresh "Hevents" in
  destruct H as [Hst Hev];
  repeat match goal with
         | Hn : NoDup (_ :: _) |- _ =>
             let Hx := fresh "Hdiff" in
             apply NoDup_cons_iff in Hn; destruct Hn as [Hx Hn]; cbn [In] in Hx
         end;
  repeat match goal with
         | Hx : ~ (_ \/ _) |- _ =>
             let Hy := fresh "Hdiff" in
             apply Decidable.not_or in Hx; destruct Hx as [Hy Hx]
         end;
  repeat match goal with
         | Hx : ~ False |- _ => clear Hx
         | Hn : NoDup [] |- _ => clear Hn
         end.

(** Settle the comparisons of identifiers, then forget the
    disequalities. *)
Ltac settle_ids :=
  repeat match goal with
         | |- context [?a =? ?a] => rewrite (Z.eqb_refl a)
         | |- context [?a =? ?b] =>
             destruct (Z.eqb_spec a b); [congruence|]
         end;
  repeat match goal with
         | Hx : _ <> _ |- _ => clear Hx
         end.

Lemma feedMenu_root_check (s : machine) :
  header_ok -> menuState s = MENU_ROOT ->
  feedMenu MENU_EVENT_CHECK_TIMER s =
    if timer s >? MENU_3_SEC_PASSED then
      if getButton1 s then
        set_menu MENU_SELECT_PARAM (call (setParamId 0) (set_timer 0 s))
      else if getButton2 s then
        if isRelayEnabled (ext s) && negb (isFTimer (ext s))
        then call (enableRelay false) (set_timer 0 s)
        else call (enableRelay true) (set_timer 0 s)
      else if getButton3 s then
        if isFTimer (ext s)
        then call (enableRelay false) (call stopFTimer (set_timer 0 s))
        else call (enableRelay true) (call startFTimer (set_timer 0 s))
      else set_timer 0 s
    else s.
Proof.
  intros Hok Hst. use_header Hok.
  unfold feedMenu, feedRoot. rewrite Hst.
  settle_ids. reflexivity.
Qed.

Lemma ticks_S (n : nat) (s : machine) : ticks (S n) s = refreshMenu (ticks n s).
Proof. reflexivity. Qed.

Lemma set_timer_same (s : @machine W) : set_timer (timer s) s = s.
Proof. destruct s; reflexivity. Qed.

(** Button 1 down in the root menu, counter at 0: the first 96 ticks
    only count. *)
Lemma root_hold_counts (s : machine) (n : nat) :
  header_ok -> menuState s = MENU_ROOT -> timer s = 0 -> (n <= 96)%nat ->
  ticks n s = set_timer (Z.of_nat n) s.
Proof.
  intros Hok Hst Ht. induction n as [|n IH]; intros Hn.
  - cbn [ticks Z.of_nat]. rewrite <- Ht. symmetry. apply set_timer_same.
  - rewrite ticks_S. rewrite IH by lia. unfold refreshMenu.
    rewrite feedMenu_root_check by assumption.
    cbn [timer set_timer]. rewrite u16_small by lia.
    unfold MENU_3_SEC_PASSED, MENU_1_SEC_PASSED.
    destruct (Z.gtb_spec (Z.of_nat n + 1) (32 * 3)); [exfalso; lia|].
    unfold set_timer. cbn. f_equal. lia.
Qed.

Lemma root_hold_fires (s : machine) :
  header_ok -> menuState s = MENU_ROOT -> timer s = 0 -> getButton1 s = true ->
  ticks 97 s = set_menu MENU_SELECT_PARAM (call (setParamId 0) s).
Proof.
  intros Hok Hst Ht Hb1.
  rewrite (ticks_S 96 s).
  rewrite root_hold_counts by (try assumption; lia).
  unfold refreshMenu. rewrite feedMenu_root_check by assumption.
  cbn [timer set_timer]. 
  change (u16 (Z.of_nat 96 + 1) >? MENU_3_SEC_PASSED) with true. cbv iota.
  unfold getButton1 in *. cbn [status set_timer]. rewrite Hb1.
  destruct s as [d st t b off w]. cbn [timer] in Ht. subst t. reflexivity.
Qed.

Lemma feedMenu_setTimer_push2 (s : machine) :
  header_ok -> menuState s = MENU_SET_TIMER ->
  feedMenu MENU_EVENT_PUSH_BUTTON2 s =
    set_timer 0 (call incParam (call (setParamId PARAM_FERMENTATION_TIME) s)).
Proof.
  intros Hok Hst. use_header Hok.
  unfold feedMenu, feedSetTimer. rewrite Hst.
  settle_ids. reflexivity.
Qed.

Lemma feedMenu_setTimer_check (s : machine) :
  header_ok -> menuState s = MENU_SET_TIMER ->
  feedMenu MENU_EVENT_CHECK_TIMER s = feedSetTimer MENU_EVENT_CHECK_TIMER s /\
  feedSetTimer MENU_EVENT_CHECK_TIMER s =
    let blink := if getButton2 s || getButton3 s then false else blinkPhase s in
    let s1 := if timer s >? MENU_1_SEC_PASSED + MENU_AUTOINC_DELAY
              then autoRepeat incParam decParam
                     (call (setParamId PARAM_FERMENTATION_TIME) s)
              else s in
    let s2 := setDisplayOff blink s1 in
    if timer s2 >? MENU_5_SEC_PASSED then
      if getButton1 s2 then
        setDisplayOff false (set_menu MENU_SELECT_PARAM (set_timer 0 s2))
      else
        setDisplayOff false (set_menu MENU_ROOT (call storeParams (set_timer 0 s2)))
    else s2.
Proof.
  intros Hok Hst. use_header Hok.
  unfold feedMenu, feedSetTimer. rewrite Hst.
  settle_ids. split; reflexivity.
Qed.

(** One tick in the timer-setting menu with button 2 down and the
    counter not yet past the repeat mark. *)
Lemma setTimer_tick_held (s : machine) :
  header_ok -> menuState s = MENU_SET_TIMER -> getButton2 s = true ->
  0 <= timer s <= 36 ->
  refreshMenu s =
    if timer s =? 36 then
      setDisplayOff false
        (set_timer 32 (call incParam (call (setParamId PARAM_FERMENTATION_TIME) s)))
    else setDisplayOff false (set_timer (timer s + 1) s).
Proof.
  intros Hok Hst Hb2 Ht.
  unfold refreshMenu.
  destruct (feedMenu_setTimer_check (set_timer (u16 (timer s + 1)) s) Hok Hst) as [-> ->].
  cbv zeta. unfold autoRepeat, getButton1, getButton2 in *.
  cbn [menuState timer status set_timer call setDisplayOff]. rewrite Hb2.
  rewrite u16_small by lia.
  unfold MENU_5_SEC_PASSED, MENU_AUTOINC_DELAY, MENU_1_SEC_PASSED.
  change (32 + 32 / 8) with 36. change (32 * 5) with 160.
  cbn [orb].
  destruct (Z.eqb_spec (timer s) 36) as [H36|H36].
  - rewrite H36. reflexivity.
  - destruct (Z.gtb_spec (timer s + 1) 36); [exfalso; lia|].
    cbn [timer setDisplayOff set_timer menuDisplay menuState status ext displayOff].
    destruct (Z.gtb_spec (timer s + 1) 160); [exfalso; lia|]. reflexivity.
Qed.

Lemma setTimer_hold_invariant (s : machine) (n : nat) :
  header_ok -> menuState s = MENU_SET_TIMER -> getButton2 s = true ->
  let sn := ticks n (feedMenu MENU_EVENT_PUSH_BUTTON2 s) in
  menuState sn = MENU_SET_TIMER /\ status sn = status s /\
  timer sn = heldTimer (Z.of_nat n).
Proof.
  intros Hok Hst Hb2. cbv zeta. induction n as [|n IH].
  - cbn [ticks]. rewrite feedMenu_setTimer_push2 by assumption.
    cbn. auto.
  - destruct IH as (IHst & IHb & IHt).
    rewrite ticks_S. set (sn := ticks n (feedMenu MENU_EVENT_PUSH_BUTTON2 s)) in *.
    assert (Hrange : 0 <= timer sn <= 36).
    { rewrite IHt. unfold heldTimer.
      destruct (Z.ltb_spec (Z.of_nat n) 37); [lia|].
      pose proof (Z.mod_pos_bound (Z.of_nat n - 37) 5 ltac:(lia)). lia. }
    rewrite setTimer_tick_held; try assumption;
      [|unfold getButton2 in *; rewrite IHb; exact Hb2].
    unfold heldTimer in *.
    destruct (Z.eqb_spec (timer sn) 36) as [H36|H36];
      cbn [menuState status timer setDisplayOff set_timer call];
      (split; [exact IHst|split; [exact IHb|]]).
    + destruct (Z.ltb_spec (Z.of_nat (S n)) 37); destruct (Z.ltb_spec (Z.of_nat n) 37);
        Z.div_mod_to_equations; lia.
    + destruct (Z.ltb_spec (Z.of_nat (S n)) 37); destruct (Z.ltb_spec (Z.of_nat n) 37);
        Z.div_mod_to_equations; lia.
Qed.

Lemma heldTimer_repeat (n : Z) :
  0 <= n -> (heldTimer n =? 36) = repeatTick (n + 1).
Proof.
  intros Hn. unfold heldTimer, repeatTick, MENU_AUTOINC_DELAY, MENU_1_SEC_PASSED.
  change (32 + 32 / 8 + 1) with 37. change (32 / 8 + 1) with 5.
  destruct (Z.ltb_spec n 37); destruct (Z.leb_spec 37 (n + 1)); cbn [andb];
    repeat match goal with
           | |- context [?a =? ?b] => destruct (Z.eqb_spec a b)
           end;
    first [reflexivity | exfalso; Z.div_mod_to_equations; lia].
Qed.

Lemma setTimer_hold_step (s : machine) (n : nat) :
  header_ok -> menuState s = MENU_SET_TIMER -> getButton2 s = true ->
  ext (ticks (S n) (feedMenu MENU_EVENT_PUSH_BUTTON2 s)) =
    if repeatTick (Z.of_nat (S n))
    then incParam (setParamId PARAM_FERMENTATION_TIME
                     (ext (ticks n (feedMenu MENU_EVENT_PUSH_BUTTON2 s))))
    else ext (ticks n (feedMenu MENU_EVENT_PUSH_BUTTON2 s)).
Proof.
  intros Hok Hst Hb2.
  destruct (setTimer_hold_invariant s n Hok Hst Hb2) as (Hs & Hb & Ht).
  rewrite ticks_S. set (sn := ticks n (feedMenu MENU_EVENT_PUSH_BUTTON2 s)) in *.
  assert (Hrange : 0 <= timer sn <= 36).
  { rewrite Ht. unfold heldTimer.
    destruct (Z.ltb_spec (Z.of_nat n) 37); [lia|].
    pose proof (Z.mod_pos_bound (Z.of_nat n - 37) 5 ltac:(lia)). lia. }
  rewrite setTimer_tick_held; try assumption;
    [|unfold getButton2 in *; rewrite Hb; exact Hb2].
  replace (Z.of_nat (S n)) with (Z.of_nat n + 1) by lia.
  rewrite <- heldTimer_repeat by lia. rewrite <- Ht.
  destruct (timer sn =? 36); reflexivity.
Qed.



(** The four calls are not one read.  Button 1 pushed in the
    timer-setting menu between the first call and the second makes all
    four comparisons fail, each on a menu identifier: the first call
    returned [MENU_SET_TIMER], the later ones return [MENU_ROOT]. *)
Lemma push_between_reads (s : @machine W) :
  header_ok -> menuState s = MENU_SET_TIMER -> menuDisplay s = MENU_SET_TIMER ->
  interrupted s (feedMenu MENU_EVENT_PUSH_BUTTON1 s) /\
  menuDisplay (feedMenu MENU_EVENT_PUSH_BUTTON1 s) = MENU_ROOT /\
  displayBranch s (feedMenu MENU_EVENT_PUSH_BUTTON1 s)
    (feedMenu MENU_EVENT_PUSH_BUTTON1 s) (feedMenu MENU_EVENT_PUSH_BUTTON1 s) = ShowErr.
Proof.
  intros Hok Hst Hdi.
  split; [apply int_feed, int_none|].
  assert (Hpush : menuDisplay (feedMenu MENU_EVENT_PUSH_BUTTON1 s) = MENU_ROOT).
  { use_header Hok. unfold feedMenu, feedSetTimer. rewrite Hst.
    settle_ids. reflexivity. }
  split; [exact Hpush|].
  unfold displayBranch, getMenuDisplay. rewrite Hpush, Hdi.
  use_header Hok. settle_ids. reflexivity.
Qed.

End Automaton.

End MenuFacts.

Module BenchFacts.
Import Menu Bench.

Lemma bench_header_ok : header_ok.
Proof.
  split; repeat (apply NoDup_cons; [cbn [In]; intuition discriminate|]);
    apply NoDup_nil.
Qed.

Lemma boot_reachable buttons : reachable (boot buttons).
Proof. unfold boot. apply reach_init. Qed.

(** Both previews occur: button 1 pushed in the root menu, and pushed
    again after a short press has entered the timer-setting menu. *)
Lemma previews_occur :
  let s1 := feedMenu MENU_EVENT_PUSH_BUTTON1 (boot 0) in
  let s2 := feedMenu MENU_EVENT_PUSH_BUTTON1 (feedMenu MENU_EVENT_RELEASE_BUTTON1 s1) in
  reachable s1 /\ menuState s1 = MENU_ROOT /\ menuDisplay s1 = MENU_SET_TIMER /\
  reachable s2 /\ menuState s2 = MENU_SET_TIMER /\ menuDisplay s2 = MENU_ROOT.
Proof.
  cbv zeta. repeat split; try reflexivity;
    repeat apply reach_feed; apply boot_reachable.
Qed.

(** A short press of button 1 has entered the timer-setting menu; the
    next push arrives between the first and the second call of
    [getMenuDisplay()] in [main]: the pass ends in the "ERR" branch,
    every value read being a menu identifier. *)
Lemma err_between_reads :
  let s1 := feedMenu MENU_EVENT_RELEASE_BUTTON1
              (feedMenu MENU_EVENT_PUSH_BUTTON1 (boot 0)) in
  let s2 := feedMenu MENU_EVENT_PUSH_BUTTON1 s1 in
  reachable s1 /\ interrupted s1 s2 /\
  getMenuDisplay s1 = MENU_SET_TIMER /\ getMenuDisplay s2 = MENU_ROOT /\
  displayBranch s1 s2 s2 s2 = ShowErr.
Proof.
  cbv zeta. split; [repeat apply reach_feed; apply boot_reachable|].
  split; [apply int_feed, int_none|].
  repeat split; reflexivity.
Qed.

End BenchFacts.

(* ================================================================== *)
(** ** Properties of the menu *)

Import Menu MenuFacts Bench BenchFacts.

(** C7, as the code has it.  In the root menu a [MENU_EVENT_CHECK_TIMER]
    with the counter above [MENU_3_SEC_PASSED] puts the counter to 0
    and does one thing: with button 1 down, [setParamId(0)] and state
    and display both [MENU_SELECT_PARAM]; else with button 2 down, the
    relay off when it is on and no fermentation timer runs, on
    otherwise; else with button 3 down, a running fermentation timer
    stopped and the relay off, or the timer started and the relay on;
    else nothing more.  Holding button 1 from a counter of 0, the first
    96 ticks only count; the 97th makes the move to
    [MENU_SELECT_PARAM] with parameter id 0. *)
Theorem root_long_press {hdr : Header} {W : Type} {col : Collaborators W}
    (s : machine) :
  header_ok -> menuState s = MENU_ROOT ->
  (MENU_3_SEC_PASSED < timer s ->
     (getButton1 s = true ->
        feedMenu MENU_EVENT_CHECK_TIMER s
          = set_menu MENU_SELECT_PARAM (call (setParamId 0) (set_timer 0 s))) /\
     (getButton1 s = false -> getButton2 s = true ->
        feedMenu MENU_EVENT_CHECK_TIMER s
          = if isRelayEnabled (ext s) && negb (isFTimer (ext s))
            then call (enableRelay false) (set_timer 0 s)
            else call (enableRelay true) (set_timer 0 s)) /\
     (getButton1 s = false -> getButton2 s = false -> getButton3 s = true ->
        feedMenu MENU_EVENT_CHECK_TIMER s
          = if isFTimer (ext s)
            then call (enableRelay false) (call stopFTimer (set_timer 0 s))
            else call (enableRelay true) (call startFTimer (set_timer 0 s))) /\
     (getButton1 s = false -> getButton2 s = false -> getButton3 s = false ->
        feedMenu MENU_EVENT_CHECK_TIMER s = set_timer 0 s)) /\
  (timer s = 0 -> getButton1 s = true ->
     (forall n : nat, (n <= 96)%nat -> ticks n s = set_timer (Z.of_nat n) s) /\
     ticks 97 s = set_menu MENU_SELECT_PARAM (call (setParamId 0) s)).
Proof.
  intros Hok Hst. split.
  - intros Hlong. rewrite feedMenu_root_check by assumption.
    destruct (Z.gtb_spec (timer s) MENU_3_SEC_PASSED) as [_|Hle]; [|exfalso; lia].
    repeat split.
    + intros ->. reflexivity.
    + intros -> ->. reflexivity.
    + intros -> -> ->. reflexivity.
    + intros -> -> ->. reflexivity.
  - intros Ht Hb1. split.
    + intros n Hn. apply root_hold_counts; assumption.
    + apply root_hold_fires; assumption.
Qed.

Lemma root_long_press_witness :
  header_ok /\ menuState (boot Buttons.BUTTON1_BIT) = MENU_ROOT /\
  ticks 97 (boot Buttons.BUTTON1_BIT)
    = set_menu MENU_SELECT_PARAM (call (setParamId 0) (boot Buttons.BUTTON1_BIT)).
Proof.
  split; [exact bench_header_ok|]. split; [reflexivity|].
  apply (root_long_press (boot Buttons.BUTTON1_BIT) bench_header_ok eq_refl);
    reflexivity.
Defined.

(** C7 as stated fails in its last sentence: button 1 pushed and held
    in the root menu, 96 ticks later the state is still [MENU_ROOT]
    and no parameter id has been set; the move comes with tick 97. *)
Lemma root_hold_96_ticks :
  let pushed := feedMenu MENU_EVENT_PUSH_BUTTON1 (boot Buttons.BUTTON1_BIT) in
  getButton1 pushed = true /\
  menuState (ticks 96 pushed) = MENU_ROOT /\
  menuDisplay (ticks 96 pushed) = MENU_SET_TIMER /\
  timer (ticks 96 pushed) = 96 /\
  ext (ticks 96 pushed) = [] /\
  menuState (ticks 96 pushed) <> MENU_SELECT_PARAM /\
  menuState (ticks 97 pushed) = MENU_SELECT_PARAM /\
  ext (ticks 97 pushed) = [SetParamId 0].
Proof. by_evaluation. Qed.

(** C8, as the code has it.  In the timer-setting menu with button 2
    kept down, [MENU_EVENT_PUSH_BUTTON2] selects the fermentation time
    and increments it once; after that a tick does the same again
    exactly when it is tick 37, 42, 47, ... counted from the push (the
    first repeat 37 ticks after the push, then one every 5 ticks), and
    leaves the parameters alone on every other tick. *)
Theorem set_timer_auto_repeat {hdr : Header} {W : Type} {col : Collaborators W}
    (s : machine) :
  header_ok -> menuState s = MENU_SET_TIMER -> getButton2 s = true ->
  ext (feedMenu MENU_EVENT_PUSH_BUTTON2 s)
    = incParam (setParamId PARAM_FERMENTATION_TIME (ext s)) /\
  forall n : nat,
    menuState (ticks n (feedMenu MENU_EVENT_PUSH_BUTTON2 s)) = MENU_SET_TIMER /\
    ext (ticks (S n) (feedMenu MENU_EVENT_PUSH_BUTTON2 s)) =
      if repeatTick (Z.of_nat (S n))
      then incParam (setParamId PARAM_FERMENTATION_TIME
                       (ext (ticks n (feedMenu MENU_EVENT_PUSH_BUTTON2 s))))
      else ext (ticks n (feedMenu MENU_EVENT_PUSH_BUTTON2 s)).
Proof.
  intros Hok Hst Hb2. split.
  - rewrite feedMenu_setTimer_push2 by assumption. reflexivity.
  - intros n. split.
    + apply (setTimer_hold_invariant s n Hok Hst Hb2).
    + apply setTimer_hold_step; assumption.
Qed.

Lemma set_timer_auto_repeat_witness :
  header_ok /\ menuState settingTimer = MENU_SET_TIMER /\
  getButton2 settingTimer = true /\
  ext (feedMenu MENU_EVENT_PUSH_BUTTON2 settingTimer)
    = [IncParam; SetParamId PARAM_FERMENTATION_TIME].
Proof.
  split; [exact bench_header_ok|]. split; [reflexivity|]. split; [reflexivity|].
  exact (proj1 (set_timer_auto_repeat settingTimer bench_header_ok eq_refl eq_refl)).
Defined.

(** C8 as stated fails: counted from the push, 32 ticks bring no second
    increment, the first repeat comes with tick 37, the next with tick
    42, and after 64 ticks the parameter has been incremented 7 times,
    not 3. *)
Lemma auto_repeat_cadence :
  let pushed := feedMenu MENU_EVENT_PUSH_BUTTON2 settingTimer in
  increments (ext pushed) = 1%nat /\
  increments (ext (ticks 32 pushed)) = 1%nat /\
  increments (ext (ticks 36 pushed)) = 1%nat /\
  increments (ext (ticks 37 pushed)) = 2%nat /\
  increments (ext (ticks 41 pushed)) = 2%nat /\
  increments (ext (ticks 42 pushed)) = 3%nat /\
  increments (ext (ticks 64 pushed)) = 7%nat.
Proof. by_evaluation. Qed.

(** C9.  In every state reached from [initMenu] by [feedMenu] calls,
    [menuState] equals [menuDisplay], or the state is [MENU_ROOT] with
    [MENU_SET_TIMER] displayed, or the state is [MENU_SET_TIMER] with
    [MENU_ROOT] displayed. *)
Theorem state_display_pairs {hdr : Header} {W : Type} {col : Collaborators W}
    (s : machine) :
  reachable s ->
  menuState s = menuDisplay s \/
  (menuState s = MENU_ROOT /\ menuDisplay s = MENU_SET_TIMER) \/
  (menuState s = MENU_SET_TIMER /\ menuDisplay s = MENU_ROOT).
Proof. exact (reachable_pair_ok s). Qed.

Lemma state_display_pairs_witness :
  reachable (feedMenu MENU_EVENT_PUSH_BUTTON1 (boot 0)) /\
  (menuState (feedMenu MENU_EVENT_PUSH_BUTTON1 (boot 0))
     = menuDisplay (feedMenu MENU_EVENT_PUSH_BUTTON1 (boot 0)) \/
   (menuState (feedMenu MENU_EVENT_PUSH_BUTTON1 (boot 0)) = MENU_ROOT /\
    menuDisplay (feedMenu MENU_EVENT_PUSH_BUTTON1 (boot 0)) = MENU_SET_TIMER) \/
   (menuState (feedMenu MENU_EVENT_PUSH_BUTTON1 (boot 0)) = MENU_SET_TIMER /\
    menuDisplay (feedMenu MENU_EVENT_PUSH_BUTTON1 (boot 0)) = MENU_ROOT)).
Proof.
  split; [apply reach_feed, boot_reachable|].
  apply (state_display_pairs (feedMenu MENU_EVENT_PUSH_BUTTON1 (boot 0))).
  apply reach_feed, boot_reachable.
Defined.



(* ================================================================== *)
(** ** Further properties of the temperature pipeline *)

Module WalkMore.
Import ADC Table Walk Filter.

(** What the table walk returns for a filtered value from 46 up: the
    index [k] it stops at, and either ten times [k] or the interpolated
    value above it. *)
Lemma tableTemp_shape val :
  46 <= val ->
  exists k d, tableTemp val = Done d /\ 0 <= k <= 164 /\
    (k = 0 \/ val <= tab k) /\ (k + 1 = 165 \/ tab (k + 1) < val) /\
    ((tab k <= val /\ d = 10 * k) \/
     (val < tab k /\ k <= 163 /\
      d = 10 * (k + 1) - (val - tab (k + 1)) * 10 / (tab k - tab (k + 1)) /\
      10 * k < d <= 10 * (k + 1))).
Proof.
  intros Hval. unfold tableTemp. cbv zeta.
  destruct (search_table val) as (k & Hs & Hk & Hkl & Hkr). rewrite Hs.
  cbn [bind fst snd].
  destruct (Z_le_gt_dec (tab k) val) as [Hge|Hlt].
  - exists k, (10 * k). rewrite interpolate_exact by lia.
    split; [reflexivity|]. split; [exact Hk|]. split; [exact Hkl|].
    split; [exact Hkr|]. left. split; [lia|reflexivity].
  - assert (Hk163 : 0 <= k <= 163).
    { destruct (Z.eq_dec k 164) as [->|]; [rewrite tab_last in Hlt; lia|lia]. }
    destruct Hkr as [Hkr|Hkr]; [lia|].
    destruct (interpolate_between val k Hk163 ltac:(lia)) as (q & Hq & Hi & Hqdef).
    exists k, (10 * (k + 1) - q). rewrite Hi.
    split; [reflexivity|]. split; [exact Hk|]. split; [exact Hkl|].
    split; [right; exact Hkr|]. right.
    split; [lia|]. split; [lia|]. split; [rewrite Hqdef; reflexivity|lia].
Qed.

Lemma tableTemp_antitone v1 v2 d1 d2 :
  46 <= v1 <= v2 ->
  tableTemp v1 = Done d1 -> tableTemp v2 = Done d2 -> d2 <= d1.
Proof.
  intros Hv H1 H2.
  destruct (tableTemp_shape v1 ltac:(lia)) as (k1 & e1 & He1 & Hk1 & Hl1 & Hr1 & Hd1).
  destruct (tableTemp_shape v2 ltac:(lia)) as (k2 & e2 & He2 & Hk2 & Hl2 & Hr2 & Hd2).
  rewrite H1 in He1. rewrite H2 in He2.
  injection He1 as <-. injection He2 as <-.
  assert (Hk : k2 <= k1).
  { destruct (Z_le_gt_dec k2 k1) as [|Hgt]; [assumption|exfalso].
    destruct Hl2 as [Hl2|Hl2]; [lia|].
    destruct Hr1 as [Hr1|Hr1]; [lia|].
    assert (tab k2 <= tab (k1 + 1)) by (apply tab_mono; lia). lia. }
  destruct (Z.eq_dec k1 k2) as [Heq|Hne].
  - subst k2.
    destruct Hd1 as [[Hge1 ->]|(Hlt1 & Hk163 & -> & Hb1)];
      destruct Hd2 as [[Hge2 ->]|(Hlt2 & _ & -> & Hb2)]; try lia.
    destruct Hr1 as [Hr1|Hr1]; [lia|].
    assert (Hq : (v1 - tab (k1 + 1)) * 10 / (tab k1 - tab (k1 + 1))
                  <= (v2 - tab (k1 + 1)) * 10 / (tab k1 - tab (k1 + 1))).
    { apply Z.div_le_mono; lia. }
    lia.
  - assert (d1 >= 10 * k1) by (destruct Hd1 as [[_ ->]|(_ & _ & _ & Hb1)]; lia).
    assert (d2 <= 10 * (k2 + 1)) by (destruct Hd2 as [[_ ->]|(_ & _ & _ & Hb2)]; lia).
    lia.
Qed.

End WalkMore.

Module FilterMore.
Import ADC Filter.

(** How far the accumulator is from the band [16 r, 16 r + 15] in which
    the filtered value is [r]. *)
Lemma handler_closes_in drh drl s :
  is_byte drh -> is_byte drl -> 0 < averaged s <= 16383 ->
  distance (sample drh drl) (averaged (ADC1_EOC_handler drh drl s))
    <= Z.max 0 (distance (sample drh drl) (averaged s) - 1).
Proof.
  intros Hh Hl Ha. pose proof (sample_range drh drl Hh Hl) as Hr.
  destruct (handler_step drh drl s Hh Hl ltac:(lia)) as [Heq _].
  rewrite Heq. set (r := sample drh drl) in *. set (a := averaged s) in *.
  destruct (Z.eqb_spec a 0); [lia|].
  pose proof (Z.div_mod a 16 ltac:(lia)) as Hdm.
  pose proof (Z.mod_pos_bound a 16 ltac:(lia)) as Hmod.
  unfold distance.
  repeat match goal with
         | |- context [?x <? ?y] => destruct (Z.ltb_spec x y)
         end; lia.
Qed.

Lemma distance_zero r a :
  0 <= a -> distance r a <= 0 -> a / 16 = r.
Proof.
  intros Ha. unfold distance.
  repeat match goal with
         | |- context [?x <? ?y] => destruct (Z.ltb_spec x y)
         end; intros Hd; try lia.
  symmetry. apply Z.div_unique with (r := a - 16 * r); lia.
Qed.

Lemma settles_within drh drl (n : nat) : forall s,
  is_byte drh -> is_byte drl -> 0 < averaged s <= 16383 ->
  distance (sample drh drl) (averaged s) <= Z.of_nat n ->
  getAdcAveraged (feed (repeat (drh, drl) n) s) = sample drh drl.
Proof.
  induction n as [|n IH]; intros s Hh Hl Ha Hd.
  - cbn [repeat feed fold_left]. rewrite getAdcAveraged_small by lia.
    apply distance_zero; lia.
  - cbn [repeat]. change (feed ((drh, drl) :: repeat (drh, drl) n) s)
      with (feed (repeat (drh, drl) n) (ADC1_EOC_handler drh drl s)).
    pose proof (handler_closes_in drh drl s Hh Hl Ha) as Hstep.
    destruct (handler_step drh drl s Hh Hl ltac:(lia)) as [Heq Hb].
    apply IH; try assumption; [|lia].
    split; [|lia]. rewrite Heq.
    pose proof (sample_range drh drl Hh Hl) as Hr.
    destruct (Z.eqb_spec (averaged s) 0); [lia|].
    pose proof (Z.div_mod (averaged s) 16 ltac:(lia)).
    pose proof (Z.mod_pos_bound (averaged s) 16 ltac:(lia)). lia.
Qed.

Lemma distance_bound r a :
  0 <= r <= 1023 -> 0 <= a <= 16383 -> 0 <= distance r a <= 16383.
Proof.
  intros Hr Ha. unfold distance.
  repeat match goal with
         | |- context [?x <? ?y] => destruct (Z.ltb_spec x y)
         end; lia.
Qed.

End FilterMore.

(* ================================================================== *)
(** ** Further properties of the menu *)

Module RunFacts.
Import Menu MenuFacts Run.

(** The disequalities of [header_ok], one per pair of identifiers. *)
Ltac header_facts H :=
  let Hst := fresh "Hstates" in
  let Hev := fresh "Hevents" in
  destruct H as [Hst Hev];
  repeat match goal with
         | Hn : NoDup (_ :: _) |- _ =>
             let Hx := fresh "Hdiff" in
             apply NoDup_cons_iff in Hn; destruct Hn as [Hx Hn]; cbn [In] in Hx
         end;
  repeat match goal with
         | Hx : ~ (_ \/ _) |- _ =>
             let Hy := fresh "Hdiff" in
             apply Decidable.not_or in Hx; destruct Hx as [Hy Hx]
         end;
  repeat match goal with
         | Hx : ~ False |- _ => clear Hx
         | Hn : NoDup [] |- _ => clear Hn
         end.

Ltac reduce_fields :=
  cbn [timer menuState menuDisplay status displayOff ext
       set_timer set_menu set_menuState set_menuDisplay setDisplayOff call
       set_status getButton1 getButton2 getButton3].

(** Case analysis on every test of the goal, innermost first; a
    comparison of identifiers that the context decides is settled on
    the spot. *)
Ltac case_tests :=
  repeat (reduce_fields;
          match goal with
          | |- context [if ?c then _ else _] =>
              lazymatch c with
              | context [if _ then _ else _] => fail
              | _ => idtac
              end;
              lazymatch c with
              | ?a =? ?b => destruct (Z.eqb_spec a b); try (exfalso; congruence)
              | ?a >? ?b => destruct (Z.gtb_spec a b)
              | ?a <? ?b => destruct (Z.ltb_spec a b)
              | _ => destruct c
              end
          end);
  reduce_fields.

Ltac numerals :=
  change MENU_5_SEC_PASSED with 160 in *;
  change MENU_3_SEC_PASSED with 96 in *;
  change (MENU_1_SEC_PASSED + MENU_AUTOINC_DELAY) with 36 in *;
  change MENU_1_SEC_PASSED with 32 in *.

Ltac forget_ids :=
  repeat match goal with
         | Hx : _ <> _ |- _ => clear Hx
         end.

Ltac open_feedMenu :=
  unfold feedMenu, feedRoot, feedSelectParam, feedChangeParam, feedSetTimer,
    autoRepeat; cbv zeta.

(** Run one branch on a given event: the event tests are settled by
    the header, the disequalities dropped, the fields reduced. *)
Ltac run_branch Hok :=
  header_facts Hok;
  unfold feedRoot, feedSelectParam, feedChangeParam, feedSetTimer, autoRepeat;
  cbv zeta;
  repeat match goal with
         | |- context [?a =? ?a] => rewrite (Z.eqb_refl a)
         | |- context [?a =? ?b] =>
             lazymatch a with
             | timer _ => fail
             | _ => destruct (Z.eqb_spec a b); [congruence|]
             end
         end;
  forget_ids; unfold getButton1, getButton2, getButton3; reduce_fields; numerals.

Section RunFacts.

Context {hdr : Header} {W : Type} {col : Collaborators W}.

(** [feedMenu] keeps the counter within its bounds; for a tick the
    counter may come in one higher. *)
Lemma feedMenu_timer_ok event (s : machine) :
  header_ok -> is_menu (menuState s) ->
  0 <= timer s <= 161 -> (menuState s = MENU_ROOT -> timer s <= 97) ->
  (event = MENU_EVENT_CHECK_TIMER \/ timer_ok s) ->
  timer_ok (feedMenu event s).
Proof.
  intros Hok Hmenu Ht Hroot Hev. header_facts Hok.
  unfold timer_ok, is_menu in *. numerals.
  destruct Hev as [->|[Hlow Hlow_root]]; open_feedMenu; case_tests;
    numerals; try (exfalso; intuition congruence);
    (split; [forget_ids; lia
            |intros Hnow; first [exfalso; congruence | forget_ids; lia]]).
Qed.

Lemma step_reachable (s s' : machine) : reachable s -> step s s' -> reachable s'.
Proof.
  intros Hr Hstep. destruct Hstep as [event s|s|v s|f s].
  - apply reach_feed. exact Hr.
  - unfold refreshMenu. apply reach_feed.
    apply (reach_env s); [exact Hr|reflexivity|reflexivity].
  - apply (reach_env s); [exact Hr|reflexivity|reflexivity].
  - apply (reach_env s); [exact Hr|reflexivity|reflexivity].
Qed.

Lemma runs_reachable (s : machine) : runs s -> reachable s.
Proof.
  induction 1 as [s|s s' _ IH Hstep].
  - apply (reach_env (initMenu s)); [apply reach_init|reflexivity|reflexivity].
  - apply (step_reachable s s' IH Hstep).
Qed.

Lemma step_timer_ok (s s' : machine) :
  header_ok -> is_menu (menuState s) -> timer_ok s -> step s s' -> timer_ok s'.
Proof.
  intros Hok Hmenu Hs Hstep. destruct Hstep as [event s|s|v s|f s].
  - assert (Hs' := Hs). unfold timer_ok in Hs'. numerals.
    apply (feedMenu_timer_ok event s Hok Hmenu); [lia|lia|right; exact Hs].
  - unfold refreshMenu. unfold timer_ok in Hs. numerals.
    apply feedMenu_timer_ok; [exact Hok|exact Hmenu| | |left; reflexivity];
      reduce_fields; rewrite u16_small by lia; lia.
  - exact Hs.
  - exact Hs.
Qed.

Lemma runs_timer_ok (s : machine) : header_ok -> runs s -> timer_ok s.
Proof.
  intros Hok Hr. induction Hr as [s|s s' Hr IH Hstep].
  - unfold timer_ok. numerals. cbn. lia.
  - apply (step_timer_ok s s' Hok); try assumption.
    apply (reachable_is_menu s). apply runs_reachable. exact Hr.
Qed.

Lemma feedMenu_unknown event (s : machine) :
  ~ known_event event -> timer s <= MENU_5_SEC_PASSED -> feedMenu event s = s.
Proof.
  unfold known_event. cbn [In]. intros Hev Ht.
  assert (He : event <> MENU_EVENT_PUSH_BUTTON1 /\ event <> MENU_EVENT_PUSH_BUTTON2 /\
               event <> MENU_EVENT_PUSH_BUTTON3 /\ event <> MENU_EVENT_RELEASE_BUTTON1 /\
               event <> MENU_EVENT_RELEASE_BUTTON2 /\ event <> MENU_EVENT_RELEASE_BUTTON3 /\
               event <> MENU_EVENT_CHECK_TIMER) by (repeat split; intros E; apply Hev; symmetry in E; tauto).
  destruct He as (H1 & H2 & H3 & H4 & H5 & H6 & H7). clear Hev.
  open_feedMenu.
  repeat match goal with
         | |- context [event =? ?b] => destruct (Z.eqb_spec event b); [congruence|]
         end.
  destruct (Z.gtb_spec (timer s) MENU_5_SEC_PASSED); [exfalso; lia|].
  repeat match goal with
         | |- context [if ?c then _ else _] => destruct c
         end; reflexivity.
Qed.



(** *** Which branch of [feedMenu] runs *)

Lemma feedMenu_in_root event (s : machine) :
  menuState s = MENU_ROOT -> feedMenu event s = feedRoot event s.
Proof. intros Hst. unfold feedMenu. rewrite Hst, Z.eqb_refl. reflexivity. Qed.

Lemma feedMenu_in_select event (s : machine) :
  header_ok -> menuState s = MENU_SELECT_PARAM ->
  feedMenu event s = feedSelectParam event s.
Proof.
  intros Hok Hst. header_facts Hok. unfold feedMenu. rewrite Hst.
  destruct (Z.eqb_spec MENU_SELECT_PARAM MENU_ROOT); [congruence|].
  rewrite Z.eqb_refl. reflexivity.
Qed.

Lemma feedMenu_in_change event (s : machine) :
  header_ok -> menuState s = MENU_CHANGE_PARAM ->
  feedMenu event s = feedChangeParam event s.
Proof.
  intros Hok Hst. header_facts Hok. unfold feedMenu. rewrite Hst.
  destruct (Z.eqb_spec MENU_CHANGE_PARAM MENU_ROOT); [congruence|].
  destruct (Z.eqb_spec MENU_CHANGE_PARAM MENU_SELECT_PARAM); [congruence|].
  rewrite Z.eqb_refl. reflexivity.
Qed.

Lemma feedMenu_in_setTimer event (s : machine) :
  header_ok -> menuState s = MENU_SET_TIMER ->
  feedMenu event s = feedSetTimer event s.
Proof.
  intros Hok Hst. header_facts Hok. unfold feedMenu. rewrite Hst.
  destruct (Z.eqb_spec MENU_SET_TIMER MENU_ROOT); [congruence|].
  destruct (Z.eqb_spec MENU_SET_TIMER MENU_SELECT_PARAM); [congruence|].
  destruct (Z.eqb_spec MENU_SET_TIMER MENU_CHANGE_PARAM); [congruence|].
  rewrite Z.eqb_refl. reflexivity.
Qed.

(** *** One tick with nothing to repeat *)

Lemma select_tick_idle (s : machine) :
  header_ok -> menuState s = MENU_SELECT_PARAM ->
  getButton2 s = false -> getButton3 s = false -> 0 <= timer s <= 160 ->
  refreshMenu s =
    if timer s =? 160
    then set_menu MENU_ROOT (call storeParams (call (setParamId 0) (set_timer 0 s)))
    else set_timer (timer s + 1) s.
Proof.
  intros Hok Hst Hb2 Hb3 Ht. unfold refreshMenu.
  rewrite feedMenu_in_select by assumption.
  unfold getButton2, getButton3 in *.
  run_branch Hok. rewrite Hb2, Hb3. rewrite u16_small by lia.
  destruct (Z.eqb_spec (timer s) 160) as [H160|H160].
  - rewrite H160. reflexivity.
  - destruct (Z.gtb_spec (timer s + 1) 36); reduce_fields;
      destruct (Z.gtb_spec (timer s + 1) 160); first [exfalso; lia | reflexivity].
Qed.

Lemma change_tick_idle (s : machine) :
  header_ok -> menuState s = MENU_CHANGE_PARAM ->
  getButton2 s = false -> getButton3 s = false -> 0 <= timer s <= 160 ->
  refreshMenu s =
    if getButton1 s && (96 <=? timer s)
    then set_menu MENU_SELECT_PARAM (set_timer 0 s)
    else if timer s =? 160
         then set_menu MENU_ROOT (call storeParams (set_timer 0 s))
         else set_timer (timer s + 1) s.
Proof.
  intros Hok Hst Hb2 Hb3 Ht. unfold refreshMenu.
  rewrite feedMenu_in_change by assumption.
  unfold getButton1, getButton2, getButton3 in *.
  run_branch Hok. rewrite Hb2, Hb3. rewrite u16_small by lia.
  destruct (Z.gtb_spec (timer s + 1) 36); reduce_fields;
    destruct (Buttons.getButton1 (status s)); cbn [andb];
    destruct (Z.gtb_spec (timer s + 1) 96); destruct (Z.leb_spec 96 (timer s));
    destruct (Z.eqb_spec (timer s) 160); destruct (Z.gtb_spec (timer s + 1) 160);
    first [exfalso; lia | reflexivity | subst; reflexivity
          | match goal with H : timer s = 160 |- _ => rewrite H; reflexivity end].
Qed.

(** In the timer-setting menu a tick also writes the blink flag and,
    past the repeat mark, selects the fermentation time. *)
Lemma setTimer_tick_fields (s : machine) :
  header_ok -> menuState s = MENU_SET_TIMER ->
  getButton2 s = false -> getButton3 s = false -> 0 <= timer s < 160 ->
  menuState (refreshMenu s) = MENU_SET_TIMER /\
  menuDisplay (refreshMenu s) = menuDisplay s /\
  status (refreshMenu s) = status s /\
  timer (refreshMenu s) = timer s + 1 /\
  ext (refreshMenu s) =
    if 36 <=? timer s then setParamId PARAM_FERMENTATION_TIME (ext s) else ext s.
Proof.
  intros Hok Hst Hb2 Hb3 Ht. unfold refreshMenu.
  rewrite feedMenu_in_setTimer by assumption.
  unfold getButton1, getButton2, getButton3 in *.
  run_branch Hok. rewrite Hb2, Hb3. rewrite u16_small by lia. cbn [orb].
  destruct (Z.gtb_spec (timer s + 1) 36); destruct (Z.leb_spec 36 (timer s));
    try (exfalso; lia); reduce_fields;
    (destruct (Z.gtb_spec (timer s + 1) 160); [exfalso; lia|]);
    reduce_fields; repeat split; assumption.
Qed.

Lemma setTimer_tick_timeout (s : machine) :
  header_ok -> menuState s = MENU_SET_TIMER ->
  getButton2 s = false -> getButton3 s = false -> timer s = 160 ->
  refreshMenu s =
    if getButton1 s
    then setDisplayOff false
           (set_menu MENU_SELECT_PARAM
              (set_timer 0 (call (setParamId PARAM_FERMENTATION_TIME) s)))
    else setDisplayOff false
           (set_menu MENU_ROOT
              (call storeParams
                 (set_timer 0 (call (setParamId PARAM_FERMENTATION_TIME) s)))).
Proof.
  intros Hok Hst Hb2 Hb3 Ht. unfold refreshMenu.
  rewrite feedMenu_in_setTimer by assumption.
  unfold getButton1, getButton2, getButton3 in *.
  run_branch Hok. rewrite Hb2, Hb3, Ht. cbn [orb].
  change (u16 (160 + 1) >? 36) with true. cbv iota. reduce_fields.
  change (u16 (160 + 1) >? 160) with true. cbv iota.
  destruct (Buttons.getButton1 (status s)); reflexivity.
Qed.

(** *** Waiting with no button 2 or 3 down *)

Lemma select_idle_counts (s : machine) (n : nat) :
  header_ok -> menuState s = MENU_SELECT_PARAM -> timer s = 0 ->
  getButton2 s = false -> getButton3 s = false -> (n <= 160)%nat ->
  ticks n s = set_timer (Z.of_nat n) s.
Proof.
  intros Hok Hst Ht Hb2 Hb3. induction n as [|n IH]; intros Hn.
  - cbn [ticks Z.of_nat]. rewrite <- Ht. symmetry. apply set_timer_same.
  - rewrite ticks_S, IH by lia.
    rewrite select_tick_idle
      by first [assumption | exact Hb2 | exact Hb3 | reduce_fields; lia].
    reduce_fields.
    destruct (Z.eqb_spec (Z.of_nat n) 160); [exfalso; lia|].
    unfold set_timer. reduce_fields. f_equal. lia.
Qed.

Lemma change_idle_counts (s : machine) (n : nat) :
  header_ok -> menuState s = MENU_CHANGE_PARAM -> timer s = 0 ->
  getButton2 s = false -> getButton3 s = false ->
  (n <= if getButton1 s then 96 else 160)%nat ->
  ticks n s = set_timer (Z.of_nat n) s.
Proof.
  intros Hok Hst Ht Hb2 Hb3. induction n as [|n IH]; intros Hn.
  - cbn [ticks Z.of_nat]. rewrite <- Ht. symmetry. apply set_timer_same.
  - assert (Hn160 : (S n <= 160)%nat) by (destruct (getButton1 s); lia).
    rewrite ticks_S, IH by (destruct (getButton1 s); lia).
    rewrite change_tick_idle
      by first [assumption | exact Hb2 | exact Hb3 | reduce_fields; lia].
    unfold getButton1 in *. reduce_fields.
    destruct (Buttons.getButton1 (status s)); cbn [andb];
      destruct (Z.leb_spec 96 (Z.of_nat n)); try (exfalso; lia);
      destruct (Z.eqb_spec (Z.of_nat n) 160); try (exfalso; lia);
      unfold set_timer; reduce_fields; f_equal; lia.
Qed.

Lemma setTimer_idle_fields (s : machine) (n : nat) :
  header_ok -> menuState s = MENU_SET_TIMER -> timer s = 0 ->
  getButton2 s = false -> getButton3 s = false -> (n <= 160)%nat ->
  menuState (ticks n s) = MENU_SET_TIMER /\
  menuDisplay (ticks n s) = menuDisplay s /\
  status (ticks n s) = status s /\
  timer (ticks n s) = Z.of_nat n /\
  ext (ticks n s) = Nat.iter (n - 36) (setParamId PARAM_FERMENTATION_TIME) (ext s).
Proof.
  intros Hok Hst Ht Hb2 Hb3. induction n as [|n IH]; intros Hn.
  - cbn [ticks Z.of_nat Nat.sub Nat.iter nat_rect]. repeat split; assumption.
  - destruct (IH ltac:(lia)) as (I1 & I2 & I3 & I4 & I5).
    rewrite ticks_S.
    destruct (setTimer_tick_fields (ticks n s) Hok I1) as (T1 & T2 & T3 & T4 & T5);
      try (unfold getButton2, getButton3 in *; rewrite I3; assumption); [lia|].
    rewrite T1, T2, T3, T4, T5, I2, I3, I4, I5.
    repeat split; try lia.
    destruct (Z.leb_spec 36 (Z.of_nat n)).
    + replace (S n - 36)%nat with (S (n - 36))%nat by lia. reflexivity.
    + replace (S n - 36)%nat with (n - 36)%nat by lia. reflexivity.
Qed.

(** Before the repeat mark a tick in the timer-setting menu counts and
    writes the blink flag, whatever the buttons. *)
Lemma setTimer_tick_early (s : machine) :
  header_ok -> menuState s = MENU_SET_TIMER -> 0 <= timer s < 36 ->
  menuState (refreshMenu s) = MENU_SET_TIMER /\
  menuDisplay (refreshMenu s) = menuDisplay s /\
  status (refreshMenu s) = status s /\
  timer (refreshMenu s) = timer s + 1 /\
  ext (refreshMenu s) = ext s.
Proof.
  intros Hok Hst Ht. unfold refreshMenu.
  rewrite feedMenu_in_setTimer by assumption.
  run_branch Hok. rewrite u16_small by lia.
  destruct (Z.gtb_spec (timer s + 1) 36); [exfalso; lia|]. reduce_fields.
  destruct (Z.gtb_spec (timer s + 1) 160); [exfalso; lia|]. reduce_fields.
  repeat split; assumption.
Qed.

Lemma setTimer_early_fields (s : machine) (n : nat) :
  header_ok -> menuState s = MENU_SET_TIMER -> timer s = 0 -> (n <= 36)%nat ->
  menuState (ticks n s) = MENU_SET_TIMER /\
  menuDisplay (ticks n s) = menuDisplay s /\
  status (ticks n s) = status s /\
  timer (ticks n s) = Z.of_nat n /\
  ext (ticks n s) = ext s.
Proof.
  intros Hok Hst Ht. induction n as [|n IH]; intros Hn.
  - cbn [ticks Z.of_nat]. repeat split; assumption.
  - destruct (IH ltac:(lia)) as (I1 & I2 & I3 & I4 & I5). rewrite ticks_S.
    destruct (setTimer_tick_early (ticks n s) Hok I1 ltac:(lia))
      as (T1 & T2 & T3 & T4 & T5).
    rewrite T1, T2, T3, T4, T5, I2, I3, I4, I5. repeat split; lia.
Qed.

(** *** Button 3 kept down in the parameter selection *)

Lemma select_tick_down (s : machine) :
  header_ok -> menuState s = MENU_SELECT_PARAM ->
  getButton2 s = false -> getButton3 s = true -> 0 <= timer s <= 36 ->
  refreshMenu s =
    if timer s =? 36 then set_timer 32 (call decParamId s)
    else set_timer (timer s + 1) s.
Proof.
  intros Hok Hst Hb2 Hb3 Ht. unfold refreshMenu.
  rewrite feedMenu_in_select by assumption.
  unfold getButton2, getButton3 in *.
  run_branch Hok. rewrite Hb2, Hb3. rewrite u16_small by lia.
  destruct (Z.eqb_spec (timer s) 36) as [H36|H36].
  - rewrite H36. reflexivity.
  - destruct (Z.gtb_spec (timer s + 1) 36); [exfalso; lia|]. reduce_fields.
    destruct (Z.gtb_spec (timer s + 1) 160); [exfalso; lia|]. reflexivity.
Qed.

Lemma select_down_invariant (s : machine) (n : nat) :
  header_ok -> menuState s = MENU_SELECT_PARAM ->
  getButton2 s = false -> getButton3 s = true ->
  menuState (ticks n (feedMenu MENU_EVENT_PUSH_BUTTON3 s)) = MENU_SELECT_PARAM /\
  menuDisplay (ticks n (feedMenu MENU_EVENT_PUSH_BUTTON3 s)) = menuDisplay s /\
  status (ticks n (feedMenu MENU_EVENT_PUSH_BUTTON3 s)) = status s /\
  timer (ticks n (feedMenu MENU_EVENT_PUSH_BUTTON3 s)) = heldTimer (Z.of_nat n) /\
  ext (ticks (S n) (feedMenu MENU_EVENT_PUSH_BUTTON3 s)) =
    if repeatTick (Z.of_nat (S n))
    then decParamId (ext (ticks n (feedMenu MENU_EVENT_PUSH_BUTTON3 s)))
    else ext (ticks n (feedMenu MENU_EVENT_PUSH_BUTTON3 s)).
Proof.
  intros Hok Hst Hb2 Hb3.
  assert (Hpush : feedMenu MENU_EVENT_PUSH_BUTTON3 s = set_timer 0 (call decParamId s)).
  { rewrite feedMenu_in_select by assumption.
    assert (Hok' := Hok). run_branch Hok'. reflexivity. }
  assert (Hinv : forall m : nat,
    menuState (ticks m (feedMenu MENU_EVENT_PUSH_BUTTON3 s)) = MENU_SELECT_PARAM /\
    menuDisplay (ticks m (feedMenu MENU_EVENT_PUSH_BUTTON3 s)) = menuDisplay s /\
    status (ticks m (feedMenu MENU_EVENT_PUSH_BUTTON3 s)) = status s /\
    timer (ticks m (feedMenu MENU_EVENT_PUSH_BUTTON3 s)) = heldTimer (Z.of_nat m)).
  { induction m as [|m IH].
    - cbn [ticks]. rewrite Hpush. reduce_fields. repeat split; assumption.
    - destruct IH as (I1 & I2 & I3 & I4). rewrite ticks_S.
      set (sm := ticks m (feedMenu MENU_EVENT_PUSH_BUTTON3 s)) in *.
      assert (Hrange : 0 <= timer sm <= 36).
      { rewrite I4. unfold heldTimer.
        destruct (Z.ltb_spec (Z.of_nat m) 37); [lia|].
        pose proof (Z.mod_pos_bound (Z.of_nat m - 37) 5 ltac:(lia)). lia. }
      rewrite select_tick_down; try assumption;
        try (unfold getButton2, getButton3 in *; rewrite I3; assumption).
      pose proof (heldTimer_repeat (Z.of_nat m) ltac:(lia)) as Hrep.
      rewrite <- I4 in Hrep.
      destruct (Z.eqb_spec (timer sm) 36) as [H36|H36]; reduce_fields;
        (split; [exact I1|split; [exact I2|split; [exact I3|]]]).
      + symmetry in Hrep. unfold repeatTick, heldTimer in *.
        replace (Z.of_nat (S m)) with (Z.of_nat m + 1) by lia.
        revert Hrep. numerals. change (32 / 8 + 1) with 5. change (32 + 4 + 1) with 37.
        change (36 + 1) with 37. change (MENU_AUTOINC_DELAY + 1) with 5.
        intros Hrep. apply andb_true_iff in Hrep as [Hle Hmod].
        apply Z.leb_le in Hle. apply Z.eqb_eq in Hmod.
        destruct (Z.ltb_spec (Z.of_nat m + 1) 37); [exfalso; lia|].
        rewrite Hmod. reflexivity.
      + unfold heldTimer in *.
        replace (Z.of_nat (S m)) with (Z.of_nat m + 1) by lia.
        destruct (Z.ltb_spec (Z.of_nat m) 37); destruct (Z.ltb_spec (Z.of_nat m + 1) 37);
          Z.div_mod_to_equations; lia. }
  destruct (Hinv n) as (I1 & I2 & I3 & I4).
  split; [exact I1|]. split; [exact I2|]. split; [exact I3|]. split; [exact I4|].
  rewrite ticks_S.
  set (sn := ticks n (feedMenu MENU_EVENT_PUSH_BUTTON3 s)) in *.
  assert (Hrange : 0 <= timer sn <= 36).
  { rewrite I4. unfold heldTimer.
    destruct (Z.ltb_spec (Z.of_nat n) 37); [lia|].
    pose proof (Z.mod_pos_bound (Z.of_nat n - 37) 5 ltac:(lia)). lia. }
  rewrite select_tick_down; try assumption;
    try (unfold getButton2, getButton3 in *; rewrite I3; assumption).
  replace (Z.of_nat (S n)) with (Z.of_nat n + 1) by lia.
  rewrite <- heldTimer_repeat by lia. rewrite <- I4.
  destruct (timer sn =? 36); reflexivity.
Qed.

End RunFacts.

End RunFacts.

(* ================================================================== *)
(** ** Further properties, temperature pipeline *)

Import WalkMore FilterMore.

(** X1.  The temperature never rises with the filtered value: of two
    filtered values from 46 up, the larger gives a temperature that is
    at most that of the smaller (the correction being such that the
    table's range stays representable in [int]). *)
Theorem getTemperature_antitone correction s1 s2 :
  46 <= getAdcAveraged s1 -> getAdcAveraged s1 <= getAdcAveraged s2 ->
  fits_int (ADC_RAW_TABLE_BASE_TEMP + correction) ->
  fits_int (ADC_RAW_TABLE_BASE_TEMP + 1640 + correction) ->
  exists t1 t2,
    getTemperature correction s1 = Done t1 /\
    getTemperature correction s2 = Done t2 /\
    t2 <= t1.
Proof.
  intros H1 H12 Hlo Hhi.
  destruct (tableTemp_shape (getAdcAveraged s1) H1)
    as (k1 & d1 & Hd1 & Hk1 & _ & _ & Hs1).
  destruct (tableTemp_shape (getAdcAveraged s2) ltac:(lia))
    as (k2 & d2 & Hd2 & Hk2 & _ & _ & Hs2).
  pose proof (tableTemp_antitone _ _ _ _ (conj H1 H12) Hd1 Hd2) as Hle.
  assert (Hr1 : 0 <= d1 <= 1640) by (destruct Hs1 as [[_ ->]|(_ & Hk163 & _ & Hb)]; lia).
  assert (Hr2 : 0 <= d2 <= 1640) by (destruct Hs2 as [[_ ->]|(_ & Hk163 & _ & Hb)]; lia).
  exists (ADC_RAW_TABLE_BASE_TEMP + d1 + correction),
         (ADC_RAW_TABLE_BASE_TEMP + d2 + correction).
  unfold fits_int, INT_MIN, INT_MAX in *.
  rewrite (getTemperature_of_table correction s1 d1 Hd1).
  rewrite (getTemperature_of_table correction s2 d2 Hd2).
  rewrite !s16_fits by (unfold fits_int, INT_MIN, INT_MAX; lia).
  repeat split; lia.
Qed.

Lemma getTemperature_antitone_witness :
  exists t1 t2,
    getTemperature 0 (feed [(50, 0)] initADC) = Done t1 /\
    getTemperature 0 (feed [(200, 0)] initADC) = Done t2 /\
    t2 <= t1.
Proof.
  apply (getTemperature_antitone 0 (feed [(50, 0)] initADC) (feed [(200, 0)] initADC));
    by_evaluation.
Defined.

(** X2.  A steady input is reached exactly and in finitely many steps:
    from the state after any conversions, 16383 or more conversions
    that all deliver the sample r leave [getAdcAveraged] at r. *)
Theorem filter_settles samples drh drl (n : nat) :
  all_bytes samples -> is_byte drh -> is_byte drl -> 16383 <= Z.of_nat n ->
  getAdcAveraged (feed (repeat (drh, drl) n) (feed samples initADC))
    = sample drh drl.
Proof.
  intros Hb Hh Hl Hn.
  destruct (feed_invariant samples Hb) as [Ha _].
  set (s := feed samples initADC) in *.
  pose proof (sample_range drh drl Hh Hl) as Hr.
  destruct (Z.eq_dec (averaged s) 0) as [Hz|Hnz].
  - destruct n as [|n]; [lia|]. cbn [repeat].
    change (feed ((drh, drl) :: repeat (drh, drl) n) s)
      with (feed (repeat (drh, drl) n) (ADC1_EOC_handler drh drl s)).
    destruct (handler_step drh drl s Hh Hl Ha) as [Heq _].
    destruct (Z.eqb_spec (averaged s) 0) as [_|Hnz]; [|contradiction].
    pose proof (steady drh drl n _ Hh Hl Heq) as Hm.
    rewrite getAdcAveraged_small by (rewrite Hm; lia).
    rewrite Hm. replace (16 * sample drh drl) with (sample drh drl * 16) by lia.
    apply Z.div_mul. lia.
  - apply settles_within; try assumption; [lia|].
    pose proof (distance_bound (sample drh drl) (averaged s) Hr Ha). lia.
Qed.

Lemma filter_settles_witness :
  getAdcAveraged
    (feed (repeat (3, 1) (Z.to_nat 16383)) (feed [(255, 3); (200, 0)] initADC)) = 13.
Proof.
  apply (filter_settles [(255, 3); (200, 0)] 3 1 (Z.to_nat 16383)).
  - unfold all_bytes, is_byte. repeat constructor; cbn; lia.
  - unfold is_byte. lia.
  - unfold is_byte. lia.
  - lia.
Defined.

(** X3.  Whatever the conversions, the accumulator stays within
    [0, 16383] (so neither the 16-bit shift of the seed nor the 32-bit
    sum wraps), [getAdcAveraged] stays within [0, 1023], and
    [getAdcResult] is the latest raw sample, within [0, 1023]. *)
Theorem adc_values_bounded samples :
  all_bytes samples ->
  0 <= averaged (feed samples initADC) <= 16383 /\
  0 <= getAdcAveraged (feed samples initADC) <= 1023 /\
  getAdcResult (feed samples initADC) = last (raw_values samples) 0 /\
  0 <= getAdcResult (feed samples initADC) <= 1023.
Proof.
  intros Hb. destruct (feed_invariant samples Hb) as [Ha _].
  assert (Hres : getAdcResult (feed samples initADC) = last (raw_values samples) 0 /\
                 0 <= getAdcResult (feed samples initADC) <= 1023).
  { clear Ha. induction samples as [|dr l IH] using rev_ind.
    - cbn. lia.
    - apply Forall_app in Hb as [Hbl Hbdr]. apply Forall_inv in Hbdr as [Hh Hl].
      rewrite feed_snoc. unfold raw_values. rewrite map_app. cbn [map].
      rewrite last_last. unfold getAdcResult, ADC1_EOC_handler. cbn [result].
      split; [reflexivity|apply sample_range; assumption]. }
  split; [exact Ha|]. split; [|exact Hres].
  rewrite getAdcAveraged_small by exact Ha.
  pose proof (Z.div_mod (averaged (feed samples initADC)) 16 ltac:(lia)).
  pose proof (Z.mod_pos_bound (averaged (feed samples initADC)) 16 ltac:(lia)).
  lia.
Qed.

Lemma adc_values_bounded_witness :
  0 <= averaged (feed [(255, 255); (0, 7)] initADC) <= 16383 /\
  0 <= getAdcAveraged (feed [(255, 255); (0, 7)] initADC) <= 1023 /\
  getAdcResult (feed [(255, 255); (0, 7)] initADC) = last (raw_values [(255, 255); (0, 7)]) 0 /\
  0 <= getAdcResult (feed [(255, 255); (0, 7)] initADC) <= 1023.
Proof.
  apply (adc_values_bounded [(255, 255); (0, 7)]).
  unfold all_bytes, is_byte. repeat constructor; cbn; lia.
Defined.

(* ================================================================== *)
(** ** Further properties, menu *)

Import Run RunFacts BenchStates.

(** X4.  With the counter moved by [refreshMenu] and [feedMenu] only,
    it stays within [0, 160] (and within [0, 96] in the root menu), so
    it never wraps; in the root menu a release of button 1 therefore
    always enters the timer-setting menu, and an event byte that is
    none of the seven changes nothing in any menu. *)
Theorem timer_stays_bounded {hdr : Header} {W : Type} {col : Collaborators W}
    (s : machine) :
  header_ok -> runs s ->
  0 <= timer s <= MENU_5_SEC_PASSED /\
  (menuState s = MENU_ROOT ->
     timer s <= MENU_3_SEC_PASSED /\
     menuState (feedMenu MENU_EVENT_RELEASE_BUTTON1 s) = MENU_SET_TIMER) /\
  (forall event, ~ known_event event -> feedMenu event s = s).
Proof.
  intros Hok Hr. destruct (runs_timer_ok s Hok Hr) as [Hb Hroot].
  split; [exact Hb|]. split.
  - intros Hst. split; [exact (Hroot Hst)|].
    rewrite feedMenu_in_root by exact Hst.
    assert (Hne : MENU_EVENT_RELEASE_BUTTON1 <> MENU_EVENT_PUSH_BUTTON1).
    { destruct Hok as [_ Hev]. intros E.
      apply NoDup_cons_iff in Hev as [Hnot _]. apply Hnot. cbn [In]. rewrite <- E. tauto. }
    unfold feedRoot.
    destruct (Z.eqb_spec MENU_EVENT_RELEASE_BUTTON1 MENU_EVENT_PUSH_BUTTON1); [congruence|].
    rewrite Z.eqb_refl.
    destruct (Z.ltb_spec (timer s) MENU_5_SEC_PASSED); [reflexivity|].
    specialize (Hroot Hst). unfold MENU_5_SEC_PASSED, MENU_3_SEC_PASSED, MENU_1_SEC_PASSED in *.
    exfalso. lia.
  - intros event Hev. apply feedMenu_unknown; [exact Hev|lia].
Qed.

Lemma timer_stays_bounded_witness :
  header_ok /\ runs (ticks 500 (setDisplayOff false (boot 0))) /\
  0 <= timer (ticks 500 (setDisplayOff false (boot 0))) <= MENU_5_SEC_PASSED.
Proof.
  assert (Hruns : forall n, runs (ticks n (setDisplayOff false (boot 0)))).
  { induction n as [|n IH]; [apply runs_init|].
    cbn [ticks]. apply (runs_step _ _ IH). apply step_tick. }
  split; [exact bench_header_ok|]. split; [apply Hruns|].
  apply (timer_stays_bounded (ticks 500 (setDisplayOff false (boot 0)))
           bench_header_ok (Hruns 500%nat)).
Defined.



(** X6.  A short press of button 1 switches between the root menu and
    the timer-setting menu and back.  From the root menu, a push, up to
    96 ticks and the release enter the timer-setting menu without
    touching the parameters; there a push, up to 36 ticks and the
    release store the parameters and return to the root menu, display
    on, counter at 0, nothing else changed. *)
Theorem short_press_round_trip {hdr : Header} {W : Type} {col : Collaborators W}
    (s : machine) (n1 n2 : nat) :
  header_ok -> menuState s = MENU_ROOT -> menuDisplay s = MENU_ROOT ->
  (n1 <= 96)%nat -> (n2 <= 36)%nat ->
  feedMenu MENU_EVENT_RELEASE_BUTTON1 (ticks n1 (feedMenu MENU_EVENT_PUSH_BUTTON1 s))
    = set_menu MENU_SET_TIMER (set_timer 0 s) /\
  feedMenu MENU_EVENT_RELEASE_BUTTON1
    (ticks n2 (feedMenu MENU_EVENT_PUSH_BUTTON1
                 (set_menu MENU_SET_TIMER (set_timer 0 s))))
    = setDisplayOff false (call storeParams (set_timer 0 s)).
Proof.
  intros Hok Hst Hdi Hn1 Hn2.
  assert (Hok1 := Hok). assert (Hok2 := Hok). assert (Hok3 := Hok). assert (Hok4 := Hok).
  split.
  - rewrite (feedMenu_in_root MENU_EVENT_PUSH_BUTTON1 s Hst).
    assert (Hpush : feedRoot MENU_EVENT_PUSH_BUTTON1 s
                    = set_menuDisplay MENU_SET_TIMER (set_timer 0 s)).
    { run_branch Hok1. reflexivity. }
    rewrite Hpush.
    rewrite root_hold_counts by first [assumption | reflexivity].
    rewrite feedMenu_in_root by exact Hst.
    run_branch Hok2. destruct (Z.ltb_spec (Z.of_nat n1) 160); [|exfalso; lia].
    reflexivity.
  - set (s3 := set_menu MENU_SET_TIMER (set_timer 0 s)).
    rewrite (feedMenu_in_setTimer MENU_EVENT_PUSH_BUTTON1 s3) by first [assumption | reflexivity].
    assert (Hpush : feedSetTimer MENU_EVENT_PUSH_BUTTON1 s3
                    = setDisplayOff false (set_menuDisplay MENU_ROOT (set_timer 0 s3))).
    { run_branch Hok3. reflexivity. }
    rewrite Hpush.
    set (s4 := setDisplayOff false (set_menuDisplay MENU_ROOT (set_timer 0 s3))).
    destruct (setTimer_early_fields s4 n2 Hok eq_refl eq_refl Hn2)
      as (F1 & F2 & F3 & F4 & F5).
    rewrite feedMenu_in_setTimer by assumption.
    destruct (ticks n2 s4) as [d st t b off w].
    cbn [menuState menuDisplay status timer ext] in F1, F2, F3, F4, F5.
    subst d st t b w. run_branch Hok4.
    destruct (Z.ltb_spec (Z.of_nat n2) 160); [|exfalso; lia].
    unfold setDisplayOff, call, set_timer, set_menuState. reduce_fields.
    rewrite Hst, Hdi. reflexivity.
Qed.

Lemma short_press_round_trip_witness :
  header_ok /\ menuState (boot 0) = MENU_ROOT /\ menuDisplay (boot 0) = MENU_ROOT /\
  feedMenu MENU_EVENT_RELEASE_BUTTON1
    (ticks 20 (feedMenu MENU_EVENT_PUSH_BUTTON1
                 (set_menu MENU_SET_TIMER (set_timer 0 (boot 0)))))
    = setDisplayOff false (call storeParams (set_timer 0 (boot 0))).
Proof.
  split; [exact bench_header_ok|]. split; [reflexivity|]. split; [reflexivity|].
  refine (proj2 (short_press_round_trip (boot 0) 10 20 bench_header_ok eq_refl eq_refl _ _));
    lia.
Defined.

(** X7.  Left alone in the parameter selection (buttons 2 and 3 up),
    the menu counts 160 ticks and with tick 161 selects parameter 0,
    stores the parameters and returns to the root menu. *)
Theorem select_param_timeout {hdr : Header} {W : Type} {col : Collaborators W}
    (s : machine) :
  header_ok -> menuState s = MENU_SELECT_PARAM -> timer s = 0 ->
  getButton2 s = false -> getButton3 s = false ->
  (forall n : nat, (n <= 160)%nat -> ticks n s = set_timer (Z.of_nat n) s) /\
  ticks 161 s = set_menu MENU_ROOT (call storeParams (call (setParamId 0) s)).
Proof.
  intros Hok Hst Ht Hb2 Hb3. split.
  - intros n Hn. apply select_idle_counts; assumption.
  - rewrite (ticks_S 160 s).
    rewrite select_idle_counts by first [assumption | lia].
    rewrite select_tick_idle
      by first [assumption | exact Hb2 | exact Hb3 | reduce_fields; lia].
    reduce_fields. change (Z.of_nat 160 =? 160) with true. cbv iota.
    destruct s as [d st t b off w]. cbn [timer] in Ht. subst t. reflexivity.
Qed.

Lemma select_param_timeout_witness :
  header_ok /\ menuState selecting = MENU_SELECT_PARAM /\ timer selecting = 0 /\
  getButton2 selecting = false /\ getButton3 selecting = false /\
  ticks 161 selecting
    = set_menu MENU_ROOT (call storeParams (call (setParamId 0) selecting)).
Proof.
  split; [exact bench_header_ok|]. repeat (split; [reflexivity|]).
  exact (proj2 (select_param_timeout selecting bench_header_ok
                  eq_refl eq_refl eq_refl eq_refl)).
Defined.

(** X8.  The parameter editing menu has two ways out by waiting
    (buttons 2 and 3 up).  With button 1 down it counts 96 ticks and
    with tick 97 goes back to the parameter selection, storing
    nothing; with button 1 up it counts 160 ticks and with tick 161
    stores the parameters and returns to the root menu. *)
Theorem change_param_timeouts {hdr : Header} {W : Type} {col : Collaborators W}
    (s : machine) :
  header_ok -> menuState s = MENU_CHANGE_PARAM -> timer s = 0 ->
  getButton2 s = false -> getButton3 s = false ->
  (getButton1 s = true ->
     (forall n : nat, (n <= 96)%nat -> ticks n s = set_timer (Z.of_nat n) s) /\
     ticks 97 s = set_menu MENU_SELECT_PARAM s) /\
  (getButton1 s = false ->
     (forall n : nat, (n <= 160)%nat -> ticks n s = set_timer (Z.of_nat n) s) /\
     ticks 161 s = set_menu MENU_ROOT (call storeParams s)).
Proof.
  intros Hok Hst Ht Hb2 Hb3. split; intros Hb1.
  - split.
    + intros n Hn. apply change_idle_counts; try assumption. rewrite Hb1. exact Hn.
    + rewrite (ticks_S 96 s).
      rewrite change_idle_counts by first [assumption | rewrite Hb1; lia].
      rewrite change_tick_idle
        by first [assumption | exact Hb2 | exact Hb3 | reduce_fields; lia].
      unfold getButton1 in *. reduce_fields. rewrite Hb1.
      change (96 <=? Z.of_nat 96) with true. cbn [andb].
      destruct s as [d st t b off w]. cbn [timer] in Ht. subst t. reflexivity.
  - split.
    + intros n Hn. apply change_idle_counts; try assumption. rewrite Hb1. exact Hn.
    + rewrite (ticks_S 160 s).
      rewrite change_idle_counts by first [assumption | rewrite Hb1; lia].
      rewrite change_tick_idle
        by first [assumption | exact Hb2 | exact Hb3 | reduce_fields; lia].
      unfold getButton1 in *. reduce_fields. rewrite Hb1. cbn [andb].
      change (Z.of_nat 160 =? 160) with true. cbv iota.
      destruct s as [d st t b off w]. cbn [timer] in Ht. subst t. reflexivity.
Qed.

Lemma change_param_timeouts_witness :
  header_ok /\ menuState changing = MENU_CHANGE_PARAM /\ timer changing = 0 /\
  getButton2 changing = false /\ getButton3 changing = false /\
  getButton1 changing = false /\
  ticks 161 changing = set_menu MENU_ROOT (call storeParams changing).
Proof.
  split; [exact bench_header_ok|]. repeat (split; [reflexivity|]).
  exact (proj2 (proj2 (change_param_timeouts changing bench_header_ok
                         eq_refl eq_refl eq_refl eq_refl) eq_refl)).
Defined.

(** X9.  Left alone in the timer-setting menu (buttons 2 and 3 up),
    the menu counts 160 ticks, selecting the fermentation time on each
    tick from the 37th on, and with tick 161 leaves with the display
    on and the counter at 0: to the parameter selection, storing
    nothing, when button 1 is down, and otherwise to the root menu
    after storing the parameters. *)
Theorem set_timer_timeout {hdr : Header} {W : Type} {col : Collaborators W}
    (s : machine) :
  header_ok -> menuState s = MENU_SET_TIMER -> timer s = 0 ->
  getButton2 s = false -> getButton3 s = false ->
  (forall n : nat, (n <= 160)%nat ->
     menuState (ticks n s) = MENU_SET_TIMER /\ timer (ticks n s) = Z.of_nat n /\
     ext (ticks n s) = Nat.iter (n - 36) (setParamId PARAM_FERMENTATION_TIME) (ext s)) /\
  menuState (ticks 161 s) = (if getButton1 s then MENU_SELECT_PARAM else MENU_ROOT) /\
  menuDisplay (ticks 161 s) = menuState (ticks 161 s) /\
  timer (ticks 161 s) = 0 /\
  displayOff (ticks 161 s) = false /\
  ext (ticks 161 s) =
    if getButton1 s
    then Nat.iter 125 (setParamId PARAM_FERMENTATION_TIME) (ext s)
    else storeParams (Nat.iter 125 (setParamId PARAM_FERMENTATION_TIME) (ext s)).
Proof.
  intros Hok Hst Ht Hb2 Hb3. split.
  - intros n Hn.
    destruct (setTimer_idle_fields s n Hok Hst Ht Hb2 Hb3 Hn) as (F1 & _ & _ & F4 & F5).
    repeat split; assumption.
  - destruct (setTimer_idle_fields s 160 Hok Hst Ht Hb2 Hb3 ltac:(lia))
      as (F1 & F2 & F3 & F4 & F5).
    rewrite (ticks_S 160 s).
    rewrite setTimer_tick_timeout;
      try assumption; try (unfold getButton2, getButton3 in *; rewrite F3; assumption).
    unfold getButton1. rewrite F3.
    change (160 - 36)%nat with 124%nat in F5.
    change 125%nat with (S 124). cbn [Nat.iter nat_rect]. 
    destruct (Buttons.getButton1 (status s)); reduce_fields; rewrite F5;
      repeat split; reflexivity.
Qed.

Lemma set_timer_timeout_witness :
  header_ok /\ menuState timing = MENU_SET_TIMER /\ timer timing = 0 /\
  getButton2 timing = false /\ getButton3 timing = false /\
  menuState (ticks 161 timing) = (if getButton1 timing then MENU_SELECT_PARAM else MENU_ROOT).
Proof.
  split; [exact bench_header_ok|]. repeat (split; [reflexivity|]).
  exact (proj1 (proj2 (set_timer_timeout timing bench_header_ok
                         eq_refl eq_refl eq_refl eq_refl))).
Defined.

(** X10.  Button 1 switches between the parameter selection and the
    parameter editing menu: a push in either enters the other with the
    counter at 0 and no call to a collaborator, so two pushes lead back
    to where the first one started. *)
Theorem select_change_toggle {hdr : Header} {W : Type} {col : Collaborators W}
    (s : machine) :
  header_ok ->
  (menuState s = MENU_SELECT_PARAM ->
     feedMenu MENU_EVENT_PUSH_BUTTON1 s = set_timer 0 (set_menu MENU_CHANGE_PARAM s) /\
     feedMenu MENU_EVENT_PUSH_BUTTON1 (feedMenu MENU_EVENT_PUSH_BUTTON1 s)
       = set_timer 0 (set_menu MENU_SELECT_PARAM s)) /\
  (menuState s = MENU_CHANGE_PARAM ->
     feedMenu MENU_EVENT_PUSH_BUTTON1 s = set_timer 0 (set_menu MENU_SELECT_PARAM s) /\
     feedMenu MENU_EVENT_PUSH_BUTTON1 (feedMenu MENU_EVENT_PUSH_BUTTON1 s)
       = set_timer 0 (set_menu MENU_CHANGE_PARAM s)).
Proof.
  intros Hok.
  assert (Hsel : forall t : machine, menuState t = MENU_SELECT_PARAM ->
            feedMenu MENU_EVENT_PUSH_BUTTON1 t = set_timer 0 (set_menu MENU_CHANGE_PARAM t)).
  { intros t Ht. rewrite feedMenu_in_select by assumption.
    assert (Hok' := Hok). run_branch Hok'. reflexivity. }
  assert (Hchg : forall t : machine, menuState t = MENU_CHANGE_PARAM ->
            feedMenu MENU_EVENT_PUSH_BUTTON1 t = set_timer 0 (set_menu MENU_SELECT_PARAM t)).
  { intros t Ht. rewrite feedMenu_in_change by assumption.
    assert (Hok' := Hok). run_branch Hok'. reflexivity. }
  split; intros Hst.
  - split; [apply Hsel; exact Hst|].
    rewrite (Hsel s Hst). rewrite Hchg by reflexivity. reflexivity.
  - split; [apply Hchg; exact Hst|].
    rewrite (Hchg s Hst). rewrite Hsel by reflexivity. reflexivity.
Qed.

Lemma select_change_toggle_witness :
  header_ok /\ menuState selecting = MENU_SELECT_PARAM /\
  feedMenu MENU_EVENT_PUSH_BUTTON1 (feedMenu MENU_EVENT_PUSH_BUTTON1 selecting)
    = set_timer 0 (set_menu MENU_SELECT_PARAM selecting).
Proof.
  split; [exact bench_header_ok|]. split; [reflexivity|].
  exact (proj2 (proj1 (select_change_toggle selecting bench_header_ok) eq_refl)).
Defined.

(** X11.  In the parameter selection with button 3 kept down (button 2
    up), [MENU_EVENT_PUSH_BUTTON3] steps the parameter id down once;
    after that a tick steps it down again exactly on ticks 37, 42, 47,
    ... counted from the push, and the menu never leaves the parameter
    selection: the 5-second timeout cannot fire while the button is
    down. *)
Theorem select_param_hold_down {hdr : Header} {W : Type} {col : Collaborators W}
    (s : machine) :
  header_ok -> menuState s = MENU_SELECT_PARAM ->
  getButton2 s = false -> getButton3 s = true ->
  ext (feedMenu MENU_EVENT_PUSH_BUTTON3 s) = decParamId (ext s) /\
  forall n : nat,
    menuState (ticks n (feedMenu MENU_EVENT_PUSH_BUTTON3 s)) = MENU_SELECT_PARAM /\
    timer (ticks n (feedMenu MENU_EVENT_PUSH_BUTTON3 s)) <= 36 /\
    ext (ticks (S n) (feedMenu MENU_EVENT_PUSH_BUTTON3 s)) =
      if repeatTick (Z.of_nat (S n))
      then decParamId (ext (ticks n (feedMenu MENU_EVENT_PUSH_BUTTON3 s)))
      else ext (ticks n (feedMenu MENU_EVENT_PUSH_BUTTON3 s)).
Proof.
  intros Hok Hst Hb2 Hb3. split.
  - rewrite feedMenu_in_select by assumption.
    assert (Hok' := Hok). run_branch Hok'. reflexivity.
  - intros n.
    destruct (select_down_invariant s n Hok Hst Hb2 Hb3) as (I1 & _ & _ & I4 & I5).
    split; [exact I1|]. split; [|exact I5].
    rewrite I4. unfold heldTimer.
    destruct (Z.ltb_spec (Z.of_nat n) 37); [lia|].
    pose proof (Z.mod_pos_bound (Z.of_nat n - 37) 5 ltac:(lia)). lia.
Qed.

Lemma select_param_hold_down_witness :
  header_ok /\ menuState selectingDown = MENU_SELECT_PARAM /\
  getButton2 selectingDown = false /\ getButton3 selectingDown = true /\
  ext (feedMenu MENU_EVENT_PUSH_BUTTON3 selectingDown) = [DecParamId].
Proof.
  split; [exact bench_header_ok|]. repeat (split; [reflexivity|]).
  exact (proj1 (select_param_hold_down selectingDown bench_header_ok
                  eq_refl eq_refl eq_refl)).
Defined.

(* ================================================================== *)
(** ** Further properties, buttons *)

Module IrqFacts.
Import Buttons Menu MenuFacts Run RunFacts Irq.

Lemma land_pow2_testbit x n :
  0 <= n -> (Z.land x (2 ^ n) =? 0) = negb (Z.testbit x n).
Proof.
  intros Hn. destruct (Z.testbit x n) eqn:E; cbn [negb].
  - apply Z.eqb_neq. intros H0.
    assert (Hbit : Z.testbit (Z.land x (2 ^ n)) n = true).
    { rewrite Z.land_spec, E, Z.pow2_bits_true by lia. reflexivity. }
    rewrite H0, Z.bits_0 in Hbit. discriminate.
  - apply Z.eqb_eq. apply Z.bits_inj'. intros m Hm.
    rewrite Z.land_spec, Z.bits_0, Z.pow2_bits_eqb by lia.
    destruct (Z.eqb_spec n m) as [->|]; [rewrite E; reflexivity|apply andb_false_r].
Qed.

Lemma u8_testbit x n : 0 <= n < 8 -> Z.testbit (u8 x) n = Z.testbit x n.
Proof. intros Hn. unfold u8. apply Z.mod_pow2_bits_low. lia. Qed.

Lemma getButton1_testbit v : Buttons.getButton1 v = Z.testbit v 3.
Proof.
  unfold Buttons.getButton1, BUTTON1_BIT. change 0x08 with (2 ^ 3).
  rewrite land_pow2_testbit by lia. apply negb_involutive.
Qed.

Lemma getButton2_testbit v : Buttons.getButton2 v = Z.testbit v 4.
Proof.
  unfold Buttons.getButton2, BUTTON2_BIT. change 0x10 with (2 ^ 4).
  rewrite land_pow2_testbit by lia. apply negb_involutive.
Qed.

Lemma getButton3_testbit v : Buttons.getButton3 v = Z.testbit v 5.
Proof.
  unfold Buttons.getButton3, BUTTON3_BIT. change 0x20 with (2 ^ 5).
  rewrite land_pow2_testbit by lia. apply negb_involutive.
Qed.

Lemma invertedPort_testbit r n :
  n = 3 \/ n = 4 \/ n = 5 -> Z.testbit (invertedPort r) n = negb (Z.testbit r n).
Proof.
  intros Hn. unfold invertedPort.
  change (Z.lor (Z.lor BUTTON1_BIT BUTTON2_BIT) BUTTON3_BIT) with 56.
  rewrite u8_testbit, Z.lnot_spec, Z.land_spec by lia.
  destruct Hn as [-> | [-> | ->]]; cbn; rewrite andb_true_r; reflexivity.
Qed.

(** A bit of [diff] as the handler computes it: the button read as
    pressed before differs from how its line reads now. *)
Lemma diff_testbit v r n :
  n = 3 \/ n = 4 \/ n = 5 ->
  Z.testbit (u8 (Z.lxor v (Z.lnot (Z.land r
               (Z.lor (Z.lor BUTTON1_BIT BUTTON2_BIT) BUTTON3_BIT))))) n
    = xorb (Z.testbit v n) (negb (Z.testbit r n)).
Proof.
  intros Hn.
  change (Z.lor (Z.lor BUTTON1_BIT BUTTON2_BIT) BUTTON3_BIT) with 56.
  rewrite u8_testbit, Z.lxor_spec, Z.lnot_spec, Z.land_spec by lia.
  destruct Hn as [-> | [-> | ->]]; cbn; rewrite andb_true_r; reflexivity.
Qed.

Lemma isButton1_fst d : fst (isButton1 d) = Z.testbit d 3.
Proof.
  unfold isButton1, BUTTON1_BIT. change 0x08 with (2 ^ 3).
  rewrite land_pow2_testbit by lia. rewrite negb_involutive.
  destruct (Z.testbit d 3); reflexivity.
Qed.

Lemma isButton2_fst d : fst (isButton2 d) = Z.testbit d 4.
Proof.
  unfold isButton2, BUTTON2_BIT. change 0x10 with (2 ^ 4).
  rewrite land_pow2_testbit by lia. rewrite negb_involutive.
  destruct (Z.testbit d 4); reflexivity.
Qed.

Lemma isButton3_fst d : fst (isButton3 d) = Z.testbit d 5.
Proof.
  unfold isButton3, BUTTON3_BIT. change 0x20 with (2 ^ 5).
  rewrite land_pow2_testbit by lia. rewrite negb_involutive.
  destruct (Z.testbit d 5); reflexivity.
Qed.

Lemma isButton1_keeps d : fst (isButton1 d) = false -> snd (isButton1 d) = d.
Proof. unfold isButton1. destruct (negb _); [discriminate|reflexivity]. Qed.

Lemma isButton2_keeps d : fst (isButton2 d) = false -> snd (isButton2 d) = d.
Proof. unfold isButton2. destruct (negb _); [discriminate|reflexivity]. Qed.

Lemma isButton1_snd d n :
  n = 3 \/ n = 4 \/ n = 5 ->
  Z.testbit (snd (isButton1 d)) n = Z.testbit d n && negb (n =? 3).
Proof.
  intros Hn. pose proof (isButton1_fst d) as Hf. unfold isButton1 in *.
  destruct (negb (Z.land d BUTTON1_BIT =? 0)); cbn [fst snd] in *.
  - unfold BUTTON1_BIT. rewrite u8_testbit, Z.land_spec, Z.lnot_spec by lia.
    destruct Hn as [-> | [-> | ->]]; reflexivity.
  - destruct Hn as [-> | [-> | ->]]; cbn [Z.eqb Pos.eqb negb];
      rewrite <- ?Hf; rewrite ?andb_true_r; reflexivity.
Qed.

Lemma isButton2_snd d n :
  n = 3 \/ n = 4 \/ n = 5 ->
  Z.testbit (snd (isButton2 d)) n = Z.testbit d n && negb (n =? 4).
Proof.
  intros Hn. pose proof (isButton2_fst d) as Hf. unfold isButton2 in *.
  destruct (negb (Z.land d BUTTON2_BIT =? 0)); cbn [fst snd] in *.
  - unfold BUTTON2_BIT. rewrite u8_testbit, Z.land_spec, Z.lnot_spec by lia.
    destruct Hn as [-> | [-> | ->]]; reflexivity.
  - destruct Hn as [-> | [-> | ->]]; cbn [Z.eqb Pos.eqb negb];
      rewrite <- ?Hf; rewrite ?andb_true_r; reflexivity.
Qed.

Lemma isButton3_snd d n :
  n = 3 \/ n = 4 \/ n = 5 ->
  Z.testbit (snd (isButton3 d)) n = Z.testbit d n && negb (n =? 5).
Proof.
  intros Hn. pose proof (isButton3_fst d) as Hf. unfold isButton3 in *.
  destruct (negb (Z.land d BUTTON3_BIT =? 0)); cbn [fst snd] in *.
  - unfold BUTTON3_BIT. rewrite u8_testbit, Z.land_spec, Z.lnot_spec by lia.
    destruct Hn as [-> | [-> | ->]]; reflexivity.
  - destruct Hn as [-> | [-> | ->]]; cbn [Z.eqb Pos.eqb negb];
      rewrite <- ?Hf; rewrite ?andb_true_r; reflexivity.
Qed.

Section Handler.

Context {hdr : Header} {W : Type} {col : Collaborators W}.

Lemma feedMenu_status event (s : machine) : status (feedMenu event s) = status s.
Proof. open_feedMenu. case_tests; reflexivity. Qed.

Lemma handler_status r1 r2 (w : wired) :
  status (mach (EXTI2_handler r1 r2 w)) = invertedPort r2.
Proof.
  unfold EXTI2_handler. cbv zeta.
  repeat match goal with
         | |- context [if fst ?c then _ else _] => destruct (fst c)
         end; cbn [mach]; rewrite ?feedMenu_status; reflexivity.
Qed.

Lemma handler_event r (w : wired) :
  mach (EXTI2_handler r r w) =
    if xorb (getButton1 (mach w)) (lineLow r 3) then
      feedMenu (if lineLow r 3 then MENU_EVENT_PUSH_BUTTON1
                else MENU_EVENT_RELEASE_BUTTON1)
               (set_status (invertedPort r) (mach w))
    else if xorb (getButton2 (mach w)) (lineLow r 4) then
      feedMenu (if lineLow r 4 then MENU_EVENT_PUSH_BUTTON2
                else MENU_EVENT_RELEASE_BUTTON2)
               (set_status (invertedPort r) (mach w))
    else if xorb (getButton3 (mach w)) (lineLow r 5) then
      feedMenu (if lineLow r 5 then MENU_EVENT_PUSH_BUTTON3
                else MENU_EVENT_RELEASE_BUTTON3)
               (set_status (invertedPort r) (mach w))
    else set_status (invertedPort r) (mach w).
Proof.
  unfold EXTI2_handler, lineLow, Menu.getButton1, Menu.getButton2, Menu.getButton3.
  cbv zeta. cbn [status set_status].
  rewrite !getButton1_testbit, !getButton2_testbit, !getButton3_testbit.
  rewrite !invertedPort_testbit by lia.
  set (d0 := u8 (Z.lxor (status (mach w)) _)).
  assert (H3 : Z.testbit d0 3 = xorb (Z.testbit (status (mach w)) 3) (negb (Z.testbit r 3)))
    by (apply diff_testbit; lia).
  assert (H4 : Z.testbit d0 4 = xorb (Z.testbit (status (mach w)) 4) (negb (Z.testbit r 4)))
    by (apply diff_testbit; lia).
  assert (H5 : Z.testbit d0 5 = xorb (Z.testbit (status (mach w)) 5) (negb (Z.testbit r 5)))
    by (apply diff_testbit; lia).
  rewrite <- H3, <- H4, <- H5.
  destruct (fst (isButton1 d0)) eqn:E1; rewrite isButton1_fst in E1; rewrite E1;
    [reflexivity|].
  rewrite isButton1_keeps by (rewrite isButton1_fst; exact E1).
  destruct (fst (isButton2 d0)) eqn:E2; rewrite isButton2_fst in E2; rewrite E2;
    [reflexivity|].
  rewrite isButton2_keeps by (rewrite isButton2_fst; exact E2).
  destruct (fst (isButton3 d0)) eqn:E3; rewrite isButton3_fst in E3; rewrite E3;
    reflexivity.
Qed.

End Handler.

End IrqFacts.

Import Irq IrqFacts.

(** X12.  A button reads as pressed exactly when its line on the port
    is low: after [EXTI2_handler], and after [initButtons],
    [getButton1], [getButton2] and [getButton3] are the inverted bits
    3, 4 and 5 of the port value read last, whatever the other bits and
    whatever the menu did with the event. *)
Theorem buttons_follow_port {hdr : Header} {W : Type} {col : Collaborators W}
    (r1 r2 : Z) (w : wired) :
  getButton1 (mach (EXTI2_handler r1 r2 w)) = lineLow r2 3 /\
  getButton2 (mach (EXTI2_handler r1 r2 w)) = lineLow r2 4 /\
  getButton3 (mach (EXTI2_handler r1 r2 w)) = lineLow r2 5 /\
  getButton1 (mach (initButtons r2 w)) = lineLow r2 3 /\
  getButton2 (mach (initButtons r2 w)) = lineLow r2 4 /\
  getButton3 (mach (initButtons r2 w)) = lineLow r2 5.
Proof.
  unfold Menu.getButton1, Menu.getButton2, Menu.getButton3, lineLow.
  rewrite handler_status. unfold initButtons. cbn [mach status set_status].
  rewrite getButton1_testbit, getButton2_testbit, getButton3_testbit.
  rewrite !invertedPort_testbit by lia. repeat split; reflexivity.
Qed.

(** X13.  With the port steady during the interrupt, [EXTI2_handler]
    feeds the menu at most one event: for the lowest-numbered button
    whose pressed state differs from what [status] held, a push if its
    line is now low and a release otherwise; a change of a
    higher-numbered button in the same interrupt gets no event, and
    with no button changed the menu is not called at all. *)
Theorem interrupt_feeds_one_event {hdr : Header} {W : Type} {col : Collaborators W}
    (r : Z) (w : wired) :
  mach (EXTI2_handler r r w) =
    if xorb (getButton1 (mach w)) (lineLow r 3) then
      feedMenu (if lineLow r 3 then MENU_EVENT_PUSH_BUTTON1
                else MENU_EVENT_RELEASE_BUTTON1)
               (set_status (invertedPort r) (mach w))
    else if xorb (getButton2 (mach w)) (lineLow r 4) then
      feedMenu (if lineLow r 4 then MENU_EVENT_PUSH_BUTTON2
                else MENU_EVENT_RELEASE_BUTTON2)
               (set_status (invertedPort r) (mach w))
    else if xorb (getButton3 (mach w)) (lineLow r 5) then
      feedMenu (if lineLow r 5 then MENU_EVENT_PUSH_BUTTON3
                else MENU_EVENT_RELEASE_BUTTON3)
               (set_status (invertedPort r) (mach w))
    else set_status (invertedPort r) (mach w).
Proof. exact (handler_event r w). Qed.

(** X14.  What [getButtonDiff] holds after [EXTI2_handler] (port steady
    during the interrupt): the flag of button 1 is always clear, and a
    flag stays set exactly for a changed button that a lower-numbered
    changed button kept from being reported: button 2 when button 1
    changed too, button 3 when button 1 or button 2 changed too.
    [getButton] is the inverted port value. *)
Theorem unreported_changes_stay_flagged {hdr : Header} {W : Type}
    {col : Collaborators W} (r : Z) (w : wired) :
  Irq.getButton (EXTI2_handler r r w) = invertedPort r /\
  Z.testbit (getButtonDiff (EXTI2_handler r r w)) 3 = false /\
  Z.testbit (getButtonDiff (EXTI2_handler r r w)) 4 =
    xorb (getButton1 (mach w)) (lineLow r 3) &&
    xorb (getButton2 (mach w)) (lineLow r 4) /\
  Z.testbit (getButtonDiff (EXTI2_handler r r w)) 5 =
    (xorb (getButton1 (mach w)) (lineLow r 3) ||
     xorb (getButton2 (mach w)) (lineLow r 4)) &&
    xorb (getButton3 (mach w)) (lineLow r 5).
Proof.
  split; [apply handler_status|].
  unfold getButtonDiff, EXTI2_handler, lineLow,
    Menu.getButton1, Menu.getButton2, Menu.getButton3.
  cbv zeta.
  rewrite !getButton1_testbit, !getButton2_testbit, !getButton3_testbit.
  set (d0 := u8 (Z.lxor (status (mach w)) _)).
  assert (H3 : Z.testbit d0 3 = xorb (Z.testbit (status (mach w)) 3) (negb (Z.testbit r 3)))
    by (apply diff_testbit; lia).
  assert (H4 : Z.testbit d0 4 = xorb (Z.testbit (status (mach w)) 4) (negb (Z.testbit r 4)))
    by (apply diff_testbit; lia).
  assert (H5 : Z.testbit d0 5 = xorb (Z.testbit (status (mach w)) 5) (negb (Z.testbit r 5)))
    by (apply diff_testbit; lia).
  rewrite <- H3, <- H4, <- H5. clear H3 H4 H5.
  destruct (fst (isButton1 d0)) eqn:E1.
  - cbn [diff]. rewrite !isButton1_snd by lia. rewrite isButton1_fst in E1.
    rewrite E1. cbn. rewrite ?andb_true_r. repeat split; reflexivity.
  - rewrite isButton1_keeps by exact E1. rewrite isButton1_fst in E1.
    destruct (fst (isButton2 d0)) eqn:E2.
    + cbn [diff]. rewrite !isButton2_snd by lia. rewrite isButton2_fst in E2.
      rewrite E1, E2. cbn. rewrite ?andb_true_r. repeat split; reflexivity.
    + rewrite isButton2_keeps by exact E2. rewrite isButton2_fst in E2.
      assert (Hd : diff (if fst (isButton3 d0)
                         then mkWired (snd (isButton3 d0))
                                (feedMenu (if Z.testbit (invertedPort r) 5
                                           then MENU_EVENT_PUSH_BUTTON3
                                           else MENU_EVENT_RELEASE_BUTTON3)
                                   (set_status (invertedPort r) (mach w)))
                         else mkWired (snd (isButton3 d0))
                                (set_status (invertedPort r) (mach w)))
                   = snd (isButton3 d0))
        by (destruct (fst (isButton3 d0)); reflexivity).
      cbn [status set_status]. rewrite ?getButton3_testbit.
      rewrite Hd. rewrite !isButton3_snd by lia.
      rewrite E1, E2. cbn. rewrite ?andb_false_r. repeat split; reflexivity.
Qed.

(* ================================================================== *)
(** ** Further properties, display *)

Module DisplayFacts.
Import Display.

Local Infix "|||" := Z.lor (at level 50, left associativity).

Lemma glyph_within val :
  within (SSD_BF_PORT_MASK ||| SSD_CG_PORT_MASK) (fst (glyph val)) /\
  within SSD_AEDP_PORT_MASK (u8 (snd (glyph val) ||| SSD_SEG_P_BIT)) /\
  within SSD_AEDP_PORT_MASK (u8 (Z.land (snd (glyph val)) (Z.lnot SSD_SEG_P_BIT))) /\
  Z.testbit (u8 (snd (glyph val) ||| SSD_SEG_P_BIT)) 2 = true /\
  Z.testbit (u8 (Z.land (snd (glyph val)) (Z.lnot SSD_SEG_P_BIT))) 2 = false.
Proof.
  unfold glyph, within.
  repeat match goal with
         | |- context [if ?c then _ else _] => destruct c
         end; repeat split; reflexivity.
Qed.

Lemma store_length n v l : length (store n v l) = length l.
Proof.
  revert n. induction l as [|x t IH]; intros n; [destruct n; reflexivity|].
  destruct n; cbn [store length]; [reflexivity|]. rewrite IH. reflexivity.
Qed.

Lemma store_Forall (P : Z -> Prop) n v l :
  P v -> Forall P l -> Forall P (store n v l).
Proof.
  intros Hv Hl. revert n.
  induction Hl as [|x t Hx Ht IH]; intros n; [destruct n; constructor|].
  destruct n; cbn [store]; constructor; auto.
Qed.

Lemma store_nth n v l :
  (n < length l)%nat -> nth n (store n v l) 0 = v.
Proof.
  revert n. induction l as [|x t IH]; intros n Hn; [cbn in Hn; lia|].
  destruct n; cbn [store nth]; [reflexivity|]. apply IH. cbn in Hn. lia.
Qed.

Lemma store_nth_other n m v l :
  n <> m -> nth m (store n v l) 0 = nth m l 0.
Proof.
  revert n m. induction l as [|x t IH]; intros n m Hne; [destruct n; reflexivity|].
  destruct n, m; cbn [store nth]; try reflexivity; try lia.
  apply IH. lia.
Qed.

Lemma setDigit_tidy id val dot d : tidy d -> tidy (setDigit id val dot d).
Proof.
  intros (Hac & Hdd & Fac & Fdd). unfold setDigit.
  destruct (id >? 2); [repeat split; assumption|].
  destruct (testMode d); [repeat split; assumption|].
  cbv zeta. unfold tidy, set_buffers. cbn [displayAC displayD].
  rewrite !store_length.
  destruct (glyph_within val) as (G1 & G2 & G3 & _).
  repeat split; try assumption.
  - apply store_Forall; assumption.
  - apply store_Forall; [destruct dot; assumption|assumption].
Qed.

Lemma setDigit_frozen id val dot d : testMode d = true -> setDigit id val dot d = d.
Proof. intros Ht. unfold setDigit. rewrite Ht. destruct (id >? 2); reflexivity. Qed.

Lemma blankUnused_frozen fuel : forall i d,
  testMode d = true -> blankUnused fuel i d = d.
Proof.
  induction fuel as [|fuel IH]; intros i d Ht; [reflexivity|].
  cbn [blankUnused]. destruct (i >? 0); [|reflexivity].
  rewrite setDigit_frozen by exact Ht. apply IH. exact Ht.
Qed.

Lemma showDigits_frozen fuel val : forall i n d,
  testMode d = true -> showDigits fuel val i n d = d.
Proof.
  induction fuel as [|fuel IH]; intros i n d Ht; [reflexivity|].
  cbn [showDigits]. destruct (negb (n =? 0) && negb (val 0 + i =? 0)); [|reflexivity].
  destruct (val (i + 1) =? ch "."); rewrite setDigit_frozen by exact Ht;
    apply IH; exact Ht.
Qed.

Lemma blankUnused_tidy fuel : forall i d, tidy d -> tidy (blankUnused fuel i d).
Proof.
  induction fuel as [|fuel IH]; intros i d Ht; [exact Ht|].
  cbn [blankUnused]. destruct (i >? 0); [|exact Ht].
  apply IH. apply setDigit_tidy. exact Ht.
Qed.

Lemma showDigits_tidy fuel val : forall i n d, tidy d -> tidy (showDigits fuel val i n d).
Proof.
  induction fuel as [|fuel IH]; intros i n d Ht; [exact Ht|].
  cbn [showDigits]. destruct (negb (n =? 0) && negb (val 0 + i =? 0)); [|exact Ht].
  destruct (val (i + 1) =? ch "."); apply IH; apply setDigit_tidy; exact Ht.
Qed.

(** *** What [setDisplayStr] shows *)

Lemma holds_head val off c t : holds val off (c :: t) -> val off = c.
Proof.
  intros H. specialize (H 0 ltac:(cbn [length]; lia)).
  rewrite Z.add_0_r in H. exact H.
Qed.

Lemma holds_tail val off c t : holds val off (c :: t) -> holds val (off + 1) t.
Proof.
  intros H j Hj. specialize (H (j + 1) ltac:(cbn [length]; lia)).
  replace (off + 1 + j) with (off + (j + 1)) by lia. rewrite H.
  replace (Z.to_nat (j + 1)) with (S (Z.to_nat j)) by lia. reflexivity.
Qed.

Lemma holds_end val off : holds val off [] -> val off = 0.
Proof.
  intros H. specialize (H 0 ltac:(cbn [length]; lia)).
  rewrite Z.add_0_r in H. exact H.
Qed.

Lemma plain_cons c t :
  plain (c :: t) = true ->
  c <> 0 /\ c <> ch "." /\
  match t with
  | [] => True
  | p :: t' => if p =? ch "." then plain t' = true else plain t = true
  end.
Proof.
  cbn [plain]. intros H.
  apply andb_true_iff in H as [H Ht]. apply andb_true_iff in H as [H0 Hd].
  apply negb_true_iff in H0, Hd. apply Z.eqb_neq in H0, Hd.
  split; [exact H0|]. split; [exact Hd|].
  destruct t as [|p t']; [exact I|].
  destruct (p =? ch "."); [|exact Ht].
  apply andb_true_iff in Ht as [_ Ht]. exact Ht.
Qed.

Lemma cells_cons c p t :
  cells (c :: p :: t) =
    if p =? ch "." then (c, true) :: cells t else (c, false) :: cells (p :: t).
Proof. reflexivity. Qed.

Lemma cells_single c : cells [c] = [(c, false)].
Proof. reflexivity. Qed.

(** The first loop counts the cells of a plain string. *)
Lemma count_cells (n : nat) : forall suf val off d fuel,
  (length suf <= n)%nat -> plain suf = true -> holds val off suf ->
  0 <= off -> off + Z.of_nat (length suf) <= 255 ->
  0 <= d -> d + Z.of_nat (length suf) <= 255 ->
  (length suf <= fuel)%nat ->
  countDigits fuel val off d = Done (d + Z.of_nat (length (cells suf))).
Proof.
  induction n as [|n IH]; intros suf val off d fuel Hlen Hplain Hmem Hoff Hoffmax Hd Hdmax Hfuel.
  - destruct suf; [|cbn in Hlen; lia].
    destruct fuel; cbn [countDigits]; rewrite (holds_end val off Hmem); cbn;
      f_equal; lia.
  - destruct suf as [|c t].
    + destruct fuel; cbn [countDigits]; rewrite (holds_end val off Hmem); cbn;
        f_equal; lia.
    + destruct (plain_cons c t Hplain) as (Hc0 & Hcdot & Hrest).
      pose proof (holds_head val off c t Hmem) as Hvc.
      pose proof (holds_tail val off c t Hmem) as Hmt.
      cbn [length] in *.
      destruct fuel as [|fuel]; [lia|].
      cbn [countDigits]. rewrite Hvc.
      destruct (Z.eqb_spec c 0) as [|_]; [contradiction|].
      destruct (Z.eqb_spec c (ch ".")) as [|_]; [contradiction|].
      cbn [andb]. rewrite (u8_small (off + 1)), (u8_small (d + 1)) by lia.
      destruct t as [|p t'].
      * rewrite cells_single. rewrite (IH [] val (off + 1) (d + 1) fuel);
          cbn [length cells]; try lia; try assumption; try reflexivity.
        f_equal. lia.
      * destruct (Z.eqb_spec p (ch ".")) as [Hp|Hp].
        -- subst p. rewrite cells_cons, Z.eqb_refl. cbn [length] in *.
           pose proof (holds_head val (off + 1) _ t' Hmt) as Hvp.
           pose proof (holds_tail val (off + 1) _ t' Hmt) as Hmt'.
           destruct fuel as [|fuel]; [lia|].
           cbn [countDigits]. rewrite Hvp.
           destruct (Z.eqb_spec (ch ".") 0) as [E|_]; [discriminate E|].
           rewrite Z.eqb_refl.
           destruct (Z.gtb_spec (off + 1) 0) as [_|]; [|lia].
           replace (off + 1 - 1) with off by lia. rewrite Hvc.
           destruct (Z.eqb_spec c (ch ".")) as [|_]; [contradiction|].
           cbn [andb negb].
           rewrite (u8_small (d + 1 - 1)) by lia.
           rewrite (u8_small (off + 1 + 1)), (u8_small (d + 1 - 1 + 1)) by lia.
           rewrite (IH t' val (off + 1 + 1) (d + 1 - 1 + 1) fuel);
             try lia; try assumption.
           f_equal. lia.
        -- rewrite cells_cons.
           destruct (Z.eqb_spec p (ch ".")) as [|_]; [contradiction|].
           cbn [length] in *.
           rewrite (IH (p :: t') val (off + 1) (d + 1) fuel);
             cbn [length]; try lia; try assumption.
           f_equal. lia.
Qed.

Lemma showDigits_done fuel val i disp : showDigits fuel val i 0 disp = disp.
Proof. destruct fuel; reflexivity. Qed.

(** The third loop places the cells, the first one leftmost. *)
Lemma show_cells (fuel : nat) : forall suf val off (n : nat) disp,
  plain suf = true -> holds val off suf ->
  0 <= off -> off + Z.of_nat (length suf) <= 255 -> 0 < val 0 ->
  (n <= length (cells suf))%nat -> (n <= fuel)%nat -> (n <= 255)%nat ->
  showDigits fuel val off (Z.of_nat n) disp =
    place (n - 1) (firstn n (cells suf)) disp.
Proof.
  induction fuel as [|fuel IH]; intros suf val off n disp Hplain Hmem Hoff Hmax Hfirst Hn Hfuel Hbyte.
  - assert (n = 0)%nat by lia. subst n. reflexivity.
  - destruct n as [|m]; [reflexivity|].
    cbn [showDigits].
    destruct (Z.eqb_spec (Z.of_nat (S m)) 0) as [|_]; [lia|].
    destruct (Z.eqb_spec (val 0 + off) 0) as [|_]; [lia|].
    cbn [negb andb].
    replace (S m - 1)%nat with m by lia.
    rewrite (u8_small (Z.of_nat (S m) - 1)) by lia.
    replace (Z.of_nat (S m) - 1) with (Z.of_nat m) by lia.
    destruct suf as [|c t]; [cbn in Hn; lia|].
    destruct (plain_cons c t Hplain) as (Hc0 & Hcdot & Hrest).
    pose proof (holds_head val off c t Hmem) as Hvc.
    pose proof (holds_tail val off c t Hmem) as Hmt.
    cbn [length] in Hmax. rewrite Hvc.
    rewrite (u8_small (off + 1)) by lia.
    destruct t as [|p t'].
    + rewrite (holds_end val (off + 1) Hmt).
      destruct (Z.eqb_spec 0 (ch ".")) as [E|_]; [discriminate E|].
      rewrite cells_single in *. cbn [length] in *. assert (m = 0)%nat by lia. subst m.
      rewrite showDigits_done. reflexivity.
    + pose proof (holds_head val (off + 1) p t' Hmt) as Hvp.
      pose proof (holds_tail val (off + 1) p t' Hmt) as Hmt'.
      rewrite Hvp. rewrite cells_cons in *. cbn [length] in Hmax.
      destruct (Z.eqb_spec p (ch ".")) as [Hp|Hp].
      * rewrite (u8_small (off + 1 + 1)) by lia. cbn [length firstn] in *.
        rewrite (IH t' val (off + 1 + 1) m); try lia; try assumption.
        destruct m as [|m']; [reflexivity|].
        cbn [place]. replace (S m' - 1)%nat with m' by lia. reflexivity.
      * cbn [length firstn] in *.
        rewrite (IH (p :: t') val (off + 1) m); cbn [length]; try lia; try assumption.
        destruct m as [|m']; [reflexivity|].
        cbn [place]. replace (S m' - 1)%nat with m' by lia. reflexivity.
Qed.

Lemma blankUnused_blanks (n : nat) disp :
  (n <= 3)%nat -> blankUnused 3 (u8 (3 - Z.of_nat n)) disp = blanks n disp.
Proof.
  intros Hn. destruct n as [|[|[|[|n]]]]; try lia; reflexivity.
Qed.

Lemma setDisplayStr_plain val l disp :
  plain l = true -> Forall is_char l -> (length l <= 255)%nat -> holds val 0 l ->
  setDisplayStr val disp =
    Done (place (Nat.min 3 (length (cells l)) - 1)
            (firstn (Nat.min 3 (length (cells l))) (cells l))
            (blanks (Nat.min 3 (length (cells l))) disp)).
Proof.
  intros Hplain Hchars Hlen Hmem. unfold setDisplayStr.
  rewrite (count_cells (length l) l val 0 0 256) by first [assumption | lia].
  cbn [bind]. rewrite Z.add_0_l.
  set (k := length (cells l)).
  assert (Hd : (if Z.of_nat k >? 3 then 3 else Z.of_nat k) = Z.of_nat (Nat.min 3 k)).
  { destruct (Z.gtb_spec (Z.of_nat k) 3); lia. }
  rewrite Hd. set (n := Nat.min 3 k).
  rewrite blankUnused_blanks by lia.
  destruct l as [|c t].
  - subst n k. cbn [cells length Nat.min]. reflexivity.
  - f_equal. apply (show_cells 3 (c :: t) val 0 n);
      try assumption; unfold n, k in *; cbn [length] in *; try lia.
    rewrite (holds_head val 0 c t Hmem). apply Forall_inv in Hchars.
    unfold is_char in Hchars. lia.
Qed.

Lemma setDisplayStr_frozen val disp d' :
  testMode disp = true -> setDisplayStr val disp = Done d' -> d' = disp.
Proof.
  intros Ht. unfold setDisplayStr.
  destruct (countDigits 256 val 0 0) as [d| | |]; cbn [bind]; try discriminate.
  rewrite blankUnused_frozen, showDigits_frozen by
    first [exact Ht | rewrite blankUnused_frozen; exact Ht].
  intros H. injection H as <-. reflexivity.
Qed.

Lemma setDisplayStr_tidy val disp d' :
  tidy disp -> setDisplayStr val disp = Done d' -> tidy d'.
Proof.
  intros Ht. unfold setDisplayStr.
  destruct (countDigits 256 val 0 0) as [d| | |]; cbn [bind]; try discriminate.
  match goal with
  | |- Done ?r = Done _ -> _ =>
      intros H; assert (Hr : d' = r) by congruence; rewrite Hr
  end.
  exact (showDigits_tidy _ _ _ _ _ (blankUnused_tidy _ _ _ Ht)).
Qed.

(** *** The ports after [refreshDisplay] *)

Lemma u8_bit x n : 0 <= n < 8 -> Z.testbit (u8 x) n = Z.testbit x n.
Proof. intros Hn. unfold u8. apply Z.mod_pow2_bits_low. lia. Qed.

Lemma within_bit mask v n :
  within mask v -> 0 <= n -> Z.testbit mask n = false -> Z.testbit v n = false.
Proof.
  unfold within. intros Hw Hn Hm.
  assert (Hb : Z.testbit (Z.land v (Z.lnot mask)) n = false)
    by (rewrite Hw; apply Z.bits_0).
  rewrite Z.land_spec, Z.lnot_spec, Hm in Hb by lia.
  rewrite andb_true_r in Hb. exact Hb.
Qed.

Lemma element_in l i :
  0 <= i < Z.of_nat (length l) -> element l i = Done (nth (Z.to_nat i) l 0).
Proof.
  intros Hi. unfold element.
  destruct (Z.leb_spec 0 i); destruct (Z.ltb_spec i (Z.of_nat (length l)));
    try lia. reflexivity.
Qed.

(** Bit [n] of a port expression, [n] being a numeral. *)
Ltac port_bits :=
  repeat first [ rewrite u8_bit by lia
               | rewrite Z.lor_spec
               | rewrite Z.land_spec
               | rewrite Z.lnot_spec by lia ];
  repeat match goal with
         | |- context [Z.testbit ?c ?m] =>
             lazymatch c with
             | SSD_BF_PORT_MASK => idtac
             | SSD_CG_PORT_MASK => idtac
             | SSD_AEDP_PORT_MASK => idtac
             | SSD_DIGIT_1_BIT => idtac
             | SSD_DIGIT_2_BIT => idtac
             | SSD_DIGIT_3_BIT => idtac
             end;
             let v := eval vm_compute in (Z.testbit c m) in
             change (Z.testbit c m) with v
         end;
  cbn [andb orb negb];
  rewrite ?andb_true_r, ?andb_false_r, ?orb_true_r, ?orb_false_r.

Ltac each_bit n Hn :=
  let H := fresh in
  assert (H : n = 0 \/ n = 1 \/ n = 2 \/ n = 3 \/ n = 4 \/ n = 5 \/ n = 6 \/ n = 7)
    by lia;
  clear Hn;
  destruct H as [-> | [-> | [-> | [-> | [-> | [-> | [-> | ->]]]]]]].

Lemma refresh_off d :
  displayOff d = true ->
  exists d',
    refreshDisplay d = Done d' /\
    activeDigitId d' = activeDigitId d /\
    displayAC d' = displayAC d /\ displayD d' = displayD d /\
    PA_ODR d' = PA_ODR d /\ PC_ODR d' = PC_ODR d /\
    (forall n, 0 <= n < 8 ->
       Z.testbit (PB_ODR d') n =
         if (n =? 4) || (n =? 5) then true else Z.testbit (PB_ODR d) n) /\
    (forall n, 0 <= n < 8 ->
       Z.testbit (PD_ODR d') n =
         if n =? 4 then true else Z.testbit (PD_ODR d) n).
Proof.
  intros Hoff. exists (enableDigit 3 d). unfold refreshDisplay. cbv zeta.
  change (displayOff (enableDigit 3 d)) with (displayOff d). rewrite Hoff.
  split; [reflexivity|]. split; [reflexivity|]. split; [reflexivity|].
  split; [reflexivity|]. split; [reflexivity|]. split; [reflexivity|].
  change (PB_ODR (enableDigit 3 d))
    with (u8 (PB_ODR d ||| (SSD_DIGIT_1_BIT ||| SSD_DIGIT_2_BIT))).
  change (PD_ODR (enableDigit 3 d)) with (u8 (PD_ODR d ||| SSD_DIGIT_3_BIT)).
  split; intros n Hn; each_bit n Hn; cbn [Z.eqb Pos.eqb orb];
    port_bits; reflexivity.
Qed.

Lemma refresh_on d :
  displayOff d = false -> 0 <= activeDigitId d <= 2 -> tidy d ->
  exists d',
    refreshDisplay d = Done d' /\
    activeDigitId d' = (activeDigitId d + 1) mod 3 /\
    displayAC d' = displayAC d /\ displayD d' = displayD d /\
    (forall n, 0 <= n < 8 ->
       Z.testbit (PA_ODR d') n =
         if (n =? 1) || (n =? 2)
         then Z.testbit (nth (Z.to_nat (activeDigitId d)) (displayAC d) 0) n
         else Z.testbit (PA_ODR d) n) /\
    (forall n, 0 <= n < 8 ->
       Z.testbit (PC_ODR d') n =
         if (n =? 6) || (n =? 7)
         then Z.testbit (nth (Z.to_nat (activeDigitId d)) (displayAC d) 0) n
         else Z.testbit (PC_ODR d) n) /\
    (forall n, 0 <= n < 8 ->
       Z.testbit (PB_ODR d') n =
         if n =? 4 then negb (activeDigitId d =? 0)
         else if n =? 5 then negb (activeDigitId d =? 1)
         else Z.testbit (PB_ODR d) n) /\
    (forall n, 0 <= n < 8 ->
       Z.testbit (PD_ODR d') n =
         if (n =? 1) || (n =? 2) || (n =? 3) || (n =? 5)
         then Z.testbit (nth (Z.to_nat (activeDigitId d)) (displayD d) 0) n
         else if n =? 4 then negb (activeDigitId d =? 2)
         else Z.testbit (PD_ODR d) n).
Proof.
  intros Hoff Hk (Hac & Hdd & Fac & Fdd).
  destruct d as [k acs dds off tm pa pb pc pd].
  cbn [displayOff activeDigitId displayAC displayD PA_ODR PB_ODR PC_ODR PD_ODR] in *.
  subst off.
  unfold refreshDisplay. cbv zeta.
  change (displayOff (enableDigit 3 (mkDisplay k acs dds false tm pa pb pc pd)))
    with false. cbv iota.
  change (displayAC (enableDigit 3 (mkDisplay k acs dds false tm pa pb pc pd))) with acs.
  change (displayD (enableDigit 3 (mkDisplay k acs dds false tm pa pb pc pd))) with dds.
  change (activeDigitId (enableDigit 3 (mkDisplay k acs dds false tm pa pb pc pd))) with k.
  rewrite !element_in by lia. cbn [bind].
  set (ac := nth (Z.to_nat k) acs 0).
  set (dd := nth (Z.to_nat k) dds 0).
  assert (Hwd : within SSD_AEDP_PORT_MASK dd).
  { rewrite Forall_forall in Fdd. apply Fdd. apply nth_In. lia. }
  change (PA_ODR (enableDigit 3 (mkDisplay k acs dds false tm pa pb pc pd))) with pa.
  change (PC_ODR (enableDigit 3 (mkDisplay k acs dds false tm pa pb pc pd))) with pc.
  change (PB_ODR (enableDigit 3 (mkDisplay k acs dds false tm pa pb pc pd)))
    with (u8 (pb ||| (SSD_DIGIT_1_BIT ||| SSD_DIGIT_2_BIT))).
  change (PD_ODR (enableDigit 3 (mkDisplay k acs dds false tm pa pb pc pd)))
    with (u8 (pd ||| SSD_DIGIT_3_BIT)).
  eexists. split; [reflexivity|].
  assert (Hcases : k = 0 \/ k = 1 \/ k = 2) by lia.
  pose proof (within_bit _ _ 0 Hwd ltac:(lia) eq_refl) as Hd0.
  pose proof (within_bit _ _ 4 Hwd ltac:(lia) eq_refl) as Hd4.
  pose proof (within_bit _ _ 6 Hwd ltac:(lia) eq_refl) as Hd6.
  pose proof (within_bit _ _ 7 Hwd ltac:(lia) eq_refl) as Hd7.
  clearbody ac dd. clear Hk Hac Hdd Fac Fdd Hwd.
  destruct Hcases as [-> | [-> | ->]];
    (split; [reflexivity|]); (split; [reflexivity|]); (split; [reflexivity|]);
    cbn [enableDigit activeDigitId set_ports set_activeDigitId Z.eqb Z.gtb Z.compare
         Pos.compare Pos.compare_cont Pos.eqb PA_ODR PB_ODR PC_ODR PD_ODR negb];
    repeat split; intros n Hn; each_bit n Hn; cbn [Z.eqb Pos.eqb orb negb];
    port_bits; rewrite ?Hd0, ?Hd4, ?Hd6, ?Hd7;
    cbn [andb orb negb]; rewrite ?andb_true_r, ?andb_false_r, ?orb_true_r, ?orb_false_r;
    reflexivity.
Qed.

(** The decimal point bit set or cleared in a segment value. *)
Lemma dot_bit g (dot : bool) n :
  0 <= n < 8 ->
  Z.testbit (if dot then u8 (g ||| SSD_SEG_P_BIT)
             else u8 (Z.land g (Z.lnot SSD_SEG_P_BIT))) n
    = if n =? 2 then dot else Z.testbit g n.
Proof.
  intros Hn. unfold SSD_SEG_P_BIT.
  destruct dot; rewrite u8_bit by lia;
    rewrite ?Z.lor_spec, ?Z.land_spec, ?Z.lnot_spec by lia;
    each_bit n Hn; cbn [Z.eqb Pos.eqb];
    match goal with
    | |- context [Z.testbit 4 ?m] =>
        let v := eval vm_compute in (Z.testbit 4 m) in
        change (Z.testbit 4 m) with v
    end;
    cbn [negb];
    rewrite ?andb_true_r, ?andb_false_r, ?orb_true_r, ?orb_false_r; reflexivity.
Qed.

Lemma within_intro mask v :
  (forall n, 0 <= n -> Z.testbit mask n = false -> Z.testbit v n = false) ->
  within mask v.
Proof.
  intros H. unfold within. apply Z.bits_inj'. intros n Hn.
  rewrite Z.bits_0, Z.land_spec, Z.lnot_spec by lia.
  destruct (Z.testbit mask n) eqn:E; [apply andb_false_r|].
  rewrite H by assumption. reflexivity.
Qed.

Lemma dot_within g (dot : bool) :
  within SSD_AEDP_PORT_MASK g ->
  within SSD_AEDP_PORT_MASK (if dot then u8 (g ||| SSD_SEG_P_BIT)
                             else u8 (Z.land g (Z.lnot SSD_SEG_P_BIT))).
Proof.
  intros Hg. apply within_intro. intros n Hn Hm.
  destruct (Z_lt_le_dec n 8) as [Hlt|Hge].
  - rewrite dot_bit by lia.
    destruct (Z.eqb_spec n 2) as [->|_]; [discriminate Hm|].
    exact (within_bit _ _ n Hg Hn Hm).
  - destruct dot; unfold u8; apply Z.mod_pow2_bits_high; lia.
Qed.

Lemma holds_str l : holds (str l) 0 l.
Proof. intros j _. reflexivity. Qed.

(** The first loop of [setDisplayStr] ends for a string with its
    terminator among the first 256 bytes. *)
Lemma countDigits_total val : forall fuel i d k,
  0 <= i <= k -> k <= 255 -> val k = 0 -> (Z.to_nat (k - i) <= fuel)%nat ->
  exists r, countDigits fuel val i d = Done r.
Proof.
  induction fuel as [|fuel IH]; intros i d k Hi Hk Hz Hfuel; cbn [countDigits];
    destruct (Z.eqb_spec (val i) 0) as [|Hnz]; try (eexists; reflexivity).
  - assert (k = i) by lia. subst k. contradiction.
  - assert (i <> k) by (intros ->; contradiction).
    rewrite (u8_small (i + 1)) by lia.
    apply (IH (i + 1) _ k); try assumption; lia.
Qed.

Lemma setDisplayStr_frozen_done val disp k :
  testMode disp = true -> 0 <= k <= 255 -> val k = 0 ->
  setDisplayStr val disp = Done disp.
Proof.
  intros Htm Hk Hz. unfold setDisplayStr.
  destruct (countDigits_total val 256 0 0 k) as [r Hr]; try assumption; try lia.
  rewrite Hr. cbn [bind]. cbv zeta.
  rewrite blankUnused_frozen by assumption.
  rewrite showDigits_frozen by assumption. reflexivity.
Qed.

Lemma cleared_tidy : tidy BenchStates.cleared.
Proof.
  unfold tidy, BenchStates.cleared. cbn [displayAC displayD length].
  repeat split; repeat constructor.
Qed.

End DisplayFacts.

(* ================================================================== *)
(** ** Further properties, strConcat *)

Module YmFacts.
Import Ym.

Lemma byteAt_middle pre x r :
  byteAt (pre ++ x :: r) (Z.of_nat (length pre)) = Done x.
Proof.
  unfold byteAt. rewrite length_app. cbn [length].
  destruct (Z.leb_spec 0 (Z.of_nat (length pre))); [|lia].
  destruct (Z.ltb_spec (Z.of_nat (length pre)) (Z.of_nat (length pre + S (length r))));
    [|lia].
  cbn [andb]. rewrite Nat2Z.id. rewrite nth_middle. reflexivity.
Qed.

Lemma poke_middle pre x r v : poke (length pre) v (pre ++ x :: r) = pre ++ v :: r.
Proof.
  induction pre as [|y t IH]; [reflexivity|].
  cbn [length app poke]. rewrite IH. reflexivity.
Qed.

Lemma poke_length n v buf : length (poke n v buf) = length buf.
Proof.
  revert n. induction buf as [|x t IH]; intros n; [destruct n; reflexivity|].
  destruct n; cbn [poke length]; [reflexivity|]. rewrite IH. reflexivity.
Qed.

Lemma writeAt_middle pre x r v :
  writeAt (pre ++ x :: r) (Z.of_nat (length pre)) v = Done (pre ++ v :: r).
Proof.
  unfold writeAt. rewrite length_app. cbn [length].
  destruct (Z.leb_spec 0 (Z.of_nat (length pre))); [|lia].
  destruct (Z.ltb_spec (Z.of_nat (length pre)) (Z.of_nat (length pre + S (length r))));
    [|lia].
  cbn [andb]. rewrite Nat2Z.id, poke_middle. reflexivity.
Qed.

Lemma writeAt_end buf v :
  writeAt buf (Z.of_nat (length buf)) v = OutOfBounds (Z.of_nat (length buf)).
Proof.
  unfold writeAt.
  destruct (Z.ltb_spec (Z.of_nat (length buf)) (Z.of_nat (length buf))); [lia|].
  rewrite andb_false_r. reflexivity.
Qed.

Lemma app_step (a p : list Z) x r : (a ++ p ++ [x]) ++ r = (a ++ p) ++ x :: r.
Proof.
  rewrite (app_assoc a p [x]), <- (app_assoc (a ++ p) [x] r). reflexivity.
Qed.

(** The first loop stops on the terminator. *)
Lemma findEnd_stops suf : forall pre r fuel,
  no_zero suf -> (length suf < fuel)%nat ->
  Z.of_nat (length pre) + Z.of_nat (length suf) <= 255 ->
  findEnd fuel (pre ++ suf ++ 0 :: r) (Z.of_nat (length pre))
    = Done (Z.of_nat (length pre) + Z.of_nat (length suf)).
Proof.
  induction suf as [|x t IH]; intros pre r fuel Hnz Hfuel Hmax;
    (destruct fuel as [|fuel]; [cbn [length] in Hfuel; lia|]); cbn [findEnd].
  - cbn [app]. rewrite byteAt_middle. cbn [bind length]. rewrite Z.eqb_refl.
    f_equal. lia.
  - cbn [app]. rewrite byteAt_middle. cbn [bind].
    apply Forall_cons_iff in Hnz as [Hx Ht].
    destruct (Z.eqb_spec x 0) as [|_]; [contradiction|].
    cbn [length] in *. rewrite u8_small by lia.
    replace (pre ++ x :: t ++ 0 :: r) with ((pre ++ [x]) ++ t ++ 0 :: r)
      by (rewrite <- app_assoc; reflexivity).
    replace (Z.of_nat (length pre) + 1) with (Z.of_nat (length (pre ++ [x])))
      by (rewrite length_app; cbn [length]; lia).
    rewrite IH; try assumption; rewrite ?length_app; cbn [length]; try lia.
    f_equal. lia.
Qed.

(** The second loop with room for what is left to copy and its
    terminator. *)
Lemma copyFrom_fits bsuf : forall a bpre rb ys zs fuel,
  no_zero bsuf -> length ys = S (length bsuf) -> (length bsuf < fuel)%nat ->
  Z.of_nat (length bpre) + Z.of_nat (length bsuf) <= 255 ->
  copyFrom fuel (bpre ++ bsuf ++ 0 :: rb) ((a ++ bpre) ++ ys ++ zs)
           (Z.of_nat (length a)) (Z.of_nat (length bpre))
    = Done ((a ++ bpre) ++ bsuf ++ 0 :: zs).
Proof.
  induction bsuf as [|x t IH]; intros a bpre rb ys zs fuel Hnz Hys Hfuel Hmax;
    (destruct fuel as [|fuel]; [cbn [length] in Hfuel; lia|]); cbn [copyFrom];
    (destruct ys as [|y ys']; [cbn [length] in Hys; lia|]);
    cbn [app]; rewrite byteAt_middle; cbn [bind];
    replace (Z.of_nat (length a) + Z.of_nat (length bpre))
      with (Z.of_nat (length (a ++ bpre))) by (rewrite length_app; lia).
  - destruct ys' as [|]; [|cbn [length] in Hys; lia].
    rewrite Z.eqb_refl. cbn [app]. apply writeAt_middle.
  - apply Forall_cons_iff in Hnz as [Hx Ht].
    destruct (Z.eqb_spec x 0) as [|_]; [contradiction|].
    rewrite writeAt_middle. cbn [bind]. cbn [length] in *.
    rewrite u8_small by lia.
    replace (bpre ++ x :: t ++ 0 :: rb) with ((bpre ++ [x]) ++ t ++ 0 :: rb)
      by (rewrite <- app_assoc; reflexivity).
    rewrite <- (app_step a bpre x (ys' ++ zs)).
    replace (Z.of_nat (length bpre) + 1) with (Z.of_nat (length (bpre ++ [x])))
      by (rewrite length_app; cbn [length]; lia).
    rewrite IH; try assumption; rewrite ?length_app; cbn [length]; try lia.
    rewrite app_step. reflexivity.
Qed.

(** The second loop running out of room: the write one past the end of
    [to] is the first one to fail. *)
Lemma copyFrom_short ys : forall a bpre bsuf rb fuel,
  no_zero bsuf -> (length ys <= length bsuf)%nat -> (length bsuf < fuel)%nat ->
  Z.of_nat (length bpre) + Z.of_nat (length bsuf) <= 255 ->
  copyFrom fuel (bpre ++ bsuf ++ 0 :: rb) ((a ++ bpre) ++ ys)
           (Z.of_nat (length a)) (Z.of_nat (length bpre))
    = OutOfBounds (Z.of_nat (length ((a ++ bpre) ++ ys))).
Proof.
  induction ys as [|y ys' IH]; intros a bpre bsuf rb fuel Hnz Hys Hfuel Hmax;
    (destruct fuel as [|fuel]; [lia|]); cbn [copyFrom].
  - rewrite app_nil_r.
    replace (Z.of_nat (length a) + Z.of_nat (length bpre))
      with (Z.of_nat (length (a ++ bpre))) by (rewrite length_app; lia).
    destruct bsuf as [|x t]; cbn [app]; rewrite byteAt_middle; cbn [bind].
    + rewrite Z.eqb_refl. apply writeAt_end.
    + apply Forall_cons_iff in Hnz as [Hx Ht].
      destruct (Z.eqb_spec x 0) as [|_]; [contradiction|].
      rewrite writeAt_end. reflexivity.
  - destruct bsuf as [|x t]; [cbn [length] in Hys; lia|].
    cbn [app]. rewrite byteAt_middle. cbn [bind].
    apply Forall_cons_iff in Hnz as [Hx Ht].
    destruct (Z.eqb_spec x 0) as [|_]; [contradiction|].
    replace (Z.of_nat (length a) + Z.of_nat (length bpre))
      with (Z.of_nat (length (a ++ bpre))) by (rewrite length_app; lia).
    rewrite writeAt_middle. cbn [bind]. cbn [length] in *.
    rewrite u8_small by lia.
    replace (bpre ++ x :: t ++ 0 :: rb) with ((bpre ++ [x]) ++ t ++ 0 :: rb)
      by (rewrite <- app_assoc; reflexivity).
    rewrite <- (app_step a bpre x ys').
    replace (Z.of_nat (length bpre) + 1) with (Z.of_nat (length (bpre ++ [x])))
      by (rewrite length_app; cbn [length]; lia).
    rewrite IH; try assumption; rewrite ?length_app; cbn [length]; try lia.
    f_equal. rewrite ?length_app. cbn [length]. lia.
Qed.

(** The first loop with no terminator in reach of its index. *)
Lemma findEnd_spins pre rest :
  no_zero pre -> length pre = 256%nat ->
  forall fuel i, 0 <= i <= 255 -> findEnd fuel (pre ++ rest) i = OutOfFuel.
Proof.
  intros Hnz Hlen. induction fuel as [|fuel IH]; intros i Hi; [reflexivity|].
  cbn [findEnd]. unfold byteAt. rewrite length_app, Hlen.
  destruct (Z.leb_spec 0 i); [|lia].
  destruct (Z.ltb_spec i (Z.of_nat (256 + length rest))); [|lia].
  cbn [andb bind]. rewrite app_nth1 by lia.
  assert (Hx : nth (Z.to_nat i) pre 0 <> 0).
  { unfold no_zero in Hnz. rewrite Forall_forall in Hnz.
    apply Hnz. apply nth_In. lia. }
  destruct (Z.eqb_spec (nth (Z.to_nat i) pre 0) 0) as [|_]; [contradiction|].
  apply IH. unfold u8. change (2 ^ 8) with 256.
  pose proof (Z.mod_pos_bound (i + 1) 256 ltac:(lia)). lia.
Qed.

End YmFacts.

(* ================================================================== *)
(** ** The display and strConcat *)

Import Display DisplayFacts Ym YmFacts BenchStates.

(** X15.  [setDigit] with a position from 0 to 2 and the test mode off
    writes one cell of each buffer and nothing else: [displayAC[id]]
    becomes the character's B, F, C, G pattern, [displayD[id]] its A, E,
    D pattern with the decimal point bit equal to [dot], the other cells,
    the flags, the active digit and the ports stay as they were, and the
    buffers keep holding segment bits only. *)
Theorem setDigit_writes_one_cell (id val : Z) (dot : bool) (d : display) :
  tidy d -> 0 <= id <= 2 -> testMode d = false ->
  tidy (setDigit id val dot d) /\
  nth (Z.to_nat id) (displayAC (setDigit id val dot d)) 0 = fst (glyph val) /\
  (forall n, 0 <= n < 8 ->
     Z.testbit (nth (Z.to_nat id) (displayD (setDigit id val dot d)) 0) n =
       if n =? 2 then dot else Z.testbit (snd (glyph val)) n) /\
  (forall m, m <> Z.to_nat id ->
     nth m (displayAC (setDigit id val dot d)) 0 = nth m (displayAC d) 0 /\
     nth m (displayD (setDigit id val dot d)) 0 = nth m (displayD d) 0) /\
  set_buffers (displayAC d) (displayD d) (setDigit id val dot d) = d.
Proof.
  intros Ht Hid Htm. split; [apply setDigit_tidy; exact Ht|].
  destruct Ht as (Hac & Hdd & _ & _).
  unfold setDigit. destruct (Z.gtb_spec id 2) as [|_]; [lia|].
  rewrite Htm. cbv zeta. cbn [displayAC displayD set_buffers].
  split; [apply store_nth; lia|].
  split.
  - intros n Hn. rewrite store_nth by lia. apply dot_bit. exact Hn.
  - split.
    + intros m Hm. split; apply store_nth_other; congruence.
    + destruct d; reflexivity.
Qed.

Lemma setDigit_writes_one_cell_witness :
  tidy (setDigit 1 (ch "5") true cleared).
Proof.
  exact (proj1 (setDigit_writes_one_cell 1 (ch "5") true cleared
                  cleared_tidy ltac:(lia) eq_refl)).
Defined.

(** X16.  [setDisplayDot] with a position from 0 to 2 sets or clears the
    decimal point bit of [displayD[id]] and leaves every other bit and
    cell alone, in the test mode too; with a position above 2 it reads
    and writes outside [displayD]. *)
Theorem setDisplayDot_sets_bit (id : Z) (dot : bool) (d : display) :
  tidy d -> 0 <= id ->
  (2 < id -> setDisplayDot id dot d = OutOfBounds id) /\
  (id <= 2 ->
   exists d',
     setDisplayDot id dot d = Done d' /\ tidy d' /\
     (forall n, 0 <= n < 8 ->
        Z.testbit (nth (Z.to_nat id) (displayD d') 0) n =
          if n =? 2 then dot else Z.testbit (nth (Z.to_nat id) (displayD d) 0) n) /\
     (forall m, m <> Z.to_nat id -> nth m (displayD d') 0 = nth m (displayD d) 0) /\
     set_buffers (displayAC d) (displayD d) d' = d).
Proof.
  intros (Hac & Hdd & Fac & Fdd) Hid. unfold setDisplayDot. split.
  - intros Hbig. unfold element. rewrite Hdd.
    destruct (Z.ltb_spec id (Z.of_nat 3)); [lia|].
    rewrite andb_false_r. reflexivity.
  - intros Hsmall. rewrite element_in by lia. cbn [bind]. cbv zeta.
    eexists. split; [reflexivity|].
    assert (Hw : within SSD_AEDP_PORT_MASK (nth (Z.to_nat id) (displayD d) 0)).
    { rewrite Forall_forall in Fdd. apply Fdd. apply nth_In. lia. }
    split.
    + unfold tidy. cbn [displayAC displayD set_buffers].
      rewrite store_length. split; [exact Hac|]. split; [exact Hdd|].
      split; [exact Fac|]. apply store_Forall; [apply dot_within; exact Hw|exact Fdd].
    + cbn [displayAC displayD set_buffers]. split.
      * intros n Hn. rewrite store_nth by lia. apply dot_bit. exact Hn.
      * split.
        -- intros m Hm. apply store_nth_other. congruence.
        -- destruct d; reflexivity.
Qed.

Lemma setDisplayDot_sets_bit_witness :
  setDisplayDot 3 true cleared = OutOfBounds 3.
Proof.
  exact (proj1 (setDisplayDot_sets_bit 3 true cleared cleared_tidy ltac:(lia))
           ltac:(lia)).
Defined.

(** X17.  One call of [refreshDisplay], the buffers holding segment bits
    only and the active digit being 0, 1 or 2: it never reads outside
    the buffers and never changes them.  With the display off it drives
    the three digit lines high and changes nothing else.  With the
    display on it moves to the next digit in the cycle 0, 1, 2, 0, drives
    exactly the line of the digit it shows low (PB.4, PB.5, PD.4), puts
    that digit's buffer bits on the segment pins (PA.1, PA.2, PC.6,
    PC.7, PD.1, PD.2, PD.3, PD.5) and leaves every other pin as it
    was. *)
Theorem refresh_drives_one_digit (d : display) :
  tidy d -> 0 <= activeDigitId d <= 2 ->
  exists d',
    refreshDisplay d = Done d' /\ tidy d' /\ 0 <= activeDigitId d' <= 2 /\
    displayAC d' = displayAC d /\ displayD d' = displayD d /\
    (displayOff d = true ->
       activeDigitId d' = activeDigitId d /\
       PA_ODR d' = PA_ODR d /\ PC_ODR d' = PC_ODR d /\
       (forall n, 0 <= n < 8 ->
          Z.testbit (PB_ODR d') n =
            if (n =? 4) || (n =? 5) then true else Z.testbit (PB_ODR d) n) /\
       (forall n, 0 <= n < 8 ->
          Z.testbit (PD_ODR d') n =
            if n =? 4 then true else Z.testbit (PD_ODR d) n)) /\
    (displayOff d = false ->
       activeDigitId d' = (activeDigitId d + 1) mod 3 /\
       (forall n, 0 <= n < 8 ->
          Z.testbit (PA_ODR d') n =
            if (n =? 1) || (n =? 2)
            then Z.testbit (nth (Z.to_nat (activeDigitId d)) (displayAC d) 0) n
            else Z.testbit (PA_ODR d) n) /\
       (forall n, 0 <= n < 8 ->
          Z.testbit (PC_ODR d') n =
            if (n =? 6) || (n =? 7)
            then Z.testbit (nth (Z.to_nat (activeDigitId d)) (displayAC d) 0) n
            else Z.testbit (PC_ODR d) n) /\
       (forall n, 0 <= n < 8 ->
          Z.testbit (PB_ODR d') n =
            if n =? 4 then negb (activeDigitId d =? 0)
            else if n =? 5 then negb (activeDigitId d =? 1)
            else Z.testbit (PB_ODR d) n) /\
       (forall n, 0 <= n < 8 ->
          Z.testbit (PD_ODR d') n =
            if (n =? 1) || (n =? 2) || (n =? 3) || (n =? 5)
            then Z.testbit (nth (Z.to_nat (activeDigitId d)) (displayD d) 0) n
            else if n =? 4 then negb (activeDigitId d =? 2)
            else Z.testbit (PD_ODR d) n)).
Proof.
  intros Ht Hk. destruct (displayOff d) eqn:Hoff.
  - destruct (refresh_off d Hoff) as (d' & Hr & Hid & Hac & Hdd & Hpa & Hpc & Hpb & Hpd).
    exists d'. split; [exact Hr|].
    split; [unfold tidy in *; rewrite Hac, Hdd; exact Ht|].
    split; [rewrite Hid; exact Hk|].
    split; [exact Hac|]. split; [exact Hdd|].
    split; [intros _; repeat split; assumption|discriminate].
  - destruct (refresh_on d Hoff Hk Ht)
      as (d' & Hr & Hid & Hac & Hdd & Hpa & Hpc & Hpb & Hpd).
    exists d'. split; [exact Hr|].
    split; [unfold tidy in *; rewrite Hac, Hdd; exact Ht|].
    split; [rewrite Hid;
            pose proof (Z.mod_pos_bound (activeDigitId d + 1) 3 ltac:(lia)); lia|].
    split; [exact Hac|]. split; [exact Hdd|].
    split; [discriminate|intros _; repeat split; assumption].
Qed.

Lemma refresh_drives_one_digit_witness :
  exists d', refreshDisplay (setDigit 0 (ch "7") false cleared) = Done d'.
Proof.
  destruct (refresh_drives_one_digit (setDigit 0 (ch "7") false cleared)
              (setDigit_tidy 0 (ch "7") false cleared cleared_tidy)
              ltac:(vm_compute; split; discriminate))
    as (d' & Hr & _).
  exists d'. exact Hr.
Defined.

(** X18.  What [setDisplayStr] shows for a string of at most 255
    characters with no dot in front and no two dots in a row: each
    character takes the dot that follows it into its own cell; the first
    three cells go to positions n-1 down to 0, n being the number of
    cells capped at 3, so the text is right-aligned and a longer one
    loses its tail; the positions from n up to 2 are blanked first.  The
    buffers keep holding segment bits only. *)
Theorem setDisplayStr_shows_cells (val : Z -> Z) (l : list Z) (disp : display) :
  plain l = true -> Forall is_char l -> (length l <= 255)%nat -> holds val 0 l ->
  setDisplayStr val disp =
    Done (place (Nat.min 3 (length (cells l)) - 1)
            (firstn (Nat.min 3 (length (cells l))) (cells l))
            (blanks (Nat.min 3 (length (cells l))) disp)) /\
  (tidy disp ->
   tidy (place (Nat.min 3 (length (cells l)) - 1)
           (firstn (Nat.min 3 (length (cells l))) (cells l))
           (blanks (Nat.min 3 (length (cells l))) disp))).
Proof.
  intros Hp Hc Hl Hh.
  pose proof (setDisplayStr_plain val l disp Hp Hc Hl Hh) as Hs.
  split; [exact Hs|]. intros Ht.
  exact (setDisplayStr_tidy val disp _ Ht Hs).
Qed.

Lemma setDisplayStr_shows_cells_witness :
  setDisplayStr (str [ch "2"; ch "."; ch "5"]) cleared =
    Done (setDigit 0 (ch "5") false
            (setDigit 1 (ch "2") true (setDigit 2 (ch " ") false cleared))).
Proof.
  exact (proj1 (setDisplayStr_shows_cells (str [ch "2"; ch "."; ch "5"])
                  [ch "2"; ch "."; ch "5"] cleared eq_refl
                  ltac:(repeat constructor)
                  ltac:(cbn; lia)
                  (holds_str [ch "2"; ch "."; ch "5"]))).
Defined.

(** X19.  In the test mode the buffers are frozen: [setDigit] changes
    nothing, and [setDisplayStr] with any string whose terminator is
    among its first 256 bytes returns with the display as it was. *)
Theorem test_mode_freezes (val : Z -> Z) (k : Z) (disp : display) :
  testMode disp = true -> 0 <= k <= 255 -> val k = 0 ->
  setDisplayStr val disp = Done disp /\
  (forall id c dot, setDigit id c dot disp = disp).
Proof.
  intros Htm Hk Hz. split.
  - exact (setDisplayStr_frozen_done val disp k Htm Hk Hz).
  - intros id c dot. apply setDigit_frozen. exact Htm.
Qed.

Lemma test_mode_freezes_witness :
  setDisplayStr (str [ch "E"; ch "R"; ch "R"]) (set_testMode true cleared)
    = Done (set_testMode true cleared).
Proof.
  exact (proj1 (test_mode_freezes (str [ch "E"; ch "R"; ch "R"]) 3
                  (set_testMode true cleared) eq_refl ltac:(lia) eq_refl)).
Defined.

(** X20.  [initDisplay], called with the test mode off, turns the
    display on, makes digit 0 the active one, writes 8 without a dot to
    all three positions and enters the test mode, the ports untouched;
    after it no string reaches the buffers until
    [setDisplayTestMode(false, ...)], which changes the flag only. *)
Theorem initDisplay_shows_888 (disp : display) :
  tidy disp -> testMode disp = false ->
  exists d',
    initDisplay disp = Done d' /\
    testMode d' = true /\ displayOff d' = false /\ activeDigitId d' = 0 /\
    displayAC d' = repeat (fst (glyph (ch "8"))) 3 /\
    displayD d' = repeat (snd (glyph (ch "8"))) 3 /\
    set_ports (PA_ODR disp) (PB_ODR disp) (PC_ODR disp) (PD_ODR disp) d' = d' /\
    (forall val k, 0 <= k <= 255 -> val k = 0 -> setDisplayStr val d' = Done d') /\
    (forall s, setDisplayTestMode false s d' = Done (set_testMode false d')).
Proof.
  intros (Hac & Hdd & _ & _) Htm.
  destruct disp as [k acs dds off tm pa pb pc pd].
  cbn [displayAC displayD testMode] in *. subst tm.
  destruct acs as [|a0 [|a1 [|a2 [|]]]]; try discriminate Hac.
  destruct dds as [|b0 [|b1 [|b2 [|]]]]; try discriminate Hdd.
  eexists. split; [vm_compute; reflexivity|].
  split; [reflexivity|]. split; [reflexivity|]. split; [reflexivity|].
  split; [reflexivity|]. split; [reflexivity|]. split; [reflexivity|].
  split.
  - intros val j Hj Hz. apply (setDisplayStr_frozen_done val _ j); auto.
  - intros s. reflexivity.
Qed.

Lemma initDisplay_shows_888_witness :
  exists d', initDisplay cleared = Done d' /\ testMode d' = true.
Proof.
  destruct (initDisplay_shows_888 cleared cleared_tidy eq_refl)
    as (d' & Hr & Ht & _).
  exists d'. split; assumption.
Defined.

(** X21.  [strConcat] with room: [to] holding the string a and [from]
    the string b (neither longer than 255), and at least as many bytes
    behind the terminator of a as b has characters, [to] ends up holding
    a followed by b and a terminator, the bytes behind that unchanged. *)
Theorem strConcat_appends (a ra b rb : list Z) :
  no_zero a -> no_zero b -> (length a <= 255)%nat -> (length b <= 255)%nat ->
  (length b <= length ra)%nat ->
  strConcat (b ++ 0 :: rb) (a ++ 0 :: ra) = Done (a ++ b ++ 0 :: skipn (length b) ra).
Proof.
  intros Ha Hb Hla Hlb Hroom. unfold strConcat.
  pose proof (findEnd_stops a [] ra 256 Ha ltac:(lia) ltac:(cbn [length]; lia)) as Hf.
  cbn [app length Z.of_nat Z.add] in Hf. rewrite Hf. cbn [bind].
  pose proof (copyFrom_fits b a [] rb (0 :: firstn (length b) ra)
                (skipn (length b) ra) 256 Hb) as Hc.
  cbn [app length Z.of_nat Z.add] in Hc. rewrite app_nil_r in Hc.
  rewrite firstn_skipn in Hc. apply Hc.
  - rewrite length_firstn. lia.
  - lia.
  - lia.
Qed.

Lemma strConcat_appends_witness :
  strConcat [ch "1"; ch "2"; 0] [ch "P"; 0; 7; 7; 7] =
    Done [ch "P"; ch "1"; ch "2"; 0; 7].
Proof.
  exact (strConcat_appends [ch "P"] [7; 7; 7] [ch "1"; ch "2"] []
           ltac:(repeat constructor; discriminate)
           ltac:(repeat constructor; discriminate)
           ltac:(cbn; lia) ltac:(cbn; lia) ltac:(cbn; lia)).
Defined.

(** X22.  [strConcat] without room: with fewer bytes behind the
    terminator of a than b has characters, the copy loop (or the final
    terminator) writes one past the end of [to]; nothing in the function
    checks the size of [to]. *)
Theorem strConcat_overflows (a ra b rb : list Z) :
  no_zero a -> no_zero b -> (length a <= 255)%nat -> (length b <= 255)%nat ->
  (length ra < length b)%nat ->
  strConcat (b ++ 0 :: rb) (a ++ 0 :: ra)
    = OutOfBounds (Z.of_nat (length (a ++ 0 :: ra))).
Proof.
  intros Ha Hb Hla Hlb Hroom. unfold strConcat.
  pose proof (findEnd_stops a [] ra 256 Ha ltac:(lia) ltac:(cbn [length]; lia)) as Hf.
  cbn [app length Z.of_nat Z.add] in Hf. rewrite Hf. cbn [bind].
  pose proof (copyFrom_short (0 :: ra) a [] b rb 256 Hb) as Hc.
  cbn [app length Z.of_nat Z.add] in Hc. rewrite app_nil_r in Hc.
  apply Hc; cbn [length]; lia.
Qed.

Lemma strConcat_overflows_witness :
  strConcat [ch "1"; ch "2"; 0] [ch "P"; 0; 7] = OutOfBounds 3.
Proof.
  exact (strConcat_overflows [ch "P"] [7] [ch "1"; ch "2"] []
           ltac:(repeat constructor; discriminate)
           ltac:(repeat constructor; discriminate)
           ltac:(cbn; lia) ltac:(cbn; lia) ltac:(cbn; lia)).
Defined.

(** X23.  [strConcat] never returns when the first 256 bytes of [to]
    hold no terminator: the index of the first loop is an
    [unsigned char], wraps from 255 to 0 and the search starts over,
    whatever number of rounds it is given. *)
Theorem strConcat_unterminated (from pre rest : list Z) :
  no_zero pre -> length pre = 256%nat ->
  (forall fuel, findEnd fuel (pre ++ rest) 0 = OutOfFuel) /\
  strConcat from (pre ++ rest) = OutOfFuel.
Proof.
  intros Hnz Hlen. split.
  - intros fuel. apply findEnd_spins; try assumption. lia.
  - unfold strConcat. rewrite findEnd_spins by (try assumption; lia). reflexivity.
Qed.

Lemma strConcat_unterminated_witness :
  strConcat [0] (repeat 1 256 ++ [0]) = OutOfFuel.
Proof.
  exact (proj2 (strConcat_unterminated [0] (repeat 1 256) [0]
                  ltac:(apply Forall_forall; intros x Hx;
                        apply repeat_spec in Hx; subst x; discriminate)
                  ltac:(apply repeat_length))).
Defined.
